(** * Taskflow backend: a shallow embedding of the Express/Mongoose server

    The development follows the backend sources file by file:

    - [JS]            the few JavaScript built-ins the handlers call
                      (truthiness, [split], [trim], [toLowerCase], [join]);
    - [Result]        exceptions as values ([Throw] carries the JS error object);
    - [Externals]     the npm packages the code requires (express-validator,
                      bcryptjs, jsonwebtoken, the ObjectId cast of Mongoose) and
                      the process environment, as an interface;
    - [ProductModel]  models/product.model.js;
    - [TaskModel]     models/task.model.js;
    - [UserModel]     models/user.model.js;
    - [ErrorMiddleware], [AuthMiddleware]   the two middleware files;
    - [AuthRoutes], [TaskRoutes], [UserRoutes], [Server]   the routers and the
                      mounting of server.js.

    Numbers are integer-valued doubles, held as integers ([Z]); the one sum
    the modelled code takes ([updateStock]) is rounded as a double rounds it
    ([JS.Number_add]).  Time is an integer clock read
    ([new Date()] becomes an explicit argument [now]).  A Mongoose collection
    is the list of its documents in insertion order.  Schema fields that no
    modelled operation reads or writes are left out of the records. *)

From Stdlib Require Import ZArith List String Ascii Bool Lia DecimalString.
Import ListNotations.

Local Open Scope string_scope.
Local Open Scope list_scope.
Local Open Scope Z_scope.

Definition Time := Z.
Definition ObjectId := string.

(** ** JavaScript built-ins *)

Module JS.

(** [!s] for a string: the empty string is the only falsy one. *)
Definition truthy (s : string) : bool :=
  match s with EmptyString => false | _ => true end.

(** [!x] for a possibly undefined string. *)
Definition truthy_opt (o : option string) : bool :=
  match o with Some s => truthy s | None => false end.

(** [!n] for a possibly undefined number: [undefined] and [0] are falsy. *)
Definition truthy_num (o : option Z) : bool :=
  match o with Some n => negb (n =? 0) | None => false end.

(** A template literal [`${x}`] prints an undefined value as its name. *)
Definition template (o : option string) : string :=
  match o with Some s => s | None => "undefined" end.

(** [s.split(sep)] for a one-character separator; the result is never
    empty ([''.split(' ')] is [['']]). *)
Fixpoint split (sep : ascii) (s : string) : list string :=
  match s with
  | EmptyString => [EmptyString]
  | String c rest =>
      if Ascii.eqb c sep then EmptyString :: split sep rest
      else match split sep rest with
           | w :: ws => String c w :: ws
           | [] => [String c EmptyString]
           end
  end.

(** [xs.join(sep)]. *)
Definition join (sep : string) (xs : list string) : string :=
  String.concat sep xs.

(** [xs.includes(x)] on strings ([===]). *)
Definition includes (xs : list string) (x : string) : bool :=
  existsb (String.eqb x) xs.

Definition map_chars (f : ascii -> ascii) : string -> string :=
  fix go (s : string) : string :=
    match s with
    | EmptyString => EmptyString
    | String c rest => String (f c) (go rest)
    end.

Definition lower_char (c : ascii) : ascii :=
  let n := nat_of_ascii c in
  if (Nat.leb 65 n && Nat.leb n 90)%bool then ascii_of_nat (n + 32) else c.

(** [s.toLowerCase()]; model strings are ASCII. *)
Definition toLowerCase : string -> string := map_chars lower_char.

(** The white space [trim] removes: tab, line feed, vertical tab, form
    feed, carriage return and space. *)
Definition is_space (c : ascii) : bool :=
  let n := nat_of_ascii c in
  ((Nat.leb 9 n && Nat.leb n 13) || Nat.eqb n 32)%bool.

Fixpoint trimStart (s : string) : string :=
  match s with
  | EmptyString => EmptyString
  | String c rest => if is_space c then trimStart rest else s
  end.

Fixpoint trimEnd (s : string) : string :=
  match s with
  | EmptyString => EmptyString
  | String c rest =>
      match trimEnd rest with
      | EmptyString => if is_space c then EmptyString else String c EmptyString
      | r => String c r
      end
  end.

(** [s.trim()]. *)
Definition trim (s : string) : string := trimEnd (trimStart s).

(** [Math.max(a, b)] and [Math.min(a, b)] on integers. *)
Definition Math_max : Z -> Z -> Z := Z.max.
Definition Math_min : Z -> Z -> Z := Z.min.

(** The double nearest to an integer: an integer of magnitude up to
    [2^53] is a double; a larger one keeps its 53 leading bits, rounded
    to nearest, a tie going to the even significand.  (Magnitudes from
    [2^1024] on, which a double holds as [Infinity], are not modelled.) *)
Definition round53 (z : Z) : Z :=
  let n := Z.abs z in
  if n <=? 2 ^ 53 then z
  else
    let e := Z.log2 n - 52 in
    let q := n / 2 ^ e in
    let r := n mod 2 ^ e in
    let half := 2 ^ (e - 1) in
    let up := ((half <? r) || ((r =? half) && Z.odd q))%bool in
    Z.sgn z * ((if up then q + 1 else q) * 2 ^ e).

(** [a + b] on integer-valued doubles: the exact sum, rounded. *)
Definition Number_add (a b : Z) : Z := round53 (a + b).

End JS.

(** ** Exceptions *)

(** [err.code] is a number for MongoDB errors and a string for Multer's. *)
Inductive Code : Type :=
| CodeNum (n : Z)
| CodeStr (s : string).

Definition code_is_num (c : option Code) (n : Z) : bool :=
  match c with Some (CodeNum m) => m =? n | _ => false end.

Definition code_is_str (c : option Code) (s : string) : bool :=
  match c with Some (CodeStr t) => String.eqb t s | _ => false end.

(** The properties of a thrown JavaScript error that the server reads.
    [keyValue] lists the duplicated fields of a MongoDB E11000 error, in
    key order; [errors] lists the (path, message) pairs of a Mongoose
    ValidationError, in key order.  An absent property is [None]. *)
Record JsError : Type := mkJsError {
  name : string;
  message : option string;
  code : option Code;
  keyValue : option (list (string * string));
  errors : option (list (string * string));
  statusCode : option Z;
  stack : option string
}.

(** [new Error(msg)] with the given [name]. *)
Definition plainError (nm msg : string) : JsError :=
  mkJsError nm (Some msg) None None None None None.

(** Mongoose's ValidationError over the failed (path, message) pairs; its
    own message is ["Validation failed: path: message, ..."]. *)
Definition validationError (failed : list (string * string)) : JsError :=
  mkJsError "ValidationError"
    (Some ("Validation failed: " ++
           JS.join ", " (map (fun pm => fst pm ++ ": " ++ snd pm) failed))%string)
    None None (Some failed) None None.

(** MongoDB's duplicate-key error for a unique index on [field]. *)
Definition duplicateKeyError (field value : string) : JsError :=
  mkJsError "MongoServerError"
    (Some ("E11000 duplicate key error dup key: { " ++ field ++ " }")%string)
    (Some (CodeNum 11000)) (Some [(field, value)]) None None None.

(** Mongoose's CastError for a value that is no ObjectId. *)
Definition castError (value path : string) : JsError :=
  mkJsError "CastError"
    (Some ("Cast to ObjectId failed for value " ++ value ++ " at path " ++ path)%string)
    None None None None None.

Inductive Result (A : Type) : Type :=
| Ok (a : A)
| Throw (e : JsError).

Arguments Ok {A} a.
Arguments Throw {A} e.

Definition bind {A B : Type} (r : Result A) (k : A -> Result B) : Result B :=
  match r with
  | Ok a => k a
  | Throw e => Throw e
  end.

Notation "'let*' x ':=' r 'in' k" := (bind r (fun x => k))
  (at level 10, x name, r at level 100, k at level 200).

(** A Mongoose document method runs on [this], may write the collection and
    may reject: the three are returned together. *)
Record Run (T D : Type) : Type := mkRun {
  this : T;
  collection : list D;
  outcome : Result unit
}.

Arguments mkRun {T D} this collection outcome.
Arguments this {T D} r.
Arguments collection {T D} r.
Arguments outcome {T D} r.

(** [Model.findById] and the write of [doc.save()], for a collection whose
    documents carry their [_id]: [save] replaces the stored document with
    the same [_id], or inserts at the end when there is none. *)
Section Collection.
Variable D : Type.
Variable id_of : D -> ObjectId.

Definition findById (id : ObjectId) (c : list D) : option D :=
  find (fun d => String.eqb (id_of d) id) c.

Fixpoint persist (d : D) (c : list D) : list D :=
  match c with
  | [] => [d]
  | x :: rest =>
      if String.eqb (id_of x) (id_of d) then d :: rest
      else x :: persist d rest
  end.

(** [Model.findByIdAndDelete]: removes the first document with that id. *)
Fixpoint remove (id : ObjectId) (c : list D) : list D :=
  match c with
  | [] => []
  | x :: rest =>
      if String.eqb (id_of x) id then rest else x :: remove id rest
  end.
End Collection.

Arguments findById {D} id_of id c.
Arguments persist {D} id_of d c.
Arguments remove {D} id_of id c.

(** The decimal spelling of an array index, for validation paths. *)
Definition index_string (i : nat) : string :=
  NilEmpty.string_of_uint (Nat.to_uint i).

(** ** models/product.model.js *)

Module ProductModel.

Record Image : Type := mkImage {
  url : string;
  alt : option string;
  isPrimary : bool;
  order : Z
}.

Record Product : Type := mkProduct {
  _id : ObjectId;
  stock : Z;
  images : list Image
}.

Definition set_isPrimary (b : bool) (img : Image) : Image :=
  mkImage (url img) (alt img) b (order img).

Definition set_stock (n : Z) (p : Product) : Product :=
  mkProduct (_id p) n (images p).

Definition set_images (imgs : list Image) (p : Product) : Product :=
  mkProduct (_id p) (stock p) imgs.

(** [xs.forEach((x, index) => ...)] where the callback assigns to [x]. *)
Fixpoint forEach_from {A : Type} (f : A -> nat -> A) (i : nat) (xs : list A) : list A :=
  match xs with
  | [] => []
  | x :: rest => f x i :: forEach_from f (S i) rest
  end.

Definition forEach {A : Type} (f : A -> nat -> A) (xs : list A) : list A :=
  forEach_from f 0%nat xs.

(** The number of images flagged primary. *)
Definition primaryCount (imgs : list Image) : nat :=
  List.length (filter isPrimary imgs).

(** Schema validators of the modelled paths: [stock] has [min: 0], every
    image has a required [url]. *)
Fixpoint validateImages (i : nat) (imgs : list Image) : list (string * string) :=
  match imgs with
  | [] => []
  | img :: rest =>
      (if JS.truthy (url img) then []
       else [(("images." ++ index_string i ++ ".url")%string,
              "Path `url` is required.")])
      ++ validateImages (S i) rest
  end.

Definition validate (p : Product) : list (string * string) :=
  (if stock p <? 0 then [("stock", "Stock cannot be negative")] else [])
  ++ validateImages 0%nat (images p).

(** [productSchema.pre("save", ...)]: ensure only one primary image. *)
Definition preSave (p : Product) : Product :=
  if (0 <? List.length (images p))%nat then
    let primaryImages := filter isPrimary (images p) in
    if (1 <? List.length primaryImages)%nat then
      set_images
        (forEach (fun img index => set_isPrimary (index =? 0)%nat img) (images p))
        p
    else p
  else p.

(** [doc.save()]: validation, then the pre-save hook, then the write. *)
Definition save (p : Product) (c : list Product) : Run Product Product :=
  match validate p with
  | [] => let p' := preSave p in mkRun p' (persist _id p' c) (Ok tt)
  | failed => mkRun p c (Throw (validationError failed))
  end.

(** [productSchema.methods.updateStock]. *)
Definition updateStock (quantity : Z) (p : Product) (c : list Product) : Run Product Product :=
  let p := set_stock (JS.Math_max 0 (JS.Number_add (stock p) quantity)) p in
  save p c.

(** [productSchema.methods.addImage]. *)
Definition addImage (imageData : Image) (p : Product) (c : list Product) : Run Product Product :=
  let p :=
    if isPrimary imageData
    then set_images (map (set_isPrimary false) (images p)) p
    else p in
  let p := set_images (images p ++ [imageData]) p in
  save p c.

End ProductModel.

(** ** The packages and the environment the server requires *)

(** The claims of a JSON web token: [{ userId }] for a session token,
    [{ userId, type }] for a reset token. *)
Record Payload : Type := mkPayload {
  userId : string;
  type : option string
}.

(** express-validator, bcryptjs, jsonwebtoken, Mongoose's ObjectId cast, the
    regular-expression engine and [process.env] are not part of the
    repository: the server is modelled over any implementation of them.
    [bcrypt_hash] takes the random salt it draws as an argument;
    [jwt_sign] and [jwt_verify] take the secret and read the clock;
    [jwt_verify] throws an error whose [name] tells why.  [jwt.sign]
    throws when the secret is unset or the [expiresIn] option is
    malformed: [jwt_sign_error] gives the error it throws for a secret and
    an [expiresIn], and [jwt_sign] the token it returns otherwise. *)
Class Externals : Type := {
  isEmail : string -> bool;
  normalizeEmail : string -> string;
  emailRegexTest : string -> bool;
  bcrypt_hash : string -> Z -> Z -> string;
  bcrypt_compare : string -> string -> bool;
  jwt_sign_error : option string -> string -> option JsError;
  jwt_sign : Payload -> option string -> string -> Time -> string;
  jwt_verify : string -> option string -> Time -> Result Payload;
  castObjectId : string -> option ObjectId;
  JWT_SECRET : option string;
  JWT_EXPIRES_IN : option string;
  NODE_ENV : option string
}.

(** ** models/task.model.js *)

Module TaskModel.

Record Task : Type := mkTask {
  _id : ObjectId;
  status : string;
  progress : Z;
  completedAt : option Time
}.

Definition set_status (s : string) (t : Task) : Task :=
  mkTask (_id t) s (progress t) (completedAt t).

Definition set_progress (n : Z) (t : Task) : Task :=
  mkTask (_id t) (status t) n (completedAt t).

Definition set_completedAt (d : option Time) (t : Task) : Task :=
  mkTask (_id t) (status t) (progress t) d.

Definition statusEnum : list string :=
  ["pending"; "in-progress"; "completed"; "cancelled"].

Definition validateStatus (s : string) : list (string * string) :=
  if JS.includes statusEnum s then []
  else [("status", ("`" ++ s ++ "` is not a valid enum value for path `status`.")%string)].

Definition validateProgress (n : Z) : list (string * string) :=
  if n <? 0 then [("progress", "Progress cannot be negative")]
  else if 100 <? n then [("progress", "Progress cannot exceed 100%")]
  else [].

Definition validate (t : Task) : list (string * string) :=
  validateStatus (status t) ++ validateProgress (progress t).

(** [taskSchema.pre("save", ...)]: update [completedAt].  A stored date is
    an object, hence truthy: [!this.completedAt] holds exactly for [null]. *)
Definition preSave (now : Time) (t : Task) : Task :=
  if (String.eqb (status t) "completed"
      && match completedAt t with None => true | Some _ => false end)%bool
  then set_completedAt (Some now) t
  else if negb (String.eqb (status t) "completed")
  then set_completedAt None t
  else t.

(** [doc.save()]: validation, then the pre-save hook, then the write. *)
Definition save (now : Time) (t : Task) (c : list Task) : Run Task Task :=
  match validate t with
  | [] => let t' := preSave now t in mkRun t' (persist _id t' c) (Ok tt)
  | failed => mkRun t c (Throw (validationError failed))
  end.

(** [taskSchema.methods.updateProgress]. *)
Definition updateProgress (progress_arg : Z) (now : Time) (t : Task) (c : list Task)
  : Run Task Task :=
  let t := set_progress (JS.Math_max 0 (JS.Math_min 100 progress_arg)) t in
  let t :=
    if progress t =? 100 then set_status "completed" t
    else if 0 <? progress t then set_status "in-progress" t
    else t in
  save now t c.

(** The body of an update request: the fields it carries. *)
Record Update : Type := mkUpdate {
  u_status : option string;
  u_progress : option Z;
  u_completedAt : option (option Time)
}.

(** The update validators.  Mongoose walks the keys of the update from the
    last to the first, so for a body that lists [status] before [progress]
    the failure of [progress] is reported first. *)
Definition validateUpdate (u : Update) : list (string * string) :=
  match u_progress u with Some n => validateProgress n | None => [] end
  ++ match u_status u with Some s => validateStatus s | None => [] end.

(** [$set] of the fields the update carries. *)
Definition applyUpdate (u : Update) (t : Task) : Task :=
  mkTask (_id t)
    (match u_status u with Some s => s | None => status t end)
    (match u_progress u with Some n => n | None => progress t end)
    (match u_completedAt u with Some d => d | None => completedAt t end).

Fixpoint updateFirst (id : ObjectId) (u : Update) (c : list Task) : list Task :=
  match c with
  | [] => []
  | t :: rest =>
      if String.eqb (_id t) id then applyUpdate u t :: rest
      else t :: updateFirst id u rest
  end.

Section Statics.
Context {E : Externals}.

(** [Task.findById(id)]: the id is cast first. *)
Definition findByIdCast (id : string) (c : list Task) : Result (option Task) :=
  match castObjectId id with
  | None => Throw (castError id "_id")
  | Some oid => Ok (findById _id oid c)
  end.

(** [Task.findByIdAndUpdate(id, update, { new: true, runValidators: true })]:
    the id is cast, the update validators run on the fields of the
    update, the first document with that id is updated in the store
    (no document hook runs) and the updated document is returned. *)
Definition findByIdAndUpdate (id : string) (u : Update) (c : list Task)
  : list Task * Result (option Task) :=
  match castObjectId id with
  | None => (c, Throw (castError id "_id"))
  | Some oid =>
      match validateUpdate u with
      | [] => let c' := updateFirst oid u c in (c', Ok (findById _id oid c'))
      | failed => (c, Throw (validationError failed))
      end
  end.
End Statics.

End TaskModel.

(** ** models/user.model.js *)

Module UserModel.

(** [password] is [None] on a document loaded without the field (the
    schema has [select: false]). *)
Record User : Type := mkUser {
  _id : ObjectId;
  firstName : string;
  lastName : string;
  email : string;
  password : option string;
  role : string;
  isActive : bool;
  lastLogin : option Time
}.

(** A document in memory: its fields, whether it was never stored, and
    the paths assigned since it was loaded or stored. *)
Record Document : Type := mkDocument {
  fields : User;
  isNew : bool;
  modifiedPaths : list string
}.

Definition set_password (pw : option string) (u : User) : User :=
  mkUser (_id u) (firstName u) (lastName u) (email u) pw (role u) (isActive u)
    (lastLogin u).

Definition set_lastLogin (d : option Time) (u : User) : User :=
  mkUser (_id u) (firstName u) (lastName u) (email u) (password u) (role u)
    (isActive u) d.

(** [doc.path = value]. *)
Definition assign (path : string) (f : User -> User) (d : Document) : Document :=
  mkDocument (f (fields d)) (isNew d) (path :: modifiedPaths d).

Definition isModified (path : string) (d : Document) : bool :=
  JS.includes (modifiedPaths d) path.

(** A document as a query returns it. *)
Definition loaded (u : User) : Document := mkDocument u false [].

(** [.select("-password")], the default, and [.select("+password")]. *)
Definition withoutPassword (u : User) : User := set_password None u.

Definition roleEnum : list string := ["user"; "admin"; "manager"].

(** [new User({ firstName, lastName, email, password, role })] with a
    fresh [_id]: the schema setters ([trim], [lowercase]) and defaults
    ([isActive: true], [lastLogin: null]) apply. *)
Definition newUser (oid : ObjectId) (first last mail pw rl : string) : Document :=
  mkDocument
    (mkUser oid (JS.trim first) (JS.trim last) (JS.trim (JS.toLowerCase mail))
       (Some pw) rl true None)
    true
    ["firstName"; "lastName"; "email"; "password"; "role"].

Definition nameLength (s : string) : Z := Z.of_nat (String.length s).

Section Schema.
Context {E : Externals}.

(** The validators of each path, first failure reported; an unselected
    password is not validated. *)
Definition validate (u : User) : list (string * string) :=
  (if negb (JS.truthy (firstName u)) then [("firstName", "First name is required")]
   else if 50 <? nameLength (firstName u)
   then [("firstName", "First name cannot exceed 50 characters")] else [])
  ++ (if negb (JS.truthy (lastName u)) then [("lastName", "Last name is required")]
      else if 50 <? nameLength (lastName u)
      then [("lastName", "Last name cannot exceed 50 characters")] else [])
  ++ (if negb (JS.truthy (email u)) then [("email", "Email is required")]
      else if negb (emailRegexTest (email u))
      then [("email", "Please enter a valid email")] else [])
  ++ (match password u with
      | None => []
      | Some pw =>
          if negb (JS.truthy pw) then [("password", "Password is required")]
          else if nameLength pw <? 6
          then [("password", "Password must be at least 6 characters long")]
          else []
      end)
  ++ (if JS.includes roleEnum (role u) then []
      else [("role", ("`" ++ role u ++ "` is not a valid enum value for path `role`.")%string)]).

(** [userSchema.pre("save", ...)]: hash the password when it was
    modified (or is new), with cost 12. *)
Definition preSave (salt : Z) (d : Document) : Document :=
  if negb (isModified "password" d) then d
  else
    match password (fields d) with
    | Some pw =>
        let hashedPassword := bcrypt_hash pw 12 salt in
        mkDocument (set_password (Some hashedPassword) (fields d)) (isNew d)
          (modifiedPaths d)
    | None => d
    end.

(** The unique index on [email]: another document holds the address. *)
Definition emailTaken (u : User) (c : list User) : bool :=
  existsb (fun x => (String.eqb (email x) (email u)
                     && negb (String.eqb (_id x) (_id u)))%bool) c.

(** What the store keeps of a written document: an unselected password
    is not part of the write, the stored one stays. *)
Definition merged (u : User) (c : list User) : User :=
  match password u with
  | Some _ => u
  | None =>
      match findById _id (_id u) c with
      | Some old => set_password (password old) u
      | None => u
      end
  end.

(** [doc.save()]: validation, the pre-save hook, then the insert (new
    document) or update (stored document) under the indexes. *)
Definition save (salt : Z) (d : Document) (c : list User) : Run Document User :=
  match validate (fields d) with
  | (_ :: _) as failed => mkRun d c (Throw (validationError failed))
  | [] =>
      let d := preSave salt d in
      let u := fields d in
      if isNew d then
        match findById _id (_id u) c with
        | Some _ => mkRun d c (Throw (duplicateKeyError "_id" (_id u)))
        | None =>
            if emailTaken u c
            then mkRun d c (Throw (duplicateKeyError "email" (email u)))
            else mkRun (loaded u) (c ++ [u]) (Ok tt)
        end
      else if (isModified "email" d && emailTaken u c)%bool
      then mkRun d c (Throw (duplicateKeyError "email" (email u)))
      else
        match findById _id (_id u) c with
        | None =>
            mkRun d c
              (Throw (plainError "DocumentNotFoundError"
                        ("No document found for query { _id: " ++ _id u ++ " }")%string))
        | Some _ => mkRun (loaded u) (persist _id (merged u c) c) (Ok tt)
        end
  end.

(** [userSchema.methods.comparePassword]: bcryptjs rejects a missing
    hash. *)
Definition comparePassword (candidatePassword : string) (u : User) : Result bool :=
  match password u with
  | Some hash => Ok (bcrypt_compare candidatePassword hash)
  | None => Throw (plainError "Error" "Illegal arguments: string, undefined")
  end.

(** [userSchema.statics.findByEmail], with or without
    [.select("+password")]. *)
Definition findByEmail (selectPassword : bool) (mail : string) (c : list User)
  : option Document :=
  match find (fun u => String.eqb (email u) (JS.toLowerCase mail)) c with
  | Some u => Some (loaded (if selectPassword then u else withoutPassword u))
  | None => None
  end.

(** [User.findById(id).select("-password")]. *)
Definition findByIdCast (id : string) (c : list User) : Result (option User) :=
  match castObjectId id with
  | None => Throw (castError id "_id")
  | Some oid =>
      Ok (match findById _id oid c with
          | Some u => Some (withoutPassword u)
          | None => None
          end)
  end.

(** [User.findByIdAndDelete(id)]. *)
Definition findByIdAndDelete (id : string) (c : list User)
  : list User * Result (option User) :=
  match castObjectId id with
  | None => (c, Throw (castError id "_id"))
  | Some oid => (remove _id oid c, Ok (findById _id oid c))
  end.
End Schema.

(** [userSchema.methods.getPublicProfile]: the document without its
    password. *)
Definition getPublicProfile (u : User) : User := withoutPassword u.

End UserModel.

(** ** Requests, responses and the database *)

Record Db : Type := mkDb {
  users : list UserModel.User;
  tasks : list TaskModel.Task;
  products : list ProductModel.Product
}.

Definition set_users (us : list UserModel.User) (db : Db) : Db :=
  mkDb us (tasks db) (products db).

Definition set_tasks (ts : list TaskModel.Task) (db : Db) : Db :=
  mkDb (users db) ts (products db).

(** What one request draws from outside the program: the clock
    ([new Date()], the token's issue time), the ObjectId a [new Model()]
    generates and the salt of a [bcrypt.hash] (no handler hashes twice). *)
Record World : Type := mkWorld {
  now : Time;
  freshId : ObjectId;
  salt : Z
}.

Module Http.

(** The [data] member of an envelope. *)
Inductive Data : Type :=
| UserAndToken (user : UserModel.User) (token : string)
| TaskData (task : TaskModel.Task).

(** The JSON envelope with the status it is sent under; [errors] holds
    the messages of express-validator's [errors.array()]. *)
Record Response : Type := mkResponse {
  status : Z;
  success : bool;
  message : option string;
  errors : option (list string);
  data : option Data;
  stack : option string
}.

(** [res.status(code).json({ success: false, message })]. *)
Definition failure (code : Z) (msg : string) : Response :=
  mkResponse code false (Some msg) None None None.

(** The incoming request: the [Authorization] header, the [:id] route
    parameter, the parsed body and the user the auth middleware attached. *)
Record Request (B : Type) : Type := mkRequest {
  authorization : option string;
  params_id : string;
  body : B;
  user : option UserModel.User
}.

Arguments mkRequest {B} authorization params_id body user.
Arguments authorization {B} r.
Arguments params_id {B} r.
Arguments body {B} r.
Arguments user {B} r.

Definition set_user {B : Type} (u : UserModel.User) (req : Request B) : Request B :=
  mkRequest (authorization req) (params_id req) (body req) (Some u).

(** A route handler or router: it may write the database, and either
    sends a response or passes an error on ([next(err)], a [Throw]). *)
Definition Handler (B : Type) : Type :=
  Request B -> World -> Db -> Db * Result Response.

(** A middleware in front of a handler either calls [next()] with the
    request or responds itself. *)
Inductive Passed (B : Type) : Type :=
| Next (req : Request B)
| Respond (res : Response).

Arguments Next {B} req.
Arguments Respond {B} res.

Definition Middleware (B : Type) : Type := Request B -> World -> Db -> Passed B.

(** [router.verb(path, middleware, handler)] and
    [app.use(path, middleware, router)]. *)
Definition use {B : Type} (mw : Middleware B) (h : Handler B) : Handler B :=
  fun req w db =>
    match mw req w db with
    | Next req' => h req' w db
    | Respond res => (db, Ok res)
    end.

End Http.

(** ** middleware/error.middleware.js *)

Module ErrorMiddleware.
Section WithExternals.
Context {E : Externals}.

(** The local variable [error]: the two properties read at the end. *)
Record ErrorVar : Type := mkErrorVar {
  ev_message : option string;
  ev_statusCode : option Z
}.

Definition typeError : JsError :=
  plainError "TypeError" "Cannot convert undefined or null to object".

(** [errorHandler(err, req, res, next)]; the logging is left out.  The
    tests are separate [if] statements: a later match overwrites
    [error]. *)
Definition errorHandler (err : JsError) : Result Http.Response :=
  let error := mkErrorVar (message err) (statusCode err) in
  let error :=
    if String.eqb (name err) "CastError"
    then mkErrorVar (Some "Resource not found") (Some 404) else error in
  let* error :=
    (if code_is_num (code err) 11000 then
       match keyValue err with
       | None => Throw typeError
       | Some kv =>
           let field := option_map fst (hd_error kv) in
           Ok (mkErrorVar (Some (JS.template field ++ " already exists")%string)
                 (Some 400))
       end
     else Ok error) in
  let* error :=
    (if String.eqb (name err) "ValidationError" then
       match errors err with
       | None => Throw typeError
       | Some vals =>
           Ok (mkErrorVar (Some (JS.join ", " (map snd vals))) (Some 400))
       end
     else Ok error) in
  let error :=
    if String.eqb (name err) "JsonWebTokenError"
    then mkErrorVar (Some "Invalid token") (Some 401) else error in
  let error :=
    if String.eqb (name err) "TokenExpiredError"
    then mkErrorVar (Some "Token expired") (Some 401) else error in
  let error :=
    if code_is_str (code err) "LIMIT_FILE_SIZE"
    then mkErrorVar (Some "File too large") (Some 400) else error in
  let error :=
    if code_is_str (code err) "LIMIT_UNEXPECTED_FILE"
    then mkErrorVar (Some "Unexpected file field") (Some 400) else error in
  let statusCode :=
    if JS.truthy_num (ev_statusCode error) then ev_statusCode error
    else if JS.truthy_num (statusCode err) then statusCode err
    else Some 500 in
  let message :=
    if JS.truthy_opt (ev_message error) then ev_message error
    else Some "Server Error" in
  Ok (Http.mkResponse
        (match statusCode with Some n => n | None => 500 end)
        false message None None
        (match NODE_ENV with
         | Some env => if String.eqb env "development" then stack err else None
         | None => None
         end)).

(** [asyncHandler(fn)]: a rejection of [fn] goes to [next]; in the
    model a handler's [Throw] already is that call. *)
Definition asyncHandler {B : Type} (fn : Http.Handler B) : Http.Handler B :=
  fun req w db => fn req w db.

(** [new AppError(message, statusCode)]. *)
Definition AppError (msg : string) (code : Z) : JsError :=
  mkJsError "Error" (Some msg) None None None (Some code) None.
End WithExternals.
End ErrorMiddleware.

(** ** middleware/auth.middleware.js *)

Module AuthMiddleware.
Section WithExternals.
Context {E : Externals}.

(** [authHeader && authHeader.split(" ")[1]]: [None] is [undefined]. *)
Definition bearerToken (authHeader : option string) : option string :=
  match authHeader with
  | None => None
  | Some h => if JS.truthy h then nth_error (JS.split " " h) 1 else Some h
  end.

(** The [catch] block of [authenticateToken]. *)
Definition authCatch (error : JsError) : Http.Response :=
  if String.eqb (name error) "JsonWebTokenError"
  then Http.failure 401 "Invalid token"
  else if String.eqb (name error) "TokenExpiredError"
  then Http.failure 401 "Token has expired"
  else Http.failure 500 "Authentication error".

(** [authenticateToken(req, res, next)]. *)
Definition authenticateToken {B : Type} : Http.Middleware B :=
  fun req w db =>
    let authHeader := Http.authorization req in
    match bearerToken authHeader with
    | None => Http.Respond (Http.failure 401 "Access token is required")
    | Some token =>
        if negb (JS.truthy token) then
          Http.Respond (Http.failure 401 "Access token is required")
        else
          match jwt_verify token JWT_SECRET (now w) with
          | Throw error => Http.Respond (authCatch error)
          | Ok decoded =>
              match UserModel.findByIdCast (userId decoded) (users db) with
              | Throw error => Http.Respond (authCatch error)
              | Ok None => Http.Respond (Http.failure 401 "User not found")
              | Ok (Some user) =>
                  if negb (UserModel.isActive user)
                  then Http.Respond (Http.failure 401 "User account is deactivated")
                  else Http.Next (Http.set_user user req)
              end
          end
    end.

(** [requireRole(roles)]. *)
Definition requireRole {B : Type} (roles : list string) : Http.Middleware B :=
  fun req _ _ =>
    match Http.user req with
    | None => Http.Respond (Http.failure 401 "Authentication required")
    | Some u =>
        if negb (JS.includes roles (UserModel.role u))
        then Http.Respond (Http.failure 403 "Insufficient permissions")
        else Http.Next req
    end.

Definition requireAdmin {B : Type} : Http.Middleware B := requireRole ["admin"].

Definition requireAdminOrManager {B : Type} : Http.Middleware B :=
  requireRole ["admin"; "manager"].
End WithExternals.
End AuthMiddleware.

(** ** routes/auth.routes.js *)

Module AuthRoutes.

Record RegisterBody : Type := mkRegisterBody {
  r_firstName : string;
  r_lastName : string;
  r_email : string;
  r_password : string;
  r_role : option string
}.

Record LoginBody : Type := mkLoginBody {
  l_email : string;
  l_password : string
}.

Definition lengthBetween (lo hi : Z) (s : string) : bool :=
  let n := Z.of_nat (String.length s) in ((lo <=? n) && (n <=? hi))%bool.

Section WithExternals.
Context {E : Externals}.

(** [generateToken(userId)]. *)
Definition generateToken (uid : ObjectId) (t : Time) : Result string :=
  let expiresIn :=
    match JWT_EXPIRES_IN with
    | Some e => if JS.truthy e then e else "7d"
    | None => "7d"
    end in
  match jwt_sign_error JWT_SECRET expiresIn with
  | Some e => Throw e
  | None => Ok (jwt_sign (mkPayload uid None) JWT_SECRET expiresIn t)
  end.

(** The validation chains of [/register], in order; each yields its
    message when its check fails.  [trim()] runs before [isLength]. *)
Definition registerErrors (b : RegisterBody) : list string :=
  (if lengthBetween 2 50 (JS.trim (r_firstName b)) then []
   else ["First name must be between 2 and 50 characters"])
  ++ (if lengthBetween 2 50 (JS.trim (r_lastName b)) then []
      else ["Last name must be between 2 and 50 characters"])
  ++ (if isEmail (r_email b) then [] else ["Please provide a valid email"])
  ++ (if 6 <=? Z.of_nat (String.length (r_password b)) then []
      else ["Password must be at least 6 characters long"])
  ++ (match r_role b with
      | None => []
      | Some r => if JS.includes ["user"; "admin"; "manager"] r then []
                  else ["Invalid role"]
      end).

(** The body after the sanitizers [trim()] and [normalizeEmail()]. *)
Definition registerSanitized (b : RegisterBody) : RegisterBody :=
  mkRegisterBody (JS.trim (r_firstName b)) (JS.trim (r_lastName b))
    (normalizeEmail (r_email b)) (r_password b) (r_role b).

Definition validationFailed (errs : list string) : Http.Response :=
  Http.mkResponse 400 false (Some "Validation failed") (Some errs) None None.

(** [POST /api/auth/register]. *)
Definition register : Http.Handler RegisterBody :=
  ErrorMiddleware.asyncHandler (fun req w db =>
    let errors := registerErrors (Http.body req) in
    match errors with
    | _ :: _ => (db, Ok (validationFailed errors))
    | [] =>
        let b := registerSanitized (Http.body req) in
        let role := match r_role b with Some r => r | None => "user" end in
        match UserModel.findByEmail false (r_email b) (users db) with
        | Some _ =>
            (db, Ok (Http.failure 400 "User with this email already exists"))
        | None =>
            let user :=
              UserModel.newUser (freshId w) (r_firstName b) (r_lastName b)
                (r_email b) (r_password b) role in
            let saved := UserModel.save (salt w) user (users db) in
            match outcome saved with
            | Throw e => (set_users (collection saved) db, Throw e)
            | Ok _ =>
                let user := this saved in
                match generateToken (UserModel._id (UserModel.fields user)) (now w) with
                | Throw e => (set_users (collection saved) db, Throw e)
                | Ok token =>
                    let user :=
                      UserModel.assign "lastLogin"
                        (UserModel.set_lastLogin (Some (now w))) user in
                    let saved' := UserModel.save (salt w) user (collection saved) in
                    match outcome saved' with
                    | Throw e => (set_users (collection saved') db, Throw e)
                    | Ok _ =>
                        (set_users (collection saved') db,
                         Ok (Http.mkResponse 201 true
                               (Some "User registered successfully") None
                               (Some (Http.UserAndToken
                                        (UserModel.getPublicProfile
                                           (UserModel.fields (this saved')))
                                        token))
                               None))
                    end
                end
            end
        end
    end).

(** The validation chains of [/login]. *)
Definition loginErrors (b : LoginBody) : list string :=
  (if isEmail (l_email b) then [] else ["Please provide a valid email"])
  ++ (if JS.truthy (l_password b) then [] else ["Password is required"]).

(** [POST /api/auth/login]. *)
Definition login : Http.Handler LoginBody :=
  ErrorMiddleware.asyncHandler (fun req w db =>
    let errors := loginErrors (Http.body req) in
    match errors with
    | _ :: _ => (db, Ok (validationFailed errors))
    | [] =>
        let email := normalizeEmail (l_email (Http.body req)) in
        let password := l_password (Http.body req) in
        match UserModel.findByEmail true email (users db) with
        | None => (db, Ok (Http.failure 401 "Invalid email or password"))
        | Some user =>
            if negb (UserModel.isActive (UserModel.fields user)) then
              (db, Ok (Http.failure 401 "Account is deactivated"))
            else
              match UserModel.comparePassword password (UserModel.fields user) with
              | Throw e => (db, Throw e)
              | Ok isPasswordValid =>
                  if negb isPasswordValid then
                    (db, Ok (Http.failure 401 "Invalid email or password"))
                  else
                    match generateToken (UserModel._id (UserModel.fields user)) (now w) with
                    | Throw e => (db, Throw e)
                    | Ok token =>
                        let user :=
                          UserModel.assign "lastLogin"
                            (UserModel.set_lastLogin (Some (now w))) user in
                        let saved := UserModel.save (salt w) user (users db) in
                        match outcome saved with
                        | Throw e => (set_users (collection saved) db, Throw e)
                        | Ok _ =>
                            (set_users (collection saved) db,
                             Ok (Http.mkResponse 200 true (Some "Login successful") None
                                   (Some (Http.UserAndToken
                                            (UserModel.getPublicProfile
                                               (UserModel.fields (this saved)))
                                            token))
                                   None))
                        end
                    end
              end
        end
    end).
End WithExternals.
End AuthRoutes.

(** ** routes/task.routes.js *)

Module TaskRoutes.
Section WithExternals.
Context {E : Externals}.

(** [PUT /api/tasks/:id]; the [populate] calls expand references the
    model leaves out. *)
Definition updateTask : Http.Handler TaskModel.Update :=
  ErrorMiddleware.asyncHandler (fun req w db =>
    let '(ts, found) :=
      TaskModel.findByIdAndUpdate (Http.params_id req) (Http.body req) (tasks db) in
    match found with
    | Throw e => (set_tasks ts db, Throw e)
    | Ok None => (set_tasks ts db, Ok (Http.failure 404 "Task not found"))
    | Ok (Some task) =>
        (set_tasks ts db,
         Ok (Http.mkResponse 200 true None None (Some (Http.TaskData task)) None))
    end).
End WithExternals.
End TaskRoutes.

(** ** routes/user.routes.js *)

Module UserRoutes.
Section WithExternals.
Context {E : Externals}.

(** The handler of [DELETE /api/users/:id]. *)
Definition deleteUserHandler {B : Type} : Http.Handler B :=
  ErrorMiddleware.asyncHandler (fun req w db =>
    let '(us, found) :=
      UserModel.findByIdAndDelete (Http.params_id req) (users db) in
    match found with
    | Throw e => (set_users us db, Throw e)
    | Ok None => (set_users us db, Ok (Http.failure 404 "User not found"))
    | Ok (Some _) =>
        (set_users us db,
         Ok (Http.mkResponse 200 true (Some "User deleted successfully")
               None None None))
    end).

(** [router.delete("/:id", requireAdmin, asyncHandler(...))]. *)
Definition deleteUser {B : Type} : Http.Handler B :=
  Http.use AuthMiddleware.requireAdmin deleteUserHandler.
End WithExternals.
End UserRoutes.

(** ** server.js *)

Module Server.

(** The path prefixes [app.use] mounts routers on. *)
Inductive Mount : Type :=
| ApiAuth
| ApiUsers
| ApiTasks
| ApiProducts
| ApiSettings.

(** The five routers the server requires. *)
Record Routers (B : Type) : Type := mkRouters {
  authRoutes : Http.Handler B;
  userRoutes : Http.Handler B;
  taskRoutes : Http.Handler B;
  productRoutes : Http.Handler B;
  settingsRoutes : Http.Handler B
}.

Arguments authRoutes {B} r.
Arguments userRoutes {B} r.
Arguments taskRoutes {B} r.
Arguments productRoutes {B} r.
Arguments settingsRoutes {B} r.

Section WithExternals.
Context {E : Externals}.

(** The [app.use(path, ...)] lines of the API.  The middleware in
    front of them (helmet, the rate limiter, logging, CORS, body
    parsing) is not modelled: a request here is one they let through. *)
Definition mounted {B : Type} (rs : Routers B) (m : Mount) : Http.Handler B :=
  match m with
  | ApiAuth => authRoutes rs
  | ApiUsers => Http.use AuthMiddleware.authenticateToken (userRoutes rs)
  | ApiTasks => Http.use AuthMiddleware.authenticateToken (taskRoutes rs)
  | ApiProducts => Http.use AuthMiddleware.authenticateToken (productRoutes rs)
  | ApiSettings => Http.use AuthMiddleware.authenticateToken (settingsRoutes rs)
  end.

(** A request to a mounted path: an error passed to [next] reaches
    [app.use(errorHandler)].  A [Throw] that remains is an exception of
    the error handler itself. *)
Definition app {B : Type} (rs : Routers B) (m : Mount) : Http.Handler B :=
  fun req w db =>
    match mounted rs m req w db with
    | (db', Ok res) => (db', Ok res)
    | (db', Throw err) => (db', ErrorMiddleware.errorHandler err)
    end.
End WithExternals.
End Server.

(** ** The rest of middleware/auth.middleware.js *)

Module OptionalAuth.
Section WithExternals.
Context {E : Externals}.

(** [optionalAuth(req, res, next)]: every path ends in [next()]. *)
Definition optionalAuth {B : Type} : Http.Middleware B :=
  fun req w db =>
    let authHeader := Http.authorization req in
    match AuthMiddleware.bearerToken authHeader with
    | None => Http.Next req
    | Some token =>
        if JS.truthy token then
          match jwt_verify token JWT_SECRET (now w) with
          | Throw _ => Http.Next req
          | Ok decoded =>
              match UserModel.findByIdCast (userId decoded) (users db) with
              | Throw _ => Http.Next req
              | Ok None => Http.Next req
              | Ok (Some user) =>
                  if UserModel.isActive user
                  then Http.Next (Http.set_user user req)
                  else Http.Next req
              end
          end
        else Http.Next req
    end.
End WithExternals.
End OptionalAuth.

(** ** The rest of routes/auth.routes.js: password reset *)

(** A JSON envelope whose [data] member has type [D]. *)
Record Envelope (D : Type) : Type := mkEnvelope {
  env_status : Z;
  env_success : bool;
  env_message : option string;
  env_errors : option (list string);
  env_data : option D
}.

Arguments mkEnvelope {D} env_status env_success env_message env_errors env_data.
Arguments env_status {D} e.
Arguments env_success {D} e.
Arguments env_message {D} e.
Arguments env_errors {D} e.
Arguments env_data {D} e.

Module ResetRoutes.

Record ForgotBody : Type := mkForgotBody {
  f_email : string
}.

Record ResetBody : Type := mkResetBody {
  rs_token : string;
  rs_password : string
}.

Section WithExternals.
Context {E : Externals}.

(** The payload of a reset token: [{ userId: user._id, type: "password-reset" }]. *)
Definition resetPayload (uid : ObjectId) : Payload :=
  mkPayload uid (Some "password-reset").

(** [POST /api/auth/forgot-password]; [data] is [{ resetToken }]. *)
Definition forgotPassword (req : Http.Request ForgotBody) (w : World) (db : Db)
  : Db * Result (Envelope string) :=
  let errors :=
    if isEmail (f_email (Http.body req)) then [] else ["Please provide a valid email"] in
  match errors with
  | _ :: _ =>
      (db, Ok (mkEnvelope 400 false (Some "Validation failed") (Some errors) None))
  | [] =>
      let email := normalizeEmail (f_email (Http.body req)) in
      match UserModel.findByEmail false email (users db) with
      | None =>
          (db,
           Ok (mkEnvelope 200 true
                 (Some "If an account with that email exists, a password reset link has been sent")
                 None None))
      | Some user =>
          match jwt_sign_error JWT_SECRET "1h" with
          | Some e => (db, Throw e)
          | None =>
              let resetToken :=
                jwt_sign (resetPayload (UserModel._id (UserModel.fields user)))
                  JWT_SECRET "1h" (now w) in
              (db,
               Ok (mkEnvelope 200 true (Some "Password reset link sent to your email")
                     None (Some resetToken)))
          end
      end
  end.

(** The validation chains of [/reset-password]. *)
Definition resetErrors (b : ResetBody) : list string :=
  (if JS.truthy (rs_token b) then [] else ["Reset token is required"])
  ++ (if 6 <=? Z.of_nat (String.length (rs_password b)) then []
      else ["Password must be at least 6 characters long"]).

(** What the [catch] block of [/reset-password] sends. *)
Definition invalidOrExpired : Http.Response :=
  Http.failure 400 "Invalid or expired reset token".

(** [POST /api/auth/reset-password].  The user is loaded without the
    password; [user.password = password] marks the path modified. *)
Definition resetPassword : Http.Handler ResetBody :=
  ErrorMiddleware.asyncHandler (fun req w db =>
    let errors := resetErrors (Http.body req) in
    match errors with
    | _ :: _ => (db, Ok (AuthRoutes.validationFailed errors))
    | [] =>
        let token := rs_token (Http.body req) in
        let password := rs_password (Http.body req) in
        match jwt_verify token JWT_SECRET (now w) with
        | Throw _ => (db, Ok invalidOrExpired)
        | Ok decoded =>
            if negb (match type decoded with
                     | Some t => String.eqb t "password-reset"
                     | None => false
                     end)
            then (db, Ok (Http.failure 400 "Invalid reset token"))
            else
              match UserModel.findByIdCast (userId decoded) (users db) with
              | Throw _ => (db, Ok invalidOrExpired)
              | Ok None => (db, Ok (Http.failure 400 "Invalid reset token"))
              | Ok (Some user) =>
                  let user :=
                    UserModel.assign "password" (UserModel.set_password (Some password))
                      (UserModel.loaded user) in
                  let saved := UserModel.save (salt w) user (users db) in
                  match outcome saved with
                  | Throw _ => (set_users (collection saved) db, Ok invalidOrExpired)
                  | Ok _ =>
                      (set_users (collection saved) db,
                       Ok (Http.mkResponse 200 true (Some "Password reset successful")
                             None None None))
                  end
              end
        end
    end).
End WithExternals.
End ResetRoutes.

(** ** routes/settings.routes.js: the password change *)

Module SettingsRoutes.

(** The body of [PUT /api/settings/password], both fields present. *)
Record PasswordBody : Type := mkPasswordBody {
  currentPassword : string;
  newPassword : string
}.

(** [user.password = value]: Mongoose marks the path modified only when
    the value differs from the one the document holds. *)
Definition assignPassword (value : string) (d : UserModel.Document) : UserModel.Document :=
  match UserModel.password (UserModel.fields d) with
  | Some old =>
      if String.eqb old value then d
      else UserModel.assign "password" (UserModel.set_password (Some value)) d
  | None => UserModel.assign "password" (UserModel.set_password (Some value)) d
  end.

Section WithExternals.
Context {E : Externals}.

(** [PUT /api/settings/password].  [req.user._id] already is an ObjectId;
    reading a property of a missing [req.user] or of a [null] query
    result throws a TypeError. *)
Definition changePassword : Http.Handler PasswordBody :=
  ErrorMiddleware.asyncHandler (fun req w db =>
    match Http.user req with
    | None =>
        (db, Throw (plainError "TypeError"
                      "Cannot read properties of undefined (reading '_id')"))
    | Some me =>
        match findById UserModel._id (UserModel._id me) (users db) with
        | None =>
            (db, Throw (plainError "TypeError"
                          "Cannot read properties of null (reading 'comparePassword')"))
        | Some stored =>
            let user := UserModel.loaded stored in
            match UserModel.comparePassword (currentPassword (Http.body req))
                    (UserModel.fields user) with
            | Throw e => (db, Throw e)
            | Ok isPasswordValid =>
                if negb isPasswordValid then
                  (db, Ok (Http.failure 400 "Current password is incorrect"))
                else
                  let user := assignPassword (newPassword (Http.body req)) user in
                  let saved := UserModel.save (salt w) user (users db) in
                  match outcome saved with
                  | Throw e => (set_users (collection saved) db, Throw e)
                  | Ok _ =>
                      (set_users (collection saved) db,
                       Ok (Http.mkResponse 200 true (Some "Password updated successfully")
                             None None None))
                  end
            end
        end
    end).
End WithExternals.
End SettingsRoutes.

(** ** The rest of routes/user.routes.js: the update *)

Module UserUpdate.

(** The body of [PUT /api/users/:id]: the fields it may carry, of those
    the model keeps that have no setter and no index. *)
Record Update : Type := mkUpdate {
  u_password : option string;
  u_role : option string;
  u_isActive : option bool
}.

(** [$set] of the fields the update carries. *)
Definition applyUpdate (u : Update) (x : UserModel.User) : UserModel.User :=
  UserModel.mkUser (UserModel._id x) (UserModel.firstName x) (UserModel.lastName x)
    (UserModel.email x)
    (match u_password u with Some v => Some v | None => UserModel.password x end)
    (match u_role u with Some v => v | None => UserModel.role x end)
    (match u_isActive u with Some v => v | None => UserModel.isActive x end)
    (UserModel.lastLogin x).

Fixpoint updateFirst (id : ObjectId) (u : Update) (c : list UserModel.User)
  : list UserModel.User :=
  match c with
  | [] => []
  | x :: rest =>
      if String.eqb (UserModel._id x) id then applyUpdate u x :: rest
      else x :: updateFirst id u rest
  end.

(** The update validators: those of each path the update sets, the keys
    of the update walked from the last to the first. *)
Definition validateUpdate (u : Update) : list (string * string) :=
  (match u_role u with
   | None => []
   | Some v =>
       if JS.includes UserModel.roleEnum v then []
       else [("role", ("`" ++ v ++ "` is not a valid enum value for path `role`.")%string)]
   end)
  ++ (match u_password u with
      | None => []
      | Some v =>
          if negb (JS.truthy v) then [("password", "Password is required")]
          else if UserModel.nameLength v <? 6
          then [("password", "Password must be at least 6 characters long")] else []
      end).

Section WithExternals.
Context {E : Externals}.

(** [User.findByIdAndUpdate(id, update, { new: true, runValidators: true })]:
    the id is cast, the update validators run, the first document with
    that id is updated in the store and returned; no document hook runs. *)
Definition findByIdAndUpdate (id : string) (u : Update) (c : list UserModel.User)
  : list UserModel.User * Result (option UserModel.User) :=
  match castObjectId id with
  | None => (c, Throw (castError id "_id"))
  | Some oid =>
      match validateUpdate u with
      | (_ :: _) as failed => (c, Throw (validationError failed))
      | [] =>
          let c' := updateFirst oid u c in
          (c', Ok (findById UserModel._id oid c'))
      end
  end.

(** [PUT /api/users/:id]: the route has no role guard; the user is sent
    back without the password. *)
Definition updateUser (req : Http.Request Update) (w : World) (db : Db)
  : Db * Result (Envelope UserModel.User) :=
  let '(us, found) := findByIdAndUpdate (Http.params_id req) (Http.body req) (users db) in
  match found with
  | Throw e => (set_users us db, Throw e)
  | Ok None =>
      (set_users us db, Ok (mkEnvelope 404 false (Some "User not found") None None))
  | Ok (Some user) =>
      (set_users us db,
       Ok (mkEnvelope 200 true None None (Some (UserModel.withoutPassword user))))
  end.
End WithExternals.
End UserUpdate.

(** ** The rest of routes/task.routes.js *)

Module TaskQueries.
Section WithExternals.
Context {E : Externals}.

(** [Task.findByIdAndDelete(id)]. *)
Definition findByIdAndDelete (id : string) (c : list TaskModel.Task)
  : list TaskModel.Task * Result (option TaskModel.Task) :=
  match castObjectId id with
  | None => (c, Throw (castError id "_id"))
  | Some oid => (remove TaskModel._id oid c, Ok (findById TaskModel._id oid c))
  end.

(** [GET /api/tasks/:id]. *)
Definition getTask {B : Type} : Http.Handler B :=
  ErrorMiddleware.asyncHandler (fun req w db =>
    match TaskModel.findByIdCast (Http.params_id req) (tasks db) with
    | Throw e => (db, Throw e)
    | Ok None => (db, Ok (Http.failure 404 "Task not found"))
    | Ok (Some task) =>
        (db, Ok (Http.mkResponse 200 true None None (Some (Http.TaskData task)) None))
    end).

(** [DELETE /api/tasks/:id]. *)
Definition deleteTask {B : Type} : Http.Handler B :=
  ErrorMiddleware.asyncHandler (fun req w db =>
    let '(ts, found) := findByIdAndDelete (Http.params_id req) (tasks db) in
    match found with
    | Throw e => (set_tasks ts db, Throw e)
    | Ok None => (set_tasks ts db, Ok (Http.failure 404 "Task not found"))
    | Ok (Some _) =>
        (set_tasks ts db,
         Ok (Http.mkResponse 200 true (Some "Task deleted successfully") None None None))
    end).
End WithExternals.
End TaskQueries.

(** ** The virtuals of the product and task models *)

Module ProductVirtuals.

(** [productSchema.virtual("stockStatus")]; the threshold is the schema
    field [lowStockThreshold] of the same document. *)
Definition stockStatus (lowStockThreshold : Z) (p : ProductModel.Product) : string :=
  if ProductModel.stock p =? 0 then "out-of-stock"
  else if ProductModel.stock p <=? lowStockThreshold then "low-stock"
  else "in-stock".

(** [productSchema.virtual("primaryImage")]: [None] is [null]. *)
Definition primaryImage (p : ProductModel.Product) : option string :=
  match find ProductModel.isPrimary (ProductModel.images p) with
  | Some primary => Some (ProductModel.url primary)
  | None =>
      match ProductModel.images p with
      | first :: _ => Some (ProductModel.url first)
      | [] => None
      end
  end.

End ProductVirtuals.

Module TaskVirtuals.

(** The milliseconds of a day, [1000 * 60 * 60 * 24]. *)
Definition dayMs : Z := 1000 * 60 * 60 * 24.

(** [Math.ceil(a / b)] for integers [a] and a positive integer [b]. *)
Definition ceilDiv (a b : Z) : Z := - ((- a) / b).

(** [taskSchema.virtual("isOverdue")], for the document's [dueDate]. *)
Definition isOverdue (dueDate : Time) (now : Time) (t : TaskModel.Task) : bool :=
  ((dueDate <? now) && negb (String.eqb (TaskModel.status t) "completed"))%bool.

(** [taskSchema.virtual("daysRemaining")]. *)
Definition daysRemaining (dueDate : Time) (now : Time) : Z :=
  let diffTime := dueDate - now in
  ceilDiv diffTime dayMs.

End TaskVirtuals.

(** ** config/seed.js *)

Module Seed.
Section WithExternals.
Context {E : Externals}.

(** [seedDemoUser()]: [{ seeded, user }], or the rejection of
    [User.create]. *)
Definition seedDemoUser (w : World) (c : list UserModel.User)
  : list UserModel.User * Result (bool * UserModel.User) :=
  let email := "demo@example.com" in
  match find (fun u => String.eqb (UserModel.email u) email) c with
  | Some existing => (c, Ok (false, UserModel.withoutPassword existing))
  | None =>
      let user :=
        UserModel.newUser (freshId w) "Demo" "Admin" email "password123" "admin" in
      let saved := UserModel.save (salt w) user c in
      match outcome saved with
      | Throw e => (collection saved, Throw e)
      | Ok _ => (collection saved, Ok (true, UserModel.fields (this saved)))
      end
  end.
End WithExternals.
End Seed.

(** ** Predicates used in the statements *)

(** The two relations between progress and status the task model aims at. *)
Definition progressStatusInvariant (t : TaskModel.Task) : Prop :=
  (TaskModel.progress t = 100 -> TaskModel.status t = "completed")
  /\ (0 < TaskModel.progress t < 100 -> TaskModel.status t <> "pending").

(** The exception carries one of Multer's two upload-limit codes. *)
Definition uploadLimit (err : JsError) : bool :=
  (code_is_str (code err) "LIMIT_FILE_SIZE"
   || code_is_str (code err) "LIMIT_UNEXPECTED_FILE")%bool.

(** The exception is MongoDB's duplicate-key error. *)
Definition duplicateKey (err : JsError) : bool := code_is_num (code err) 11000.

(** The envelope the error handler sends: [{ success: false, message }],
    with the stack added in development mode only. *)
Definition errorEnvelope {E : Externals} (err : JsError) (code : Z) (msg : string)
  : Http.Response :=
  Http.mkResponse code false (Some msg) None None
    (match NODE_ENV with
     | Some env => if String.eqb env "development" then stack err else None
     | None => None
     end).

(** What an exception no rule matches is answered with: its own
    [statusCode] and [message] when they are truthy, 500 and
    ["Server Error"] otherwise. *)
Definition ownStatus (err : JsError) : Z :=
  match statusCode err with
  | Some n => if n =? 0 then 500 else n
  | None => 500
  end.

Definition orServerError (m : option string) : string :=
  match m with
  | Some s => if JS.truthy s then s else "Server Error"
  | None => "Server Error"
  end.



(** ** A small implementation of the externals, to run the model on

    The hash is a tagged copy and a token spells its user id: enough to
    evaluate the handlers on concrete requests. *)

Module Demo.

Definition hasAt (s : string) : bool :=
  existsb (Ascii.eqb "@"%char) (list_ascii_of_string s).

Fixpoint noSpace (s : string) : bool :=
  match s with
  | EmptyString => true
  | String c rest => (negb (JS.is_space c) && noSpace rest)%bool
  end.

Definition validEmail (s : string) : bool := (hasAt s && noSpace s)%bool.

Definition hash (pw : string) (cost saltv : Z) : string := ("$2a$12$" ++ pw)%string.

Definition compare (candidate hashed : string) : bool :=
  String.eqb hashed ("$2a$12$" ++ candidate)%string.

Definition sign (p : Payload) (secret : option string) (expiresIn : string)
  (t : Time) : string :=
  ("jwt." ++ userId p)%string.

(** [jwt.sign] without a secret. *)
Definition signError (secret : option string) (expiresIn : string) : option JsError :=
  if JS.truthy_opt secret then None
  else Some (plainError "Error" "secretOrPrivateKey must have a value").

Definition verify (token : string) (secret : option string) (t : Time)
  : Result Payload :=
  if String.prefix "jwt." token
  then Ok (mkPayload (String.substring 4 (String.length token - 4) token) None)
  else if String.prefix "old." token
  then Throw (plainError "TokenExpiredError" "jwt expired")
  else Throw (plainError "JsonWebTokenError" "jwt malformed").

Definition isHex (c : ascii) : bool :=
  let n := nat_of_ascii c in
  ((Nat.leb 48 n && Nat.leb n 57) || (Nat.leb 97 n && Nat.leb n 102)
   || (Nat.leb 65 n && Nat.leb n 70))%bool.

(** An ObjectId is spelled with 24 hexadecimal digits. *)
Definition cast (s : string) : option ObjectId :=
  if (Nat.eqb (String.length s) 24 && forallb isHex (list_ascii_of_string s))%bool
  then Some (JS.toLowerCase s) else None.

Definition adaId : ObjectId := "64b7f0c2a1d3e4f5a6b7c801".
Definition bobId : ObjectId := "64b7f0c2a1d3e4f5a6b7c802".
Definition newId : ObjectId := "64b7f0c2a1d3e4f5a6b7c803".
Definition draftId : ObjectId := "64b7f0c2a1d3e4f5a6b7c901".

#[export] Instance externals : Externals := {|
  isEmail := validEmail;
  normalizeEmail := JS.toLowerCase;
  emailRegexTest := hasAt;
  bcrypt_hash := hash;
  bcrypt_compare := compare;
  jwt_sign_error := signError;
  jwt_sign := sign;
  jwt_verify := verify;
  castObjectId := cast;
  JWT_SECRET := Some "secret";
  JWT_EXPIRES_IN := None;
  NODE_ENV := Some "production"
|}.

Definition ada : UserModel.User :=
  UserModel.mkUser adaId "Ada" "Lovelace" "ada@example.com"
    (Some "$2a$12$analytical") "user" true None.

Definition bob : UserModel.User :=
  UserModel.mkUser bobId "Bob" "Idle" "bob@example.com"
    (Some "$2a$12$sleeping") "manager" false None.

Definition draft : TaskModel.Task := TaskModel.mkTask draftId "pending" 0 None.

Definition db : Db := mkDb [ada; bob] [draft] [].

Definition world : World := mkWorld 1000 newId 7.

Definition request {B : Type} (auth : option string) (id : string) (b : B)
  : Http.Request B :=
  Http.mkRequest auth id b None.

End Demo.

(** The task after the two assignments of [updateProgress], before its
    [save], for the clamped progress [m]. *)
Definition reported (m : Z) (t : TaskModel.Task) : TaskModel.Task :=
  let t := TaskModel.set_progress m t in
  if TaskModel.progress t =? 100 then TaskModel.set_status "completed" t
  else if 0 <? TaskModel.progress t then TaskModel.set_status "in-progress" t
  else t.

(** The string has no space character. *)
Fixpoint noBlank (s : string) : bool :=
  match s with
  | EmptyString => true
  | String c rest => (negb (Ascii.eqb c " ") && noBlank rest)%bool
  end.

(** The user holds the address of the demo account. *)
Definition isDemo (u : UserModel.User) : bool :=
  String.eqb (UserModel.email u) "demo@example.com".

(** The same stand-ins with tokens that keep the [type] of their payload,
    to run the reset routes on. *)

Module ResetDemo.

Definition sign (p : Payload) (secret : option string) (expiresIn : string)
  (t : Time) : string :=
  match type p with
  | Some _ => ("rst." ++ userId p)%string
  | None => ("jwt." ++ userId p)%string
  end.

Definition verify (token : string) (secret : option string) (t : Time)
  : Result Payload :=
  if String.prefix "rst." token
  then Ok (mkPayload (String.substring 4 (String.length token - 4) token)
             (Some "password-reset"))
  else Demo.verify token secret t.

#[export] Instance externals : Externals := {|
  isEmail := Demo.validEmail;
  normalizeEmail := JS.toLowerCase;
  emailRegexTest := Demo.hasAt;
  bcrypt_hash := Demo.hash;
  bcrypt_compare := Demo.compare;
  jwt_sign_error := Demo.signError;
  jwt_sign := sign;
  jwt_verify := verify;
  castObjectId := Demo.cast;
  JWT_SECRET := Some "secret";
  JWT_EXPIRES_IN := None;
  NODE_ENV := Some "production"
|}.

End ResetDemo.

(** * Properties *)

(** ** The built-ins on examples *)

Example split_bearer : JS.split " " "Bearer abc.def" = ["Bearer"; "abc.def"].
Proof. reflexivity. Qed.

(** Sums as doubles hold them: exact up to [2^53], then rounded to the
    nearest double, a tie to the even one. *)
Example Number_add_exact : JS.Number_add 8 (-5) = 3.
Proof. reflexivity. Qed.

Example Number_add_rounds_down : JS.Number_add (2 ^ 53) 1 = 2 ^ 53.
Proof. reflexivity. Qed.

Example Number_add_rounds_up : JS.Number_add (2 ^ 53) 3 = 2 ^ 53 + 4.
Proof. reflexivity. Qed.

Example Number_add_negative : JS.Number_add (- 2 ^ 53) (-1) = - 2 ^ 53.
Proof. reflexivity. Qed.

Example split_no_separator : JS.split " " "Bearer" = ["Bearer"].
Proof. reflexivity. Qed.

Example split_two_spaces : JS.split " " "Bearer  abc" = ["Bearer"; ""; "abc"].
Proof. reflexivity. Qed.

Example split_empty : JS.split " " "" = [""].
Proof. reflexivity. Qed.

Example trim_both_ends : JS.trim "  Ada Lovelace  " = "Ada Lovelace".
Proof. reflexivity. Qed.

Example toLowerCase_mixed : JS.toLowerCase "Grace@Example.COM" = "grace@example.com".
Proof. reflexivity. Qed.

Example join_messages :
  JS.join ", " ["a is required"; "b is too long"] = "a is required, b is too long".
Proof. reflexivity. Qed.

Example bearerToken_cases :
  AuthMiddleware.bearerToken None = None
  /\ AuthMiddleware.bearerToken (Some "") = Some ""
  /\ AuthMiddleware.bearerToken (Some "Bearer") = None
  /\ AuthMiddleware.bearerToken (Some "Bearer ") = Some ""
  /\ AuthMiddleware.bearerToken (Some "Bearer abc.def") = Some "abc.def".
Proof. repeat split. Qed.

(** ** Collections *)

Section CollectionFacts.
Variable D : Type.
Variable id_of : D -> ObjectId.

Lemma findById_persist (d : D) (c : list D) :
  findById id_of (id_of d) (persist id_of d c) = Some d.
Proof.
  unfold findById.
  induction c as [|x rest IH]; simpl.
  - now rewrite String.eqb_refl.
  - destruct (String.eqb (id_of x) (id_of d)) eqn:Hx; simpl.
    + now rewrite String.eqb_refl.
    + now rewrite Hx.
Qed.

Lemma persist_absent (d : D) (c : list D) :
  findById id_of (id_of d) c = None -> persist id_of d c = c ++ [d].
Proof.
  unfold findById.
  induction c as [|x rest IH]; simpl; intros H.
  - reflexivity.
  - destruct (String.eqb (id_of x) (id_of d)); [discriminate|].
    now rewrite IH.
Qed.

Lemma persist_last (d d' : D) (c : list D) :
  findById id_of (id_of d) c = None ->
  id_of d' = id_of d ->
  persist id_of d' (c ++ [d]) = c ++ [d'].
Proof.
  unfold findById. intros H Hid.
  induction c as [|x rest IH]; simpl in *.
  - now rewrite Hid, String.eqb_refl.
  - rewrite Hid.
    destruct (String.eqb (id_of x) (id_of d)); [discriminate|].
    now rewrite IH.
Qed.

Lemma findById_app_last (d : D) (c : list D) :
  findById id_of (id_of d) c = None ->
  findById id_of (id_of d) (c ++ [d]) = Some d.
Proof.
  unfold findById.
  induction c as [|x rest IH]; simpl; intros H.
  - now rewrite String.eqb_refl.
  - destruct (String.eqb (id_of x) (id_of d)); [discriminate|].
    now apply IH.
Qed.
End CollectionFacts.

Lemma includes_In (xs : list string) (x : string) :
  JS.includes xs x = true <-> In x xs.
Proof.
  unfold JS.includes. rewrite existsb_exists. split.
  - intros [y [Hy Heq]]. apply String.eqb_eq in Heq. now subst.
  - intros H. exists x. split; [assumption | apply String.eqb_refl].
Qed.

(** ** Product images and stock *)

Section ProductFacts.
Import ProductModel.

Lemma primaryCount_forEach_from (i : nat) (imgs : list Image) :
  primaryCount
    (forEach_from (fun img index => set_isPrimary (index =? 0)%nat img) (S i) imgs)
  = 0%nat.
Proof.
  unfold primaryCount.
  revert i. induction imgs as [|img rest IH]; intros i; simpl.
  - reflexivity.
  - apply IH.
Qed.

Lemma primaryCount_first_only (imgs : list Image) :
  imgs <> [] ->
  primaryCount
    (forEach (fun img index => set_isPrimary (index =? 0)%nat img) imgs) = 1%nat.
Proof.
  destruct imgs as [|img rest]; [congruence|]. intros _.
  unfold forEach. simpl.
  change (S (primaryCount
               (forEach_from (fun img index => set_isPrimary (index =? 0)%nat img)
                  1 rest)) = 1%nat).
  now rewrite primaryCount_forEach_from.
Qed.

Lemma preSave_at_most_one (p : Product) :
  (primaryCount (images p) <= 1)%nat -> preSave p = p.
Proof.
  unfold preSave, primaryCount. intros H.
  destruct (0 <? List.length (images p))%nat; [|reflexivity].
  destruct (Nat.ltb_spec 1 (List.length (filter isPrimary (images p)))); [lia|reflexivity].
Qed.

Lemma primaryCount_app (xs ys : list Image) :
  primaryCount (xs ++ ys) = (primaryCount xs + primaryCount ys)%nat.
Proof. unfold primaryCount. now rewrite filter_app, length_app. Qed.

Lemma primaryCount_demoted (imgs : list Image) :
  primaryCount (map (set_isPrimary false) imgs) = 0%nat.
Proof.
  unfold primaryCount. induction imgs as [|img rest IH]; simpl; auto.
Qed.

Lemma validateImages_demoted (i : nat) (imgs : list Image) :
  validateImages i (map (set_isPrimary false) imgs) = validateImages i imgs.
Proof.
  revert i. induction imgs as [|img rest IH]; intros i; simpl; [reflexivity|].
  now rewrite IH.
Qed.

(** C3.  The pre-save hook leaves exactly one image flagged primary when
    the product had one or more, and none when it had none; a successful
    [save] stores the product so normalised. *)
Theorem preSave_single_primary (p : Product) :
  primaryCount (images (preSave p))
  = (if (primaryCount (images p) =? 0)%nat then 0 else 1)%nat
  /\ (forall c,
         outcome (save p c) = Ok tt ->
         this (save p c) = preSave p
         /\ findById _id (_id p) (collection (save p c)) = Some (preSave p)).
Proof.
  split.
  - unfold preSave.
    destruct (Nat.ltb_spec 0 (List.length (images p))) as [Hlen|Hlen].
    + fold (primaryCount (images p)).
      destruct (Nat.ltb_spec 1 (primaryCount (images p))) as [Hmany|Hfew].
      * simpl. rewrite primaryCount_first_only.
        -- destruct (Nat.eqb_spec (primaryCount (images p)) 0); [lia|reflexivity].
        -- intros Hnil. rewrite Hnil in Hlen. simpl in Hlen. lia.
      * destruct (Nat.eqb_spec (primaryCount (images p)) 0); lia.
    + destruct (images p) as [|img rest] eqn:Himgs; [reflexivity|].
      simpl in Hlen. lia.
  - intros c. unfold save.
    destruct (validate p) as [|f fs]; simpl; [|discriminate].
    intros _. split; [reflexivity|].
    assert (Hid : _id p = _id (preSave p)).
    { unfold preSave. destruct (0 <? _)%nat; [|reflexivity].
      destruct (1 <? _)%nat; reflexivity. }
    rewrite Hid. apply findById_persist.
Qed.
End ProductFacts.

Section StockFacts.
Import ProductModel.

Lemma product_preSave_stock (p : Product) : stock (preSave p) = stock p.
Proof.
  unfold preSave. destruct (0 <? _)%nat; [|reflexivity].
  destruct (1 <? _)%nat; reflexivity.
Qed.

Lemma product_preSave_id (p : Product) : _id (preSave p) = _id p.
Proof.
  unfold preSave. destruct (0 <? _)%nat; [|reflexivity].
  destruct (1 <? _)%nat; reflexivity.
Qed.

(** Within the range where every integer is a double the rounding is the
    identity. *)
Lemma round53_exact (z : Z) : Z.abs z <= 2 ^ 53 -> JS.round53 z = z.
Proof.
  intros H. unfold JS.round53.
  destruct (Z.leb_spec (Z.abs z) (2 ^ 53)) as [_|Hgt]; [reflexivity|lia].
Qed.

Lemma updateStock_stock (quantity : Z) (p : Product) (c : list Product) :
  stock (this (updateStock quantity p c))
  = Z.max 0 (JS.round53 (stock p + quantity)).
Proof.
  unfold updateStock, save, JS.Math_max, JS.Number_add.
  destruct (validate _) as [|f fs]; simpl; [|reflexivity].
  rewrite product_preSave_stock. reflexivity.
Qed.

(** C9, as the code has it.  [updateStock] sets the stock to [max(0, s)]
    where [s] is the sum of stock and quantity as a double holds it, as
    long as that is finite; [s] is the exact sum [stock + quantity]
    whenever that lies within [-2^53, 2^53].  The new stock is on the
    document and, when the save goes through, in the store; it is never
    negative, so the [min: 0] validator of [stock] never rejects it and
    the save goes through whenever the images are valid. *)
Theorem updateStock_clamps (quantity : Z) (p : Product) (c : list Product) :
  let r := updateStock quantity p c in
  (Z.abs (JS.round53 (stock p + quantity)) < 2 ^ 1024 ->
   stock (this r) = Z.max 0 (JS.round53 (stock p + quantity)))
  /\ (Z.abs (stock p + quantity) <= 2 ^ 53 ->
      stock (this r) = Z.max 0 (stock p + quantity))
  /\ 0 <= stock (this r)
  /\ (validateImages 0 (images p) = [] -> outcome r = Ok tt)
  /\ (outcome r = Ok tt ->
      findById _id (_id p) (collection r) = Some (this r)).
Proof.
  cbv zeta. rewrite updateStock_stock.
  split; [intros _; reflexivity|].
  split; [intros H; rewrite round53_exact by exact H; reflexivity|].
  split; [lia|].
  unfold updateStock, save, validate, JS.Math_max, JS.Number_add. simpl.
  set (s := Z.max 0 (JS.round53 (stock p + quantity))).
  destruct (Z.ltb_spec s 0) as [Hneg|Hpos]; [subst s; lia|].
  simpl.
  destruct (validateImages 0 (images p)) as [|f fs] eqn:Himgs; simpl.
  - split; [reflexivity|].
    intros _.
    set (p1 := set_stock s p).
    replace (_id p) with (_id (preSave p1)) by (rewrite product_preSave_id; reflexivity).
    apply findById_persist.
  - split; discriminate.
Qed.

(** Beyond [2^53] doubles no longer hold every integer, and the stock is
    not [max(0, stock + quantity)]: on a stock of [2^53] a quantity of [1]
    leaves the stock at [2^53], not at [max(0, 2^53 + 1)]. *)
Lemma updateStock_rounds_the_sum :
  let p := mkProduct "p1" (2 ^ 53) [] in
  let r := updateStock 1 p [p] in
  outcome r = Ok tt
  /\ stock (this r) = 2 ^ 53
  /\ Z.max 0 (stock p + 1) = 2 ^ 53 + 1
  /\ stock (this r) <> Z.max 0 (stock p + 1).
Proof.
  cbv zeta. split; [reflexivity|]. split; [reflexivity|].
  split; [reflexivity|]. vm_compute. discriminate.
Qed.

(** C10.  On a product with at most one primary image, [addImage] with a
    primary image demotes every stored image and appends the new one,
    which is then the only primary; with a non-primary image it appends
    and leaves every flag as it was.  Either way at most one image is
    primary afterwards. *)
Theorem addImage_keeps_single_primary
  (imageData : Image) (p : Product) (c : list Product) :
  (primaryCount (images p) <= 1)%nat ->
  let r := addImage imageData p c in
  (isPrimary imageData = true ->
   images (this r) = map (set_isPrimary false) (images p) ++ [imageData]
   /\ primaryCount (images (this r)) = 1%nat)
  /\ (isPrimary imageData = false ->
      images (this r) = images p ++ [imageData]
      /\ primaryCount (images (this r)) = primaryCount (images p))
  /\ (primaryCount (images (this r)) <= 1)%nat
  /\ (outcome r = Ok tt ->
      findById _id (_id p) (collection r) = Some (this r)).
Proof.
  intros Hle. cbv zeta. unfold addImage.
  set (p1 := if isPrimary imageData
             then set_images (map (set_isPrimary false) (images p)) p else p).
  set (p2 := set_images (images p1 ++ [imageData]) p1).
  assert (Hcount : (primaryCount (images p2) <= 1)%nat
                   /\ (isPrimary imageData = true ->
                       images p2 = map (set_isPrimary false) (images p) ++ [imageData]
                       /\ primaryCount (images p2) = 1%nat)
                   /\ (isPrimary imageData = false ->
                       images p2 = images p ++ [imageData]
                       /\ primaryCount (images p2) = primaryCount (images p))).
  { assert (Hone : primaryCount [imageData] = if isPrimary imageData then 1%nat else 0%nat).
    { unfold primaryCount. simpl. destruct (isPrimary imageData); reflexivity. }
    subst p2 p1. destruct (isPrimary imageData) eqn:Hprim; simpl.
    - rewrite primaryCount_app, primaryCount_demoted, Hone.
      split; [lia|]. split; [intros _; split; reflexivity | discriminate].
    - rewrite primaryCount_app, Hone.
      split; [lia|]. split; [discriminate | intros _; split; [reflexivity | lia]]. }
  destruct Hcount as [Hle2 [Hprim Hplain]].
  assert (Hid : _id p2 = _id p).
  { subst p2 p1. destruct (isPrimary imageData); reflexivity. }
  unfold save. destruct (validate p2) as [|f fs]; simpl.
  - rewrite (preSave_at_most_one p2 Hle2).
    split; [exact Hprim|]. split; [exact Hplain|]. split; [exact Hle2|].
    intros _. rewrite <- Hid. apply findById_persist.
  - split; [exact Hprim|]. split; [exact Hplain|]. split; [exact Hle2|].
    discriminate.
Qed.
End StockFacts.

(** Adding a primary cover to a product with one primary image. *)
Lemma addImage_keeps_single_primary_witness :
  let shelf :=
    ProductModel.mkProduct "p1" 4
      [ProductModel.mkImage "/img/front.png" None true 0;
       ProductModel.mkImage "/img/back.png" None false 1] in
  let cover := ProductModel.mkImage "/img/cover.png" (Some "cover") true 2 in
  (ProductModel.primaryCount (ProductModel.images shelf) <= 1)%nat
  /\ map ProductModel.isPrimary
       (ProductModel.images (this (ProductModel.addImage cover shelf [shelf])))
     = [false; false; true].
Proof.
  cbv zeta. split.
  - vm_compute. lia.
  - pose proof (addImage_keeps_single_primary
                  (ProductModel.mkImage "/img/cover.png" (Some "cover") true 2)
                  (ProductModel.mkProduct "p1" 4
                     [ProductModel.mkImage "/img/front.png" None true 0;
                      ProductModel.mkImage "/img/back.png" None false 1])
                  [ProductModel.mkProduct "p1" 4
                     [ProductModel.mkImage "/img/front.png" None true 0;
                      ProductModel.mkImage "/img/back.png" None false 1]]
                  ltac:(vm_compute; lia)) as [Hprimary _].
    destruct (Hprimary eq_refl) as [Himages _].
    rewrite Himages. reflexivity.
Defined.

(** ** Task progress and completion time *)

Section TaskFacts.
Import TaskModel.

Lemma task_preSave_status (now : Time) (t : Task) : status (preSave now t) = status t.
Proof.
  unfold preSave.
  destruct (String.eqb (status t) "completed");
    destruct (completedAt t); reflexivity.
Qed.

Lemma task_preSave_progress (now : Time) (t : Task) : progress (preSave now t) = progress t.
Proof.
  unfold preSave.
  destruct (String.eqb (status t) "completed");
    destruct (completedAt t); reflexivity.
Qed.

Lemma task_preSave_id (now : Time) (t : Task) : _id (preSave now t) = _id t.
Proof.
  unfold preSave.
  destruct (String.eqb (status t) "completed");
    destruct (completedAt t); reflexivity.
Qed.

Lemma task_save_valid (now : Time) (t : Task) (c : list Task) :
  validate t = [] ->
  save now t c = mkRun (preSave now t) (persist _id (preSave now t) c) (Ok tt).
Proof. unfold save. now intros ->. Qed.

(** C5.  Saving a valid task stores it with its status unchanged and
    with [completedAt] set by the hook: the save time when the status is
    "completed" and no time was recorded, the recorded time when there
    was one, and [null] whenever the status is not "completed". *)
Theorem save_sets_completedAt (now : Time) (t : Task) (c : list Task) :
  validate t = [] ->
  let r := save now t c in
  outcome r = Ok tt
  /\ findById _id (_id t) (collection r) = Some (this r)
  /\ status (this r) = status t
  /\ (status t = "completed" -> completedAt t = None ->
      completedAt (this r) = Some now)
  /\ (status t = "completed" -> forall d, completedAt t = Some d ->
      completedAt (this r) = Some d)
  /\ (status t <> "completed" -> completedAt (this r) = None).
Proof.
  intros Hvalid. cbv zeta. rewrite (task_save_valid now t c Hvalid). simpl.
  split; [reflexivity|].
  split; [rewrite <- (task_preSave_id now t); apply findById_persist|].
  split; [apply task_preSave_status|].
  unfold preSave.
  destruct (String.eqb_spec (status t) "completed") as [Heq|Hne]; simpl.
  - split; [intros _ Hnone; rewrite Hnone; reflexivity|].
    split; [intros _ d Hsome; rewrite Hsome; simpl; exact Hsome|].
    intros Hne. contradiction.
  - split; [intros Heq; contradiction|].
    split; [intros Heq; contradiction|].
    intros _. reflexivity.
Qed.

(** Saving a completed task that has no completion time yet. *)
Lemma save_sets_completedAt_witness :
  let done := mkTask "t9" "completed" 100 None in
  validate done = []
  /\ completedAt (this (save 42 done [])) = Some 42.
Proof.
  cbv zeta. split; [reflexivity|].
  pose proof (save_sets_completedAt 42 (mkTask "t9" "completed" 100 None) []
                eq_refl) as [_ [_ [_ [Hset _]]]].
  apply Hset; reflexivity.
Defined.

(** C2, on the model method.  [updateProgress] clamps the progress to
    [0..100] and leaves the task, in memory and in the store, with status
    "completed" when the progress is 100 and "in-progress" (so not
    "pending") when it is strictly between 0 and 100; the save goes
    through whenever the task's status was one of the schema's. *)
Theorem updateProgress_invariant
  (progress_arg : Z) (now : Time) (t : Task) (c : list Task) :
  let r := updateProgress progress_arg now t c in
  progress (this r) = Z.max 0 (Z.min 100 progress_arg)
  /\ (progress (this r) = 100 -> status (this r) = "completed")
  /\ (0 < progress (this r) < 100 -> status (this r) = "in-progress")
  /\ progressStatusInvariant (this r)
  /\ (JS.includes statusEnum (status t) = true -> outcome r = Ok tt)
  /\ (outcome r = Ok tt -> findById _id (_id t) (collection r) = Some (this r)).
Proof.
  cbv zeta. unfold updateProgress, JS.Math_max, JS.Math_min.
  set (n := Z.max 0 (Z.min 100 progress_arg)).
  set (t1 := set_progress n t).
  set (t2 := if progress t1 =? 100 then set_status "completed" t1
             else if 0 <? progress t1 then set_status "in-progress" t1 else t1).
  assert (Hn : 0 <= n <= 100) by (subst n; lia).
  assert (Hp2 : progress t2 = n).
  { subst t2. simpl. destruct (n =? 100); [reflexivity|].
    destruct (0 <? n); reflexivity. }
  assert (Hid2 : _id t2 = _id t).
  { subst t2. simpl. destruct (n =? 100); [reflexivity|].
    destruct (0 <? n); reflexivity. }
  assert (Hdone : n = 100 -> status t2 = "completed").
  { intros H. subst t2. simpl. rewrite H. reflexivity. }
  assert (Hmid : 0 < n < 100 -> status t2 = "in-progress").
  { intros H. subst t2. simpl.
    destruct (Z.eqb_spec n 100); [lia|].
    destruct (Z.ltb_spec 0 n); [reflexivity|lia]. }
  assert (Hsame : status t2 = "completed" \/ status t2 = "in-progress"
                  \/ status t2 = status t).
  { subst t2. simpl. destruct (n =? 100); [now left|].
    destruct (0 <? n); [right; now left | right; now right]. }
  assert (Hthis : this (save now t2 c) = t2 \/ this (save now t2 c) = preSave now t2).
  { unfold save. destruct (validate t2); simpl; [now right | now left]. }
  assert (Hst : status (this (save now t2 c)) = status t2).
  { destruct Hthis as [-> | ->]; [reflexivity | apply task_preSave_status]. }
  assert (Hpr : progress (this (save now t2 c)) = n).
  { destruct Hthis as [-> | ->]; [exact Hp2 | now rewrite task_preSave_progress]. }
  rewrite Hpr, Hst.
  split; [reflexivity|].
  split; [exact Hdone|].
  split; [exact Hmid|].
  split.
  { unfold progressStatusInvariant. rewrite Hpr, Hst. split; [exact Hdone|].
    intros H. rewrite (Hmid H). discriminate. }
  split.
  - intros Henum.
    assert (Hvalid : validate t2 = []).
    { unfold validate, validateStatus, validateProgress. rewrite Hp2.
      destruct (Z.ltb_spec n 0); [lia|].
      destruct (Z.ltb_spec 100 n); [lia|].
      destruct Hsame as [-> | [-> | ->]]; try reflexivity.
      now rewrite Henum. }
    now rewrite (task_save_valid now t2 c Hvalid).
  - unfold save. destruct (validate t2); simpl; [|discriminate].
    intros _. rewrite <- Hid2, <- (task_preSave_id now t2). apply findById_persist.
Qed.
End TaskFacts.

(** The update route stores progress 100 on a pending task and leaves it
    pending: [PUT /api/tasks/:id] with body [{ progress: 100 }]. *)
Lemma updateTask_breaks_invariant :
  let req := Demo.request None Demo.draftId (TaskModel.mkUpdate None (Some 100) None) in
  let result := TaskRoutes.updateTask (E := Demo.externals) req Demo.world Demo.db in
  let stored := TaskModel.mkTask Demo.draftId "pending" 100 None in
  snd result
  = Ok (Http.mkResponse 200 true None None (Some (Http.TaskData stored)) None)
  /\ findById TaskModel._id Demo.draftId (tasks (fst result)) = Some stored
  /\ ~ progressStatusInvariant stored.
Proof.
  cbv zeta. split; [reflexivity|]. split; [reflexivity|].
  unfold progressStatusInvariant. simpl. intros [Hdone _].
  specialize (Hdone eq_refl). discriminate.
Qed.

(** ** The error handler *)

Section ErrorFacts.
Context {E : Externals}.
Import ErrorMiddleware.

Lemma truthy_append (a b : string) :
  JS.truthy b = true -> JS.truthy (a ++ b)%string = true.
Proof. destruct a; simpl; auto. Qed.

Lemma uploadLimit_false (err : JsError) :
  uploadLimit err = false ->
  code_is_str (code err) "LIMIT_FILE_SIZE" = false
  /\ code_is_str (code err) "LIMIT_UNEXPECTED_FILE" = false.
Proof. unfold uploadLimit. intros H. now apply orb_false_elim in H. Qed.

Lemma uploadLimit_not_duplicate (err : JsError) :
  uploadLimit err = true -> duplicateKey err = false.
Proof.
  unfold uploadLimit, duplicateKey.
  destruct (code err) as [[n|s]|]; simpl; [discriminate | reflexivity | discriminate].
Qed.

Ltac name_tests :=
  repeat match goal with
    | H : name ?e = _ |- _ => rewrite H
    | H : name ?e <> ?s |- context [String.eqb (name ?e) ?s] =>
        rewrite (proj2 (String.eqb_neq (name e) s) H)
    end.

(** An exception the handler cannot read makes the handler itself throw. *)
Lemma errorHandler_throws (err : JsError) :
  (duplicateKey err = true /\ keyValue err = None)
  \/ (name err = "ValidationError" /\ errors err = None
      /\ (duplicateKey err = true -> keyValue err <> None)) ->
  errorHandler err = Throw typeError.
Proof.
  unfold errorHandler, duplicateKey.
  intros [[Hdup Hkv] | [Hname [Herrs Hkv]]].
  - now rewrite Hdup, Hkv.
  - rewrite Hname, Herrs.
    destruct (code_is_num (code err) 11000); [|reflexivity].
    destruct (keyValue err); [reflexivity | now destruct (Hkv eq_refl)].
Qed.

(** C6, as the code has it.  What the handler does is a function of the
    exception alone.  Each rule below holds when no later rule of the
    handler matches as well (a later match overwrites an earlier one):
    a CastError is answered 404; a duplicate key 400 naming the first
    duplicated field; a ValidationError 400 with the field messages
    joined by ", "; an invalid token 401; an expired token 401; an
    upload-limit error 400; and any other exception its own status code
    and message, 500 and "Server Error" only where it carries none.
    Every answer is [{ success: false, message }], with the stack added
    in development mode.  Two exceptions get no answer: on a duplicate
    key without [keyValue], and on a ValidationError without [errors],
    the handler itself throws a TypeError. *)
Theorem errorHandler_table (err : JsError) :
  (name err = "CastError" -> duplicateKey err = false -> uploadLimit err = false ->
   errorHandler err = Ok (errorEnvelope err 404 "Resource not found"))
  /\ (forall kv,
         duplicateKey err = true -> keyValue err = Some kv ->
         name err <> "ValidationError" -> name err <> "JsonWebTokenError" ->
         name err <> "TokenExpiredError" ->
         errorHandler err
         = Ok (errorEnvelope err 400
                 (JS.template (option_map fst (hd_error kv)) ++ " already exists")%string))
  /\ (forall vals,
         name err = "ValidationError" -> errors err = Some vals ->
         uploadLimit err = false ->
         (duplicateKey err = true -> keyValue err <> None) ->
         errorHandler err
         = Ok (errorEnvelope err 400
                 (orServerError (Some (JS.join ", " (map snd vals))))))
  /\ (name err = "JsonWebTokenError" -> uploadLimit err = false ->
      (duplicateKey err = true -> keyValue err <> None) ->
      errorHandler err = Ok (errorEnvelope err 401 "Invalid token"))
  /\ (name err = "TokenExpiredError" -> uploadLimit err = false ->
      (duplicateKey err = true -> keyValue err <> None) ->
      errorHandler err = Ok (errorEnvelope err 401 "Token expired"))
  /\ (uploadLimit err = true ->
      (name err = "ValidationError" -> errors err <> None) ->
      errorHandler err
      = Ok (errorEnvelope err 400
              (if code_is_str (code err) "LIMIT_UNEXPECTED_FILE"
               then "Unexpected file field" else "File too large")))
  /\ (name err <> "CastError" -> name err <> "ValidationError" ->
      name err <> "JsonWebTokenError" -> name err <> "TokenExpiredError" ->
      duplicateKey err = false -> uploadLimit err = false ->
      errorHandler err
      = Ok (errorEnvelope err (ownStatus err) (orServerError (message err))))
  /\ (duplicateKey err = true -> keyValue err = None ->
      errorHandler err = Throw typeError)
  /\ (name err = "ValidationError" -> errors err = None ->
      errorHandler err = Throw typeError).
Proof.
  assert (Hdup : forall P : Prop,
             (duplicateKey err = true -> keyValue err <> None) ->
             (forall kv, duplicateKey err = true -> keyValue err = Some kv -> P) ->
             (duplicateKey err = false -> P) -> P).
  { intros P Hkv Hyes Hno. destruct (duplicateKey err) eqn:Hd.
    - destruct (keyValue err) as [kv|] eqn:Hk.
      + now apply (Hyes kv).
      + now destruct (Hkv eq_refl).
    - now apply Hno. }
  repeat split.
  - intros Hname Hnodup Hnoup.
    destruct (uploadLimit_false err Hnoup) as [Hsize Hfield].
    unfold errorHandler, errorEnvelope. unfold duplicateKey in Hnodup.
    rewrite Hname, Hnodup, Hsize, Hfield. reflexivity.
  - intros kv Hisdup Hkv Hn1 Hn2 Hn3.
    assert (Hnoup : uploadLimit err = false).
    { destruct (uploadLimit err) eqn:Hu; [|reflexivity].
      apply uploadLimit_not_duplicate in Hu. congruence. }
    destruct (uploadLimit_false err Hnoup) as [Hsize Hfield].
    unfold errorHandler, errorEnvelope. unfold duplicateKey in Hisdup.
    rewrite Hisdup, Hkv, Hsize, Hfield. name_tests. simpl.
    rewrite truthy_append by reflexivity. reflexivity.
  - intros vals Hname Hvals Hnoup Hkv.
    destruct (uploadLimit_false err Hnoup) as [Hsize Hfield].
    apply (Hdup _ Hkv).
    + intros kv Hisdup Hsome. unfold errorHandler, errorEnvelope.
      unfold duplicateKey in Hisdup.
      rewrite Hname, Hisdup, Hsome, Hvals, Hsize, Hfield. simpl.
      destruct (JS.truthy (JS.join ", " (map snd vals))); reflexivity.
    + intros Hnodup. unfold errorHandler, errorEnvelope.
      unfold duplicateKey in Hnodup.
      rewrite Hname, Hnodup, Hvals, Hsize, Hfield. simpl.
      destruct (JS.truthy (JS.join ", " (map snd vals))); reflexivity.
  - intros Hname Hnoup Hkv.
    destruct (uploadLimit_false err Hnoup) as [Hsize Hfield].
    apply (Hdup _ Hkv).
    + intros kv Hisdup Hsome. unfold errorHandler, errorEnvelope.
      unfold duplicateKey in Hisdup.
      rewrite Hname, Hisdup, Hsome, Hsize, Hfield. reflexivity.
    + intros Hnodup. unfold errorHandler, errorEnvelope.
      unfold duplicateKey in Hnodup.
      rewrite Hname, Hnodup, Hsize, Hfield. reflexivity.
  - intros Hname Hnoup Hkv.
    destruct (uploadLimit_false err Hnoup) as [Hsize Hfield].
    apply (Hdup _ Hkv).
    + intros kv Hisdup Hsome. unfold errorHandler, errorEnvelope.
      unfold duplicateKey in Hisdup.
      rewrite Hname, Hisdup, Hsome, Hsize, Hfield. reflexivity.
    + intros Hnodup. unfold errorHandler, errorEnvelope.
      unfold duplicateKey in Hnodup.
      rewrite Hname, Hnodup, Hsize, Hfield. reflexivity.
  - intros Hup Herrs.
    pose proof (uploadLimit_not_duplicate err Hup) as Hnodup.
    unfold errorHandler, errorEnvelope. unfold duplicateKey in Hnodup.
    rewrite Hnodup. unfold uploadLimit in Hup.
    destruct (String.eqb_spec (name err) "ValidationError") as [Hval|Hval].
    + destruct (errors err) as [vals|] eqn:Hvals; [|now destruct (Herrs Hval)].
      rewrite Hval. simpl.
      destruct (code_is_str (code err) "LIMIT_UNEXPECTED_FILE");
        destruct (code_is_str (code err) "LIMIT_FILE_SIZE");
        try discriminate; reflexivity.
    + simpl.
      destruct (code_is_str (code err) "LIMIT_UNEXPECTED_FILE");
        destruct (code_is_str (code err) "LIMIT_FILE_SIZE");
        try discriminate; reflexivity.
  - intros Hn0 Hn1 Hn2 Hn3 Hnodup Hnoup.
    destruct (uploadLimit_false err Hnoup) as [Hsize Hfield].
    unfold errorHandler, errorEnvelope, ownStatus, orServerError.
    unfold duplicateKey in Hnodup.
    rewrite Hnodup, Hsize, Hfield. name_tests. simpl.
    destruct (statusCode err) as [n|]; simpl;
      [destruct (n =? 0); simpl|];
      (destruct (message err) as [m|]; simpl; [destruct (JS.truthy m)|]; reflexivity).
  - intros Hisdup Hkv. apply errorHandler_throws. now left.
  - intros Hname Herrs.
    destruct (duplicateKey err) eqn:Hisdup; [destruct (keyValue err) eqn:Hkv|];
      apply errorHandler_throws;
      solve [ left; split; [exact Hisdup | exact Hkv]
            | right; split; [exact Hname|]; split; [exact Herrs|];
              intros; congruence ].
Qed.

End ErrorFacts.

(** Exceptions outside the five categories that are not answered 500: an
    [AppError] with status 404, body-parser's 400 for malformed JSON, and
    Multer's file-size error. *)
Lemma errorHandler_other_not_500 :
  let err := ErrorMiddleware.AppError "Route /api/nope not found" 404 in
  let badJson :=
    mkJsError "SyntaxError" (Some "Unexpected end of JSON input") None None None
      (Some 400) None in
  name err <> "CastError" /\ name err <> "ValidationError"
  /\ name err <> "JsonWebTokenError" /\ name err <> "TokenExpiredError"
  /\ duplicateKey err = false
  /\ ErrorMiddleware.errorHandler (E := Demo.externals) err
     = Ok (Http.failure 404 "Route /api/nope not found")
  /\ ErrorMiddleware.errorHandler (E := Demo.externals) badJson
     = Ok (Http.failure 400 "Unexpected end of JSON input")
  /\ ErrorMiddleware.errorHandler (E := Demo.externals)
       (mkJsError "MulterError" (Some "File too large") (Some (CodeStr "LIMIT_FILE_SIZE"))
          None None None None)
     = Ok (Http.failure 400 "File too large").
Proof.
  cbv zeta. repeat split; try discriminate; reflexivity.
Qed.

(** ** The auth middleware and the role guard *)

Section AuthFacts.
Context {E : Externals}.
Import AuthMiddleware.


(** A token that verifies and names a stored, active user lets the
    request through with that user attached, password left out. *)
Lemma authenticateToken_accepts {B : Type} (req : Http.Request B) (w : World) (db : Db)
  (token : string) (decoded : Payload) (oid : ObjectId) (u : UserModel.User) :
  bearerToken (Http.authorization req) = Some token ->
  JS.truthy token = true ->
  jwt_verify token JWT_SECRET (now w) = Ok decoded ->
  castObjectId (userId decoded) = Some oid ->
  findById UserModel._id oid (users db) = Some u ->
  UserModel.isActive u = true ->
  authenticateToken req w db
  = Http.Next (Http.set_user (UserModel.withoutPassword u) req).
Proof.
  intros Htok Htruthy Hverify Hcast Hfind Hactive. unfold authenticateToken.
  rewrite Htok, Htruthy, Hverify. simpl.
  unfold UserModel.findByIdCast. rewrite Hcast, Hfind. simpl.
  now rewrite Hactive.
Qed.


(** C8.  For an authenticated request the role guard calls the handler
    exactly when the user's role is one of the permitted roles, and
    answers 403 otherwise without touching the database; so a user who
    is not an admin gets 403 from the user-delete route and every stored
    user stays as it was. *)
Theorem requireRole_guard
  {B : Type} (roles : list string) (h : Http.Handler B)
  (req : Http.Request B) (w : World) (db : Db) (u : UserModel.User) :
  Http.user req = Some u ->
  (requireRole roles req w db = Http.Next req <-> In (UserModel.role u) roles)
  /\ (In (UserModel.role u) roles ->
      Http.use (requireRole roles) h req w db = h req w db)
  /\ (~ In (UserModel.role u) roles ->
      Http.use (requireRole roles) h req w db
      = (db, Ok (Http.failure 403 "Insufficient permissions")))
  /\ (UserModel.role u <> "admin" ->
      UserRoutes.deleteUser req w db
      = (db, Ok (Http.failure 403 "Insufficient permissions"))).
Proof.
  intros Huser.
  assert (Hin : forall rs, In (UserModel.role u) rs ->
                 requireRole rs req w db = Http.Next req).
  { intros rs H. unfold requireRole. rewrite Huser.
    now rewrite (proj2 (includes_In rs (UserModel.role u)) H). }
  assert (Hout : forall rs, ~ In (UserModel.role u) rs ->
                  requireRole rs req w db
                  = Http.Respond (Http.failure 403 "Insufficient permissions")).
  { intros rs H. unfold requireRole. rewrite Huser.
    destruct (JS.includes rs (UserModel.role u)) eqn:Hinc; [|reflexivity].
    now apply includes_In in Hinc. }
  split; [|split; [|split]].
  - split; [|apply Hin].
    intros Hnext. destruct (in_dec string_dec (UserModel.role u) roles) as [Hyes|Hno];
      [exact Hyes|].
    rewrite (Hout roles Hno) in Hnext. discriminate.
  - intros H. unfold Http.use. now rewrite (Hin roles H).
  - intros H. unfold Http.use. now rewrite (Hout roles H).
  - intros Hrole. unfold UserRoutes.deleteUser, Http.use, requireAdmin.
    rewrite (Hout ["admin"]); [reflexivity|].
    simpl. intros [Heq | []]. now apply Hrole.
Qed.
End AuthFacts.


(** A plain user asking to delete another user. *)
Lemma requireRole_guard_witness :
  Http.user (Http.set_user Demo.ada (Demo.request None Demo.bobId tt)) = Some Demo.ada
  /\ UserRoutes.deleteUser (E := Demo.externals)
       (Http.set_user Demo.ada (Demo.request None Demo.bobId tt)) Demo.world Demo.db
     = (Demo.db, Ok (Http.failure 403 "Insufficient permissions")).
Proof.
  split; [reflexivity|].
  destruct (requireRole_guard (E := Demo.externals) ["admin"]
              (UserRoutes.deleteUserHandler (E := Demo.externals))
              (Http.set_user Demo.ada (Demo.request None Demo.bobId tt))
              Demo.world Demo.db Demo.ada eq_refl) as [_ [_ [_ Hdelete]]].
  apply Hdelete. discriminate.
Defined.

(** ** Login *)

Section LoginFacts.
Context {E : Externals}.
Import AuthRoutes.

(** C1, as the code has it.  A login that passes validation and fails is
    answered 401 with the database untouched: with the one message
    "Invalid email or password" both when no user has the email and when
    the password does not match, and with the message "Account is
    deactivated" when the user found is inactive (whatever the password). *)
Theorem login_rejections (req : Http.Request LoginBody) (w : World) (db : Db) :
  loginErrors (Http.body req) = [] ->
  let found :=
    UserModel.findByEmail true (normalizeEmail (l_email (Http.body req))) (users db) in
  (found = None ->
   login req w db = (db, Ok (Http.failure 401 "Invalid email or password")))
  /\ (forall d,
         found = Some d ->
         UserModel.isActive (UserModel.fields d) = true ->
         UserModel.comparePassword (l_password (Http.body req)) (UserModel.fields d)
         = Ok false ->
         login req w db = (db, Ok (Http.failure 401 "Invalid email or password")))
  /\ (forall d,
         found = Some d ->
         UserModel.isActive (UserModel.fields d) = false ->
         login req w db = (db, Ok (Http.failure 401 "Account is deactivated"))).
Proof.
  intros Hvalid. cbv zeta.
  unfold login, ErrorMiddleware.asyncHandler. rewrite Hvalid.
  split; [|split].
  - intros ->. reflexivity.
  - intros d -> Hactive Hcompare. rewrite Hactive, Hcompare. reflexivity.
  - intros d -> Hinactive. rewrite Hinactive. reflexivity.
Qed.
End LoginFacts.

(** A login for an address nobody registered. *)
Lemma login_rejections_witness :
  AuthRoutes.login (E := Demo.externals)
    (Demo.request None "" (AuthRoutes.mkLoginBody "Eve@Example.com" "guess"))
    Demo.world Demo.db
  = (Demo.db, Ok (Http.failure 401 "Invalid email or password")).
Proof.
  destruct (login_rejections (E := Demo.externals)
              (Demo.request None "" (AuthRoutes.mkLoginBody "Eve@Example.com" "guess"))
              Demo.world Demo.db eq_refl) as [Hunknown _].
  apply Hunknown. reflexivity.
Defined.

(** The answers to an unknown address and to a deactivated account differ
    in their message. *)
Lemma login_inactive_distinguishable :
  let unknown := Demo.request None "" (AuthRoutes.mkLoginBody "eve@example.com" "sleeping") in
  let inactive := Demo.request None "" (AuthRoutes.mkLoginBody "bob@example.com" "sleeping") in
  let answer req := snd (AuthRoutes.login (E := Demo.externals) req Demo.world Demo.db) in
  answer unknown = Ok (Http.failure 401 "Invalid email or password")
  /\ answer inactive = Ok (Http.failure 401 "Account is deactivated")
  /\ answer unknown <> answer inactive.
Proof.
  cbv zeta. split; [reflexivity|]. split; [reflexivity|].
  vm_compute. discriminate.
Qed.

(** ** Registration, hashing and the login that follows *)

Section StringFacts.

Lemma is_space_lower_char (c : ascii) : JS.is_space (JS.lower_char c) = JS.is_space c.
Proof. destruct c as [[] [] [] [] [] [] [] []]; reflexivity. Qed.

Lemma trimStart_toLowerCase (s : string) :
  JS.trimStart (JS.toLowerCase s) = JS.toLowerCase (JS.trimStart s).
Proof.
  induction s as [|c rest IH]; simpl; [reflexivity|].
  rewrite is_space_lower_char.
  destruct (JS.is_space c); [exact IH | reflexivity].
Qed.

Lemma trimEnd_toLowerCase (s : string) :
  JS.trimEnd (JS.toLowerCase s) = JS.toLowerCase (JS.trimEnd s).
Proof.
  induction s as [|c rest IH]; simpl; [reflexivity|].
  fold (JS.toLowerCase rest). rewrite IH.
  destruct (JS.trimEnd rest) as [|c' r]; simpl.
  - rewrite is_space_lower_char. destruct (JS.is_space c); reflexivity.
  - reflexivity.
Qed.

Lemma trim_toLowerCase (s : string) :
  JS.trim (JS.toLowerCase s) = JS.toLowerCase (JS.trim s).
Proof.
  unfold JS.trim. now rewrite trimStart_toLowerCase, trimEnd_toLowerCase.
Qed.

Lemma truthy_of_length (s : string) :
  (6 <=? Z.of_nat (String.length s)) = true -> JS.truthy s = true.
Proof. destruct s; [discriminate | reflexivity]. Qed.

End StringFacts.

Section UserFacts.
Context {E : Externals}.
Import UserModel.

Lemma validate_set_lastLogin (d : option Time) (u : User) :
  validate (set_lastLogin d u) = validate u.
Proof. reflexivity. Qed.

Lemma find_app_last {A : Type} (f : A -> bool) (c : list A) (x : A) :
  find f c = None -> f x = true -> find f (c ++ [x]) = Some x.
Proof.
  induction c as [|y rest IH]; simpl; intros Hnone Hx.
  - now rewrite Hx.
  - destruct (f y); [discriminate | now apply IH].
Qed.

(** A new document that [save] accepts is appended with its password
    hashed. *)
Lemma save_new_inv (saltv : Z) (oid : ObjectId) (first last mail pw rl : string)
  (c : list User) :
  let d := newUser oid first last mail pw rl in
  let u := set_password (Some (bcrypt_hash pw 12 saltv)) (fields d) in
  outcome (save saltv d c) = Ok tt ->
  validate (fields d) = []
  /\ findById _id oid c = None
  /\ this (save saltv d c) = loaded u
  /\ collection (save saltv d c) = c ++ [u].
Proof.
  cbv zeta. unfold save.
  destruct (validate (fields (newUser oid first last mail pw rl))) as [|f fs] eqn:Hv;
    [|simpl; discriminate].
  unfold preSave. simpl.
  destruct (findById _id oid c) eqn:Hfind; simpl; [discriminate|].
  match goal with |- context [emailTaken ?u c] => destruct (emailTaken u c) end;
    simpl; [discriminate|].
  intros _. repeat split.
Qed.

(** A stored document whose password and email were not assigned is
    written back as it is when it validates. *)
Lemma save_stored (saltv : Z) (d : Document) (c : list User) (h : string) :
  isNew d = false ->
  isModified "password" d = false ->
  isModified "email" d = false ->
  password (fields d) = Some h ->
  outcome (save saltv d c) = Ok tt ->
  validate (fields d) = []
  /\ this (save saltv d c) = loaded (fields d)
  /\ collection (save saltv d c) = persist _id (fields d) c.
Proof.
  intros Hnew Hpw Hmail Hsome. unfold save.
  destruct (validate (fields d)) as [|f fs] eqn:Hv; [|simpl; discriminate].
  unfold preSave. rewrite Hpw. simpl. rewrite Hnew, Hmail. simpl.
  destruct (findById _id (_id (fields d)) c) eqn:Hfind; simpl; [|discriminate].
  intros _. unfold merged. rewrite Hsome. repeat split.
Qed.

Lemma save_stored_ok (saltv : Z) (d : Document) (c : list User) (h : string) (old : User) :
  isNew d = false ->
  isModified "password" d = false ->
  isModified "email" d = false ->
  password (fields d) = Some h ->
  validate (fields d) = [] ->
  findById _id (_id (fields d)) c = Some old ->
  save saltv d c = mkRun (loaded (fields d)) (persist _id (fields d) c) (Ok tt).
Proof.
  intros Hnew Hpw Hmail Hsome Hv Hfind. unfold save. rewrite Hv.
  unfold preSave. rewrite Hpw. simpl. rewrite Hnew, Hmail. simpl.
  rewrite Hfind. unfold merged. now rewrite Hsome.
Qed.
End UserFacts.

Section RegisterFacts.
Context {E : Externals}.
Import AuthRoutes.

(** What the theorem below needs of bcryptjs and express-validator: a
    hash verifies against the password it was made from, a hash is never
    the password itself, and a validated, normalised address has no
    white space around it. *)
Hypothesis compare_hash :
  forall pw s, bcrypt_compare pw (bcrypt_hash pw 12 s) = true.
Hypothesis hash_differs :
  forall pw s, bcrypt_hash pw 12 s <> pw.
Hypothesis valid_email_trimmed :
  forall e, isEmail e = true -> JS.trim (normalizeEmail e) = normalizeEmail e.

Lemma users_set_users (us : list UserModel.User) (d : Db) :
  users (set_users us d) = us.
Proof. reflexivity. Qed.

Lemma registerErrors_nil (b : RegisterBody) :
  registerErrors b = [] ->
  isEmail (r_email b) = true
  /\ (6 <=? Z.of_nat (String.length (r_password b))) = true.
Proof.
  unfold registerErrors. intros H.
  apply app_eq_nil in H. destruct H as [_ H].
  apply app_eq_nil in H. destruct H as [_ H].
  apply app_eq_nil in H. destruct H as [Hmail H].
  apply app_eq_nil in H. destruct H as [Hpw _].
  split.
  - destruct (isEmail (r_email b)); [reflexivity | discriminate].
  - destruct (6 <=? Z.of_nat (String.length (r_password b))); [reflexivity | discriminate].
Qed.

Lemma loginErrors_nil (e p : string) :
  isEmail e = true -> JS.truthy p = true -> loginErrors (mkLoginBody e p) = [].
Proof. unfold loginErrors. simpl. now intros -> ->. Qed.

(** Whether [jwt.sign] throws depends on the secret and the [expiresIn]
    option, not on the payload or the time. *)
Lemma generateToken_again (uid uid' : ObjectId) (t t' : Time) (token : string) :
  generateToken uid t = Ok token ->
  exists token', generateToken uid' t' = Ok token'.
Proof.
  unfold generateToken. cbv zeta.
  destruct (jwt_sign_error _ _); [discriminate|].
  intros _. eexists. reflexivity.
Qed.

Lemma login_accepts
  (req : Http.Request LoginBody) (w : World) (db : Db) (d : UserModel.Document)
  (token : string) :
  generateToken (UserModel._id (UserModel.fields d)) (now w) = Ok token ->
  loginErrors (Http.body req) = [] ->
  UserModel.findByEmail true (normalizeEmail (l_email (Http.body req))) (users db)
  = Some d ->
  UserModel.isActive (UserModel.fields d) = true ->
  UserModel.comparePassword (l_password (Http.body req)) (UserModel.fields d)
  = Ok true ->
  outcome (UserModel.save (salt w)
             (UserModel.assign "lastLogin" (UserModel.set_lastLogin (Some (now w))) d)
             (users db)) = Ok tt ->
  exists db'' res',
    login req w db = (db'', Ok res')
    /\ Http.status res' = 200 /\ Http.success res' = true.
Proof.
  intros Htoken Hvalid Hfound Hactive Hcompare Hsaved.
  unfold login, ErrorMiddleware.asyncHandler.
  rewrite Hvalid. cbv zeta. rewrite Hfound, Hactive, Hcompare. cbn [negb].
  rewrite Htoken, Hsaved.
  eexists. eexists. split; [reflexivity|]. split; reflexivity.
Qed.

Lemma find_none_existsb {A : Type} (f g : A -> bool) (c : list A) :
  find f c = None -> (forall x, g x = true -> f x = true) -> existsb g c = false.
Proof.
  intros Hnone Himp. induction c as [|x rest IH]; simpl in *; [reflexivity|].
  destruct (f x) eqn:Hf; [discriminate|].
  destruct (g x) eqn:Hg; [rewrite (Himp x Hg) in Hf; discriminate|].
  now apply IH.
Qed.

(** A registration that passes the request validation and the schema
    validation, for an address no stored user has and with an unused
    fresh id, is answered 201 when the token can be signed. *)
Lemma register_creates (req : Http.Request RegisterBody) (w : World) (db : Db)
  (token : string) :
  let b := registerSanitized (Http.body req) in
  let d0 :=
    UserModel.newUser (freshId w) (r_firstName b) (r_lastName b) (r_email b)
      (r_password b) match r_role b with Some r => r | None => "user" end in
  generateToken (freshId w) (now w) = Ok token ->
  registerErrors (Http.body req) = [] ->
  UserModel.findByEmail false (r_email b) (users db) = None ->
  findById UserModel._id (freshId w) (users db) = None ->
  UserModel.validate (UserModel.fields d0) = [] ->
  (6 <=? Z.of_nat (String.length (bcrypt_hash (r_password b) 12 (salt w)))) = true ->
  exists db' res, register req w db = (db', Ok res) /\ Http.status res = 201.
Proof.
  cbv zeta. intros Htoken Herrs Hpre Hfresh Hv Hhash.
  destruct (registerErrors_nil _ Herrs) as [Hmail Hlen].
  unfold register, ErrorMiddleware.asyncHandler. rewrite Herrs. cbv zeta.
  rewrite Hpre.
  set (d0 := UserModel.newUser _ _ _ _ _ _) in *.
  set (hashed := bcrypt_hash (r_password (registerSanitized (Http.body req))) 12 (salt w))
    in *.
  set (u1 := UserModel.set_password (Some hashed) (UserModel.fields d0)).
  assert (Hfirst : UserModel.save (salt w) d0 (users db)
                   = mkRun (UserModel.loaded u1) (users db ++ [u1]) (Ok tt)).
  { unfold UserModel.save. rewrite Hv.
    change (UserModel.preSave (salt w) d0)
      with (UserModel.mkDocument u1 true (UserModel.modifiedPaths d0)).
    cbn [UserModel.fields UserModel.isNew].
    change (UserModel._id u1) with (freshId w). rewrite Hfresh.
    assert (Hfree : UserModel.emailTaken u1 (users db) = false).
    { unfold UserModel.emailTaken, UserModel.findByEmail in *.
      apply (find_none_existsb
               (fun u => String.eqb (UserModel.email u)
                           (JS.toLowerCase (normalizeEmail (r_email (Http.body req)))))).
      - destruct (find _ (users db)); [discriminate | reflexivity].
      - intros x Hx. apply andb_prop in Hx. destruct Hx as [Hx _].
        change (UserModel.email u1)
          with (JS.trim (JS.toLowerCase (normalizeEmail (r_email (Http.body req)))))
          in Hx.
        now rewrite trim_toLowerCase, (valid_email_trimmed _ Hmail) in Hx. }
    rewrite Hfree. reflexivity. }
  rewrite Hfirst. cbn [outcome this collection].
  change (UserModel._id (UserModel.fields (UserModel.loaded u1))) with (freshId w).
  rewrite Htoken.
  assert (Hv1 : UserModel.validate u1 = []).
  { unfold UserModel.validate in *.
    apply app_eq_nil in Hv. destruct Hv as [Hf Hv].
    apply app_eq_nil in Hv. destruct Hv as [Hl Hv].
    apply app_eq_nil in Hv. destruct Hv as [Hm Hv].
    apply app_eq_nil in Hv. destruct Hv as [_ Hr].
    change (UserModel.firstName u1) with (UserModel.firstName (UserModel.fields d0)).
    change (UserModel.lastName u1) with (UserModel.lastName (UserModel.fields d0)).
    change (UserModel.email u1) with (UserModel.email (UserModel.fields d0)).
    change (UserModel.role u1) with (UserModel.role (UserModel.fields d0)).
    rewrite Hf, Hl, Hm, Hr.
    change (UserModel.password u1) with (Some hashed).
    cbn [app].
    unfold UserModel.nameLength.
    rewrite (truthy_of_length _ Hhash). cbn [negb].
    destruct (Z.ltb_spec (Z.of_nat (String.length hashed)) 6) as [Hshort|_];
      [|reflexivity].
    apply Z.leb_le in Hhash. lia. }
  rewrite (save_stored_ok (salt w)
             (UserModel.assign "lastLogin" (UserModel.set_lastLogin (Some (now w)))
                (UserModel.loaded u1))
             (users db ++ [u1]) hashed u1 eq_refl eq_refl eq_refl eq_refl).
  - cbn [outcome]. eexists. eexists. split; reflexivity.
  - exact Hv1.
  - apply (findById_app_last UserModel.User UserModel._id u1 (users db)).
    exact Hfresh.
Qed.

(** C7.  When a registration is answered 201, the user it created is
    stored under the normalised email with the bcrypt hash of the
    submitted password, which is not the password itself, and a login
    with the same email and password on the resulting database is
    answered 200. *)
Theorem register_then_login
  (req : Http.Request RegisterBody) (w : World) (db db' : Db) (res : Http.Response) :
  register req w db = (db', Ok res) ->
  Http.status res = 201 ->
  exists u,
    UserModel.findByEmail true (normalizeEmail (r_email (Http.body req))) (users db')
    = Some (UserModel.loaded u)
    /\ UserModel._id u = freshId w
    /\ UserModel.password u
       = Some (bcrypt_hash (r_password (Http.body req)) 12 (salt w))
    /\ UserModel.password u <> Some (r_password (Http.body req))
    /\ forall (lreq : Http.Request LoginBody) (w' : World),
        Http.body lreq
        = mkLoginBody (r_email (Http.body req)) (r_password (Http.body req)) ->
        exists db'' res',
          login lreq w' db' = (db'', Ok res')
          /\ Http.status res' = 200 /\ Http.success res' = true.
Proof.
  intros Hreg Hstatus.
  unfold register, ErrorMiddleware.asyncHandler in Hreg.
  destruct (registerErrors (Http.body req)) as [|m ms] eqn:Herrs;
    [|inversion Hreg; subst; discriminate].
  destruct (registerErrors_nil _ Herrs) as [Hmail Hlen].
  cbv zeta in Hreg.
  cbn [registerSanitized r_firstName r_lastName r_email r_password r_role] in Hreg.
  destruct (UserModel.findByEmail false (normalizeEmail (r_email (Http.body req)))
              (users db)) as [existing|] eqn:Hpre;
    [inversion Hreg; subst; discriminate|].
  set (d0 := UserModel.newUser (freshId w) (JS.trim (r_firstName (Http.body req)))
               (JS.trim (r_lastName (Http.body req)))
               (normalizeEmail (r_email (Http.body req)))
               (r_password (Http.body req))
               match r_role (Http.body req) with Some r => r | None => "user" end) in *.
  pose proof (save_new_inv (salt w) (freshId w)
                (JS.trim (r_firstName (Http.body req)))
                (JS.trim (r_lastName (Http.body req)))
                (normalizeEmail (r_email (Http.body req)))
                (r_password (Http.body req))
                match r_role (Http.body req) with Some r => r | None => "user" end
                (users db)) as Hinv.
  cbv zeta in Hinv. fold d0 in Hinv.
  destruct (outcome (UserModel.save (salt w) d0 (users db))) as [[]|e] eqn:Hout1;
    [|inversion Hreg].
  destruct (Hinv eq_refl) as [Hv1 [Hfresh [Hthis1 Hcoll1]]]. clear Hinv.
  rewrite Hthis1, Hcoll1 in Hreg.
  destruct (generateToken _ (now w)) as [token|e] eqn:Htoken; [|inversion Hreg].
  set (hashed := bcrypt_hash (r_password (Http.body req)) 12 (salt w)) in *.
  set (u1 := UserModel.set_password (Some hashed) (UserModel.fields d0)) in *.
  set (d1 := UserModel.assign "lastLogin" (UserModel.set_lastLogin (Some (now w)))
               (UserModel.loaded u1)) in *.
  pose proof (save_stored (salt w) d1 (users db ++ [u1]) hashed
                eq_refl eq_refl eq_refl eq_refl) as Hinv.
  destruct (outcome (UserModel.save (salt w) d1 (users db ++ [u1]))) as [[]|e] eqn:Hout2;
    [|inversion Hreg].
  destruct (Hinv eq_refl) as [Hv2 [Hthis2 Hcoll2]]. clear Hinv.
  rewrite Hcoll2 in Hreg.
  assert (Hstored : persist UserModel._id (UserModel.fields d1) (users db ++ [u1])
                    = users db ++ [UserModel.fields d1]).
  { apply persist_last; [exact Hfresh | reflexivity]. }
  rewrite Hstored in Hreg.
  injection Hreg as Hdb Hres. subst db'. clear Hres.
  set (u2 := UserModel.fields d1) in *.
  assert (Hlookup :
           UserModel.findByEmail true (normalizeEmail (r_email (Http.body req)))
             (users db ++ [u2])
           = Some (UserModel.loaded u2)).
  { unfold UserModel.findByEmail in *.
    rewrite find_app_last; [reflexivity | |].
    - destruct (find _ (users db)); [discriminate | reflexivity].
    - change (UserModel.email u2)
        with (JS.trim (JS.toLowerCase (normalizeEmail (r_email (Http.body req))))).
      rewrite trim_toLowerCase, (valid_email_trimmed _ Hmail).
      apply String.eqb_refl. }
  exists u2. rewrite users_set_users.
  split; [exact Hlookup|].
  split; [reflexivity|].
  split; [reflexivity|].
  split.
  { change (UserModel.password u2) with (Some hashed).
    intros Heq. injection Heq as Heq. exact (hash_differs _ _ Heq). }
  intros lreq w' Hbody.
  destruct (generateToken_again _ (UserModel._id u2) _ (now w') _ Htoken)
    as [token' Htoken'].
  apply (login_accepts lreq w' _ (UserModel.loaded u2) token').
  - exact Htoken'.
  - rewrite Hbody. apply loginErrors_nil; [exact Hmail | exact (truthy_of_length _ Hlen)].
  - rewrite Hbody, users_set_users. exact Hlookup.
  - reflexivity.
  - rewrite Hbody.
    change (Ok (bcrypt_compare (r_password (Http.body req))
                  (bcrypt_hash (r_password (Http.body req)) 12 (salt w))) = Ok true).
    now rewrite compare_hash.
  - rewrite users_set_users.
    rewrite (save_stored_ok (salt w')
               (UserModel.assign "lastLogin" (UserModel.set_lastLogin (Some (now w')))
                  (UserModel.loaded u2))
               (users db ++ [u2]) hashed u2 eq_refl eq_refl eq_refl eq_refl).
    + reflexivity.
    + exact Hv2.
    + apply (findById_app_last UserModel.User UserModel._id u2 (users db)).
      exact Hfresh.
Qed.
End RegisterFacts.

Section DemoFacts.

Lemma demo_compare_hash (pw : string) (s : Z) :
  Demo.compare pw (Demo.hash pw 12 s) = true.
Proof. unfold Demo.compare, Demo.hash. apply String.eqb_refl. Qed.

Lemma demo_hash_differs (pw : string) (s : Z) : Demo.hash pw 12 s <> pw.
Proof.
  unfold Demo.hash. intros H.
  apply (f_equal String.length) in H. simpl in H. lia.
Qed.

Lemma trimEnd_noSpace (s : string) : Demo.noSpace s = true -> JS.trimEnd s = s.
Proof.
  induction s as [|c rest IH]; simpl; [reflexivity|].
  intros H. apply andb_prop in H. destruct H as [Hc Hrest].
  rewrite (IH Hrest).
  destruct rest; [|reflexivity].
  destruct (JS.is_space c); [discriminate | reflexivity].
Qed.

Lemma trim_noSpace (s : string) : Demo.noSpace s = true -> JS.trim s = s.
Proof.
  intros H. unfold JS.trim.
  assert (Hstart : JS.trimStart s = s).
  { destruct s as [|c rest]; simpl in *; [reflexivity|].
    destruct (JS.is_space c); [discriminate | reflexivity]. }
  rewrite Hstart. now apply trimEnd_noSpace.
Qed.

Lemma demo_valid_email_trimmed (e : string) :
  Demo.validEmail e = true -> JS.trim (JS.toLowerCase e) = JS.toLowerCase e.
Proof.
  unfold Demo.validEmail. intros H. apply andb_prop in H. destruct H as [_ H].
  rewrite trim_toLowerCase. now rewrite (trim_noSpace e H).
Qed.

End DemoFacts.

(** A registration on the demo database, then the login with the same
    credentials. *)
Lemma register_then_login_witness :
  let req :=
    Demo.request None ""
      (AuthRoutes.mkRegisterBody "Grace" "Hopper" "Grace@Example.com" "cobol60" None) in
  let out := AuthRoutes.register (E := Demo.externals) req Demo.world Demo.db in
  let attempt :=
    Demo.request None "" (AuthRoutes.mkLoginBody "Grace@Example.com" "cobol60") in
  (exists res, snd out = Ok res /\ Http.status res = 201)
  /\ exists db'' res',
      AuthRoutes.login (E := Demo.externals) attempt Demo.world (fst out)
      = (db'', Ok res')
      /\ Http.status res' = 200 /\ Http.success res' = true.
Proof.
  cbv zeta. split.
  - eexists. split; [vm_compute; reflexivity | reflexivity].
  - destruct (register_then_login (E := Demo.externals)
                demo_compare_hash demo_hash_differs demo_valid_email_trimmed
                (Demo.request None ""
                   (AuthRoutes.mkRegisterBody "Grace" "Hopper" "Grace@Example.com"
                      "cobol60" None))
                Demo.world Demo.db
                (fst (AuthRoutes.register (E := Demo.externals)
                        (Demo.request None ""
                           (AuthRoutes.mkRegisterBody "Grace" "Hopper"
                              "Grace@Example.com" "cobol60" None))
                        Demo.world Demo.db))
                (Http.mkResponse 201 true (Some "User registered successfully") None
                   (Some (Http.UserAndToken
                            (UserModel.mkUser Demo.newId "Grace" "Hopper"
                               "grace@example.com" None "user" true (Some 1000))
                            ("jwt." ++ Demo.newId)%string))
                   None)
                ltac:(vm_compute; reflexivity) eq_refl)
      as [u [_ [_ [_ [_ Hlogin]]]]].
    apply Hlogin. reflexivity.
Defined.

(** * Further properties of the code *)

(** ** The auth middleware, both variants, and the role guard *)

Section MoreAuthFacts.
Context {E : Externals}.
Import AuthMiddleware.

Lemma authenticateToken_next
  {B : Type} (req req' : Http.Request B) (w : World) (db : Db) :
  authenticateToken req w db = Http.Next req' ->
  exists token decoded oid u,
    bearerToken (Http.authorization req) = Some token
    /\ JS.truthy token = true
    /\ jwt_verify token JWT_SECRET (now w) = Ok decoded
    /\ castObjectId (userId decoded) = Some oid
    /\ findById UserModel._id oid (users db) = Some u
    /\ UserModel.isActive u = true
    /\ req' = Http.set_user (UserModel.withoutPassword u) req
    /\ Http.user req' = Some (UserModel.set_password None u).
Proof.
  unfold authenticateToken. intros H.
  destruct (bearerToken (Http.authorization req)) as [token|] eqn:Htok; [|discriminate].
  destruct (JS.truthy token) eqn:Htruthy; simpl in H; [|discriminate].
  destruct (jwt_verify token JWT_SECRET (now w)) as [decoded|e] eqn:Hverify;
    [|discriminate].
  unfold UserModel.findByIdCast in H.
  destruct (castObjectId (userId decoded)) as [oid|] eqn:Hcast; [|discriminate].
  destruct (findById UserModel._id oid (users db)) as [u|] eqn:Hfind; [|discriminate].
  simpl in H.
  destruct (UserModel.isActive u) eqn:Hactive; simpl in H; [|discriminate].
  injection H as <-.
  exists token, decoded, oid, u. repeat split; assumption.
Qed.

(** Whenever [authenticateToken] lets a request through, the request
    carried a token that verified and named a stored, active user, and
    that user is attached with the password left out. *)
Theorem authenticateToken_sound
  {B : Type} (req req' : Http.Request B) (w : World) (db : Db) :
  authenticateToken req w db = Http.Next req' ->
  exists token decoded oid u,
    bearerToken (Http.authorization req) = Some token
    /\ JS.truthy token = true
    /\ jwt_verify token JWT_SECRET (now w) = Ok decoded
    /\ castObjectId (userId decoded) = Some oid
    /\ findById UserModel._id oid (users db) = Some u
    /\ UserModel.isActive u = true
    /\ req' = Http.set_user (UserModel.withoutPassword u) req
    /\ Http.user req' = Some (UserModel.set_password None u).
Proof. exact (authenticateToken_next req req' w db). Qed.

(** Whenever [authenticateToken] answers itself, the answer is a failure
    with status 401 or 500, and 500 only when [jwt.verify] threw an
    error that is neither of the two token errors or when the token's
    user id is not an ObjectId. *)
Theorem authenticateToken_answers
  {B : Type} (req : Http.Request B) (w : World) (db : Db) (res : Http.Response) :
  authenticateToken req w db = Http.Respond res ->
  Http.success res = false
  /\ (Http.status res = 401
      \/ (res = Http.failure 500 "Authentication error"
          /\ exists token,
              bearerToken (Http.authorization req) = Some token
              /\ ((exists e, jwt_verify token JWT_SECRET (now w) = Throw e
                             /\ name e <> "JsonWebTokenError"
                             /\ name e <> "TokenExpiredError")
                  \/ (exists decoded, jwt_verify token JWT_SECRET (now w) = Ok decoded
                                      /\ castObjectId (userId decoded) = None)))).
Proof.
  unfold authenticateToken. intros H.
  destruct (bearerToken (Http.authorization req)) as [token|] eqn:Htok;
    [|injection H as <-; split; [reflexivity | left; reflexivity]].
  destruct (JS.truthy token) eqn:Htruthy; simpl in H;
    [|injection H as <-; split; [reflexivity | left; reflexivity]].
  destruct (jwt_verify token JWT_SECRET (now w)) as [decoded|e] eqn:Hverify.
  - unfold UserModel.findByIdCast in H.
    destruct (castObjectId (userId decoded)) as [oid|] eqn:Hcast.
    + destruct (findById UserModel._id oid (users db)) as [u|];
        [|injection H as <-; split; [reflexivity | left; reflexivity]].
      simpl in H. destruct (UserModel.isActive u); simpl in H; [discriminate|].
      injection H as <-. split; [reflexivity | left; reflexivity].
    + injection H as <-. simpl. split; [reflexivity|].
      right. split; [reflexivity|].
      exists token. split; [reflexivity|]. right. now exists decoded.
  - unfold authCatch in H.
    destruct (String.eqb_spec (name e) "JsonWebTokenError") as [Hj|Hj];
      [injection H as <-; split; [reflexivity | left; reflexivity]|].
    destruct (String.eqb_spec (name e) "TokenExpiredError") as [Hx|Hx];
      [injection H as <-; split; [reflexivity | left; reflexivity]|].
    injection H as <-. split; [reflexivity|].
    right. split; [reflexivity|].
    exists token. split; [reflexivity|]. left. now exists e.
Qed.

(** [optionalAuth] never answers: it attaches exactly the user
    [authenticateToken] would attach, and passes on unchanged every
    request [authenticateToken] would turn away. *)
Theorem optionalAuth_agrees {B : Type} (req : Http.Request B) (w : World) (db : Db) :
  OptionalAuth.optionalAuth req w db
  = match authenticateToken req w db with
    | Http.Next req' => Http.Next req'
    | Http.Respond _ => Http.Next req
    end.
Proof.
  unfold OptionalAuth.optionalAuth, authenticateToken.
  destruct (bearerToken (Http.authorization req)) as [token|]; [|reflexivity].
  destruct (JS.truthy token); simpl; [|reflexivity].
  destruct (jwt_verify token JWT_SECRET (now w)) as [decoded|e]; [|reflexivity].
  destruct (UserModel.findByIdCast (userId decoded) (users db)) as [[u|]|e];
    try reflexivity.
  destruct (UserModel.isActive u); reflexivity.
Qed.

(** The role guard is monotone in the permitted roles: a request that
    passes [requireRole roles] passes [requireRole roles'] for every
    larger list; so whoever passes [requireAdmin] passes
    [requireAdminOrManager]. *)
Theorem requireRole_monotone
  {B : Type} (roles roles' : list string) (req req' : Http.Request B)
  (w : World) (db : Db) :
  incl roles roles' ->
  requireRole roles req w db = Http.Next req' ->
  requireRole roles' req w db = Http.Next req'
  /\ (roles = ["admin"] -> requireAdminOrManager req w db = Http.Next req').
Proof.
  intros Hincl Hpass.
  assert (Hmono : forall rs, incl roles rs -> requireRole rs req w db = Http.Next req').
  { intros rs Hrs. unfold requireRole in *.
    destruct (Http.user req) as [u|]; [|discriminate].
    destruct (JS.includes roles (UserModel.role u)) eqn:Hin; simpl in Hpass;
      [|discriminate].
    apply includes_In in Hin. apply Hrs in Hin. apply includes_In in Hin.
    now rewrite Hin. }
  split; [now apply Hmono|].
  intros ->. apply Hmono. intros r [<- | []]. now left.
Qed.
End MoreAuthFacts.

(** A request with a valid token of an active user passes. *)
Lemma authenticateToken_sound_witness :
  exists token decoded oid u,
    AuthMiddleware.bearerToken (Some "Bearer jwt.64b7f0c2a1d3e4f5a6b7c801") = Some token
    /\ JS.truthy token = true
    /\ Demo.verify token (Some "secret") 1000 = Ok decoded
    /\ Demo.cast (userId decoded) = Some oid
    /\ findById UserModel._id oid (users Demo.db) = Some u
    /\ UserModel.isActive u = true
    /\ Http.set_user (UserModel.withoutPassword Demo.ada)
         (Demo.request (Some "Bearer jwt.64b7f0c2a1d3e4f5a6b7c801") "" tt)
       = Http.set_user (UserModel.withoutPassword u)
           (Demo.request (Some "Bearer jwt.64b7f0c2a1d3e4f5a6b7c801") "" tt)
    /\ Http.user
         (Http.set_user (UserModel.withoutPassword Demo.ada)
            (Demo.request (Some "Bearer jwt.64b7f0c2a1d3e4f5a6b7c801") "" tt))
       = Some (UserModel.set_password None u).
Proof.
  exact (authenticateToken_sound (E := Demo.externals)
           (Demo.request (Some "Bearer jwt.64b7f0c2a1d3e4f5a6b7c801") "" tt)
           (Http.set_user (UserModel.withoutPassword Demo.ada)
              (Demo.request (Some "Bearer jwt.64b7f0c2a1d3e4f5a6b7c801") "" tt))
           Demo.world Demo.db eq_refl).
Defined.

(** A verified token whose user id is no ObjectId is answered 500. *)
Lemma authenticateToken_answers_witness :
  Http.success (Http.failure 500 "Authentication error") = false
  /\ (Http.status (Http.failure 500 "Authentication error") = 401
      \/ (Http.failure 500 "Authentication error"
          = Http.failure 500 "Authentication error"
          /\ exists token,
              AuthMiddleware.bearerToken (Some "Bearer jwt.nobody") = Some token
              /\ ((exists e, Demo.verify token (Some "secret") 1000 = Throw e
                             /\ name e <> "JsonWebTokenError"
                             /\ name e <> "TokenExpiredError")
                  \/ (exists decoded, Demo.verify token (Some "secret") 1000 = Ok decoded
                                      /\ Demo.cast (userId decoded) = None)))).
Proof.
  exact (authenticateToken_answers (E := Demo.externals)
           (Demo.request (Some "Bearer jwt.nobody") "" tt) Demo.world Demo.db
           (Http.failure 500 "Authentication error") eq_refl).
Defined.

(** An admin passes both guards. *)
Lemma requireRole_monotone_witness :
  let admin :=
    UserModel.mkUser Demo.newId "Root" "Admin" "root@example.com" None "admin" true None in
  let req := Http.set_user admin (Demo.request None "" tt) in
  AuthMiddleware.requireRole ["admin"; "manager"] req Demo.world Demo.db = Http.Next req
  /\ AuthMiddleware.requireAdminOrManager req Demo.world Demo.db = Http.Next req.
Proof.
  cbv zeta.
  destruct (requireRole_monotone ["admin"] ["admin"; "manager"]
              (Http.set_user
                 (UserModel.mkUser Demo.newId "Root" "Admin" "root@example.com" None
                    "admin" true None)
                 (Demo.request None "" tt))
              (Http.set_user
                 (UserModel.mkUser Demo.newId "Root" "Admin" "root@example.com" None
                    "admin" true None)
                 (Demo.request None "" tt))
              Demo.world Demo.db
              (fun r H => or_introl (match H with or_introl e => e | or_intror f => match f with end end))
              eq_refl) as [Hlarger Hboth].
  split; [exact Hlarger | exact (Hboth eq_refl)].
Defined.

(** ** Register and login: what they write and what they send *)

Section MoreCollectionFacts.
Variable D : Type.
Variable id_of : D -> ObjectId.

Lemma findById_persist_other (d : D) (c : list D) (id : ObjectId) :
  id <> id_of d -> findById id_of id (persist id_of d c) = findById id_of id c.
Proof.
  intros Hne. unfold findById.
  induction c as [|x rest IH]; simpl.
  - destruct (String.eqb_spec (id_of d) id) as [Heq|_]; [now destruct Hne | reflexivity].
  - destruct (String.eqb_spec (id_of x) (id_of d)) as [Hx|Hx]; simpl.
    + destruct (String.eqb_spec (id_of d) id) as [Heq|_]; [now destruct Hne|].
      destruct (String.eqb_spec (id_of x) id) as [Heq|_]; [|reflexivity].
      destruct Hne. now rewrite <- Heq, Hx.
    + destruct (String.eqb (id_of x) id); [reflexivity | exact IH].
Qed.

Lemma findById_app_old (c : list D) (x u : D) (id : ObjectId) :
  findById id_of id c = Some u -> findById id_of id (c ++ [x]) = Some u.
Proof.
  unfold findById. induction c as [|y rest IH]; simpl; [discriminate|].
  destruct (String.eqb (id_of y) id); [trivial | exact IH].
Qed.

Lemma findById_remove_other (c : list D) (id other : ObjectId) :
  other <> id -> findById id_of other (remove id_of id c) = findById id_of other c.
Proof.
  intros Hne. unfold findById.
  induction c as [|x rest IH]; simpl; [reflexivity|].
  destruct (String.eqb_spec (id_of x) id) as [Hx|Hx]; simpl.
  - destruct (String.eqb_spec (id_of x) other) as [Ho|_]; [|reflexivity].
    destruct Hne. now rewrite <- Ho, Hx.
  - destruct (String.eqb (id_of x) other); [reflexivity | exact IH].
Qed.

Lemma findById_In (c : list D) (id : ObjectId) (u : D) :
  findById id_of id c = Some u -> In u c /\ id_of u = id.
Proof.
  unfold findById. intros H. apply find_some in H.
  destruct H as [Hin Heq]. apply String.eqb_eq in Heq. now split.
Qed.

Lemma findById_None_In (c : list D) (id : ObjectId) (x : D) :
  findById id_of id c = None -> In x c -> id_of x <> id.
Proof.
  unfold findById. intros Hnone Hin Heq.
  pose proof (find_none _ _ Hnone x Hin) as H. simpl in H.
  rewrite Heq, String.eqb_refl in H. discriminate.
Qed.

Lemma findById_remove_gone (c : list D) (id : ObjectId) :
  NoDup (map id_of c) -> findById id_of id (remove id_of id c) = None.
Proof.
  unfold findById. induction c as [|x rest IH]; simpl; intros Hnd; [reflexivity|].
  inversion Hnd as [|? ? Hnotin Hrest]; subst.
  destruct (String.eqb_spec (id_of x) id) as [Hx|Hx]; simpl.
  - destruct (find (fun d => String.eqb (id_of d) id) rest) as [y|] eqn:Hfind;
      [|reflexivity].
    apply find_some in Hfind. destruct Hfind as [Hin Heq].
    apply String.eqb_eq in Heq. destruct Hnotin.
    rewrite Hx, <- Heq. now apply in_map.
  - destruct (String.eqb_spec (id_of x) id) as [Hx'|_]; [contradiction|].
    now apply IH.
Qed.
End MoreCollectionFacts.

Lemma NoDup_snoc {A : Type} (l : list A) (x : A) :
  NoDup l -> ~ In x l -> NoDup (l ++ [x]).
Proof.
  induction l as [|y rest IH]; simpl; intros Hnd Hnotin.
  - constructor; [intros [] | constructor].
  - inversion Hnd as [|? ? Hy Hrest]; subst. constructor.
    + rewrite in_app_iff. intros [Hin | [Heq | []]]; [contradiction|].
      apply Hnotin. now left.
    + apply IH; [assumption|]. intros Hin. apply Hnotin. now right.
Qed.

Lemma set_users_same (db : Db) : set_users (users db) db = db.
Proof. now destruct db. Qed.

Section MoreUserFacts.
Context {E : Externals}.
Import UserModel.

(** A [save] that rejects writes nothing. *)
Lemma save_throw_collection (saltv : Z) (d : Document) (c : list User) (e : JsError) :
  outcome (save saltv d c) = Throw e -> collection (save saltv d c) = c.
Proof.
  unfold save. destruct (validate (fields d)); [|reflexivity].
  cbv zeta.
  destruct (isNew (preSave saltv d)).
  - destruct (findById _id (_id (fields (preSave saltv d))) c); [reflexivity|].
    destruct (emailTaken (fields (preSave saltv d)) c); [reflexivity | discriminate].
  - destruct (isModified "email" (preSave saltv d) && emailTaken (fields (preSave saltv d)) c)%bool;
      [reflexivity|].
    destruct (findById _id (_id (fields (preSave saltv d))) c); [discriminate | reflexivity].
Qed.

(** A new document that [save] accepts has an address no stored
    document has. *)
Lemma save_new_email_free (saltv : Z) (oid : ObjectId) (first last mail pw rl : string)
  (c : list User) :
  outcome (save saltv (newUser oid first last mail pw rl) c) = Ok tt ->
  ~ In (JS.trim (JS.toLowerCase mail)) (map email c).
Proof.
  unfold save.
  destruct (validate (fields (newUser oid first last mail pw rl))); [|simpl; discriminate].
  unfold preSave. simpl.
  destruct (findById _id oid c) eqn:Hfind; simpl; [discriminate|].
  match goal with |- context [emailTaken ?u c] => destruct (emailTaken u c) eqn:Htaken end;
    simpl; [discriminate|].
  intros _ Hin. apply in_map_iff in Hin. destruct Hin as [x [Hmail Hx]].
  unfold emailTaken in Htaken.
  assert (Hfalse : (String.eqb (email x) (JS.trim (JS.toLowerCase mail))
                    && negb (String.eqb (_id x) oid))%bool = false).
  { destruct (existsb_exists
                (fun x0 => (String.eqb (email x0) (JS.trim (JS.toLowerCase mail))
                            && negb (String.eqb (_id x0) oid))%bool) c) as [_ Hex].
    simpl in Htaken.
    destruct (String.eqb (email x) (JS.trim (JS.toLowerCase mail))
              && negb (String.eqb (_id x) oid))%bool eqn:Hb; [|reflexivity].
    rewrite Hex in Htaken; [discriminate | now exists x]. }
  rewrite Hmail, String.eqb_refl in Hfalse. simpl in Hfalse.
  apply negb_false_iff in Hfalse. apply String.eqb_eq in Hfalse.
  exact (findById_None_In User _id c oid x Hfind Hx Hfalse).
Qed.
End MoreUserFacts.

Section MoreAuthRouteFacts.
Context {E : Externals}.
Import AuthRoutes.

(** No response of [/register] or [/login] carries a password: the user
    in [data] has the field removed. *)
Theorem auth_responses_hide_password :
  (forall (req : Http.Request RegisterBody) w db db' res u token,
      register req w db = (db', Ok res) ->
      Http.data res = Some (Http.UserAndToken u token) ->
      UserModel.password u = None)
  /\ (forall (req : Http.Request LoginBody) w db db' res u token,
         login req w db = (db', Ok res) ->
         Http.data res = Some (Http.UserAndToken u token) ->
         UserModel.password u = None).
Proof.
  split.
  - intros req w db db' res u token Hreg Hdata.
    unfold register, ErrorMiddleware.asyncHandler in Hreg.
    destruct (registerErrors (Http.body req));
      [|injection Hreg as _ <-; discriminate].
    cbv zeta in Hreg.
    destruct (UserModel.findByEmail false _ (users db));
      [injection Hreg as _ <-; discriminate|].
    destruct (outcome (UserModel.save _ _ (users db))); [|discriminate].
    destruct (generateToken _ (now w)); [|discriminate].
    match type of Hreg with
    | match outcome ?s with _ => _ end = _ => destruct (outcome s); [|discriminate]
    end.
    injection Hreg as _ <-. simpl in Hdata. injection Hdata as <- _. reflexivity.
  - intros req w db db' res u token Hlog Hdata.
    unfold login, ErrorMiddleware.asyncHandler in Hlog.
    destruct (loginErrors (Http.body req));
      [|injection Hlog as _ <-; discriminate].
    cbv zeta in Hlog.
    destruct (UserModel.findByEmail true _ (users db)) as [d|];
      [|injection Hlog as _ <-; discriminate].
    destruct (UserModel.isActive (UserModel.fields d)); simpl in Hlog;
      [|injection Hlog as _ <-; discriminate].
    destruct (UserModel.comparePassword _ (UserModel.fields d)) as [[]|];
      simpl in Hlog; [| injection Hlog as _ <-; discriminate | discriminate].
    destruct (generateToken _ (now w)); [|discriminate].
    match type of Hlog with
    | match outcome ?s with _ => _ end = _ => destruct (outcome s); [|discriminate]
    end.
    injection Hlog as _ <-. simpl in Hdata. injection Hdata as <- _. reflexivity.
Qed.

(** A login that is not answered 200, or that fails with an exception,
    leaves the database as it was. *)
Theorem login_failure_keeps_db (req : Http.Request LoginBody) (w : World) (db : Db) :
  (forall res, snd (login req w db) = Ok res -> Http.status res <> 200 ->
               fst (login req w db) = db)
  /\ (forall e, snd (login req w db) = Throw e -> fst (login req w db) = db).
Proof.
  unfold login, ErrorMiddleware.asyncHandler.
  destruct (loginErrors (Http.body req)); [|split; intros; reflexivity].
  cbv zeta.
  destruct (UserModel.findByEmail true _ (users db)) as [d|];
    [|split; intros; reflexivity].
  destruct (UserModel.isActive (UserModel.fields d)); simpl;
    [|split; intros; reflexivity].
  destruct (UserModel.comparePassword _ (UserModel.fields d)) as [[]|]; simpl;
    try (split; intros; reflexivity).
  destruct (generateToken _ (now w)); [|split; intros; reflexivity].
  match goal with
  | |- context [outcome ?s] => destruct (outcome s) as [[]|e0] eqn:Hout
  end.
  - split.
    + intros res Hres Hstatus. simpl in Hres. injection Hres as <-.
      now destruct Hstatus.
    + intros e He. discriminate.
  - rewrite (save_throw_collection _ _ _ _ Hout). simpl.
    split; intros; apply set_users_same.
Qed.

(** A login answered 200 was for a stored, active user whose stored hash
    [bcrypt.compare] accepted for the submitted password; it writes that
    user back with [lastLogin] set to the time of the request, the stored
    password included as it was, and touches no other user, no task and no
    product. *)
Theorem login_success_effect
  (req : Http.Request LoginBody) (w : World) (db db' : Db) (res : Http.Response) :
  login req w db = (db', Ok res) ->
  Http.status res = 200 ->
  exists u hash,
    UserModel.findByEmail true (normalizeEmail (l_email (Http.body req))) (users db)
    = Some (UserModel.loaded u)
    /\ UserModel.isActive u = true
    /\ UserModel.password u = Some hash
    /\ bcrypt_compare (l_password (Http.body req)) hash = true
    /\ findById UserModel._id (UserModel._id u) (users db')
       = Some (UserModel.set_lastLogin (Some (now w)) u)
    /\ (forall id, id <> UserModel._id u ->
                   findById UserModel._id id (users db')
                   = findById UserModel._id id (users db))
    /\ tasks db' = tasks db /\ products db' = products db.
Proof.
  intros Hlog Hstatus.
  unfold login, ErrorMiddleware.asyncHandler in Hlog.
  destruct (loginErrors (Http.body req));
    [|injection Hlog as _ <-; discriminate].
  cbv zeta in Hlog.
  destruct (UserModel.findByEmail true (normalizeEmail (l_email (Http.body req)))
              (users db)) as [d|] eqn:Hfound;
    [|injection Hlog as _ <-; discriminate].
  assert (Hd : exists u, d = UserModel.loaded u).
  { unfold UserModel.findByEmail in Hfound.
    destruct (find _ (users db)) as [u|]; [|discriminate].
    injection Hfound as <-. now exists u. }
  destruct Hd as [u ->].
  change (UserModel.fields (UserModel.loaded u)) with u in Hlog.
  destruct (UserModel.isActive u) eqn:Hactive; simpl in Hlog;
    [|injection Hlog as _ <-; discriminate].
  unfold UserModel.comparePassword in Hlog.
  destruct (UserModel.password u) as [hash|] eqn:Hpw; [|discriminate].
  destruct (bcrypt_compare (l_password (Http.body req)) hash) eqn:Hcmp;
    simpl in Hlog; [|injection Hlog as _ <-; discriminate].
  destruct (generateToken _ (now w)); [|discriminate].
  set (d1 := UserModel.assign "lastLogin" (UserModel.set_lastLogin (Some (now w)))
               (UserModel.loaded u)) in *.
  pose proof (save_stored (salt w) d1 (users db) hash eq_refl eq_refl eq_refl Hpw)
    as Hinv.
  destruct (outcome (UserModel.save (salt w) d1 (users db))) as [[]|e];
    [|discriminate].
  destruct (Hinv eq_refl) as [_ [_ Hcoll]]. rewrite Hcoll in Hlog.
  injection Hlog as <- _.
  exists u, hash.
  split; [reflexivity|]. split; [exact Hactive|]. split; [exact Hpw|].
  split; [exact Hcmp|].
  split.
  { simpl. change (UserModel._id u) with (UserModel._id (UserModel.fields d1)).
    apply findById_persist. }
  split; [|split; reflexivity].
  intros id Hne. simpl. now apply findById_persist_other.
Qed.

(** Whatever [/register] answers, every user stored before is stored
    unchanged afterwards, tasks and products are untouched, and if the
    stored addresses were pairwise distinct they still are. *)
Theorem register_keeps_existing_users
  (req : Http.Request RegisterBody) (w : World) (db : Db) :
  let db' := fst (register req w db) in
  (forall id u, findById UserModel._id id (users db) = Some u ->
                findById UserModel._id id (users db') = Some u)
  /\ (NoDup (map UserModel.email (users db)) ->
      NoDup (map UserModel.email (users db')))
  /\ tasks db' = tasks db /\ products db' = products db.
Proof.
  cbv zeta. unfold register, ErrorMiddleware.asyncHandler.
  destruct (registerErrors (Http.body req)); [|simpl; auto].
  cbv zeta.
  cbn [registerSanitized r_firstName r_lastName r_email r_password r_role].
  destruct (UserModel.findByEmail false _ (users db)); [simpl; auto|].
  match goal with
  | |- context [UserModel.save (salt w) ?d (users db)] => set (d0 := d)
  end.
  pose proof (save_new_inv (salt w) (freshId w)
                (JS.trim (r_firstName (Http.body req)))
                (JS.trim (r_lastName (Http.body req)))
                (normalizeEmail (r_email (Http.body req)))
                (r_password (Http.body req))
                match r_role (Http.body req) with Some r => r | None => "user" end
                (users db)) as Hinv.
  pose proof (save_new_email_free (salt w) (freshId w)
                (JS.trim (r_firstName (Http.body req)))
                (JS.trim (r_lastName (Http.body req)))
                (normalizeEmail (r_email (Http.body req)))
                (r_password (Http.body req))
                match r_role (Http.body req) with Some r => r | None => "user" end
                (users db)) as Hfree.
  cbv zeta in Hinv. fold d0 in Hinv, Hfree.
  destruct (outcome (UserModel.save (salt w) d0 (users db))) as [[]|e] eqn:Hout1.
  - destruct (Hinv eq_refl) as [_ [Hfresh [Hthis1 Hcoll1]]].
    specialize (Hfree eq_refl).
    rewrite Hthis1, Hcoll1.
    set (hashed := bcrypt_hash (r_password (Http.body req)) 12 (salt w)) in *.
    set (u1 := UserModel.set_password (Some hashed) (UserModel.fields d0)) in *.
    set (d1 := UserModel.assign "lastLogin" (UserModel.set_lastLogin (Some (now w)))
                 (UserModel.loaded u1)).
    assert (Hnd : forall x, UserModel.email x = UserModel.email u1 ->
                   NoDup (map UserModel.email (users db)) ->
                   NoDup (map UserModel.email (users db ++ [x]))).
    { intros x Hx Hnd. rewrite map_app. simpl. apply NoDup_snoc; [exact Hnd|].
      rewrite Hx. exact Hfree. }
    pose proof (save_stored (salt w) d1 (users db ++ [u1]) hashed
                  eq_refl eq_refl eq_refl eq_refl) as Hinv2.
    destruct (generateToken _ (now w)) as [token|e0].
    2:{ simpl. split; [|split; [|split; reflexivity]].
        - intros id u Hu. now apply findById_app_old.
        - now apply Hnd. }
    destruct (outcome (UserModel.save (salt w) d1 (users db ++ [u1]))) as [[]|e] eqn:Hout2.
    + destruct (Hinv2 eq_refl) as [_ [_ Hcoll2]]. rewrite Hcoll2.
      rewrite (persist_last UserModel.User UserModel._id u1 (UserModel.fields d1)
                 (users db) Hfresh eq_refl).
      simpl. split; [|split; [|split; reflexivity]].
      * intros id u Hu. now apply findById_app_old.
      * now apply Hnd.
    + rewrite (save_throw_collection _ _ _ _ Hout2).
      simpl. split; [|split; [|split; reflexivity]].
      * intros id u Hu. now apply findById_app_old.
      * now apply Hnd.
  - rewrite (save_throw_collection _ _ _ _ Hout1). simpl. auto.
Qed.
End MoreAuthRouteFacts.

(** A login of the demo database's active user. *)
Lemma login_success_effect_witness :
  exists u hash,
    UserModel.findByEmail true (JS.toLowerCase "Ada@Example.com") (users Demo.db)
    = Some (UserModel.loaded u)
    /\ UserModel.isActive u = true
    /\ UserModel.password u = Some hash
    /\ Demo.compare "analytical" hash = true
    /\ findById UserModel._id (UserModel._id u)
         (users (fst (AuthRoutes.login (E := Demo.externals)
                        (Demo.request None ""
                           (AuthRoutes.mkLoginBody "Ada@Example.com" "analytical"))
                        Demo.world Demo.db)))
       = Some (UserModel.set_lastLogin (Some 1000) u)
    /\ (forall id, id <> UserModel._id u ->
                   findById UserModel._id id
                     (users (fst (AuthRoutes.login (E := Demo.externals)
                                    (Demo.request None ""
                                       (AuthRoutes.mkLoginBody "Ada@Example.com"
                                          "analytical"))
                                    Demo.world Demo.db)))
                   = findById UserModel._id id (users Demo.db))
    /\ tasks (fst (AuthRoutes.login (E := Demo.externals)
                     (Demo.request None ""
                        (AuthRoutes.mkLoginBody "Ada@Example.com" "analytical"))
                     Demo.world Demo.db))
       = tasks Demo.db
    /\ products (fst (AuthRoutes.login (E := Demo.externals)
                        (Demo.request None ""
                           (AuthRoutes.mkLoginBody "Ada@Example.com" "analytical"))
                        Demo.world Demo.db))
       = products Demo.db.
Proof.
  exact (login_success_effect (E := Demo.externals)
           (Demo.request None "" (AuthRoutes.mkLoginBody "Ada@Example.com" "analytical"))
           Demo.world Demo.db
           (fst (AuthRoutes.login (E := Demo.externals)
                   (Demo.request None ""
                      (AuthRoutes.mkLoginBody "Ada@Example.com" "analytical"))
                   Demo.world Demo.db))
           (Http.mkResponse 200 true (Some "Login successful") None
              (Some (Http.UserAndToken
                       (UserModel.mkUser Demo.adaId "Ada" "Lovelace" "ada@example.com"
                          None "user" true (Some 1000))
                       ("jwt." ++ Demo.adaId)%string))
              None)
           eq_refl eq_refl).
Defined.

(** ** Password reset and password change *)

Section PasswordFacts.
Context {E : Externals}.
Import UserModel.

(** A stored document whose password was assigned is written back with
    the hash of the assigned password. *)
Lemma save_new_password (saltv : Z) (d : Document) (c : list User) (pw : string) :
  isNew d = false ->
  isModified "password" d = true ->
  isModified "email" d = false ->
  password (fields d) = Some pw ->
  let u := set_password (Some (bcrypt_hash pw 12 saltv)) (fields d) in
  (outcome (save saltv d c) = Ok tt ->
   validate (fields d) = []
   /\ (exists old, findById _id (_id (fields d)) c = Some old)
   /\ save saltv d c = mkRun (loaded u) (persist _id u c) (Ok tt))
  /\ (validate (fields d) = [] ->
      (exists old, findById _id (_id (fields d)) c = Some old) ->
      save saltv d c = mkRun (loaded u) (persist _id u c) (Ok tt)).
Proof.
  intros Hnew Hpw Hmail Hsome. cbv zeta.
  assert (Hpre : preSave saltv d
                 = mkDocument (set_password (Some (bcrypt_hash pw 12 saltv)) (fields d))
                     (isNew d) (modifiedPaths d)).
  { unfold preSave. now rewrite Hpw, Hsome. }
  assert (Hmail' : isModified "email" (preSave saltv d) = false).
  { rewrite Hpre. exact Hmail. }
  assert (Hgo : validate (fields d) = [] ->
                forall old, findById _id (_id (fields d)) c = Some old ->
                save saltv d c
                = mkRun (loaded (set_password (Some (bcrypt_hash pw 12 saltv)) (fields d)))
                    (persist _id (set_password (Some (bcrypt_hash pw 12 saltv)) (fields d)) c)
                    (Ok tt)).
  { intros Hv old Hfind. unfold save. rewrite Hv. cbv zeta.
    rewrite Hmail'. rewrite Hpre. cbn [fields isNew]. rewrite Hnew. cbn [andb].
    change (_id (set_password (Some (bcrypt_hash pw 12 saltv)) (fields d)))
      with (_id (fields d)).
    rewrite Hfind. reflexivity. }
  split.
  - intros Hok.
    destruct (validate (fields d)) as [|f fs] eqn:Hv.
    + destruct (findById _id (_id (fields d)) c) as [old|] eqn:Hfind.
      * split; [reflexivity|]. split; [now exists old|]. now apply (Hgo eq_refl old).
      * exfalso. unfold save in Hok. rewrite Hv in Hok. cbv zeta in Hok.
        rewrite Hmail' in Hok. rewrite Hpre in Hok. cbn [fields isNew] in Hok.
        rewrite Hnew in Hok. cbn [andb] in Hok.
        change (_id (set_password (Some (bcrypt_hash pw 12 saltv)) (fields d)))
          with (_id (fields d)) in Hok.
        rewrite Hfind in Hok. discriminate.
    + exfalso. unfold save in Hok. rewrite Hv in Hok. discriminate.
  - intros Hv [old Hfind]. now apply (Hgo Hv old).
Qed.

(** Writing back the user found under an address keeps it the user found
    under that address. *)
Lemma find_email_persist (m : string) (c : list User) (u u' : User) :
  find (fun x => String.eqb (email x) m) c = Some u ->
  findById _id (_id u) c = Some u ->
  email u' = email u -> _id u' = _id u ->
  find (fun x => String.eqb (email x) m) (persist _id u' c) = Some u'.
Proof.
  intros Hmail Hid Hsame_mail Hsame_id. unfold findById in Hid.
  assert (Hm : String.eqb (email u') m = true).
  { rewrite Hsame_mail. apply find_some in Hmail. now destruct Hmail. }
  induction c as [|x rest IH]; simpl in *; [discriminate|].
  rewrite Hsame_id.
  destruct (String.eqb (_id x) (_id u)) eqn:Hx; simpl.
  - now rewrite Hm.
  - destruct (String.eqb (email x) m) eqn:Hxm.
    + injection Hmail as ->. rewrite String.eqb_refl in Hx. discriminate.
    + now apply IH.
Qed.
End PasswordFacts.

Section ResetFacts.
Context {E : Externals}.
Import ResetRoutes.

(** [/forgot-password] never writes.  An address that fails [isEmail] is
    answered 400, "Validation failed", with the one validation message.
    A valid address that no user has is answered 200, [success] true,
    with the message "If an account with that email exists, a password
    reset link has been sent" and no [data].  A valid address of a stored
    user is answered 200, [success] true, with the other message,
    "Password reset link sent to your email", and in [data] a token
    signed for one hour over the user's id with the "password-reset"
    marker; if [jwt.sign] throws (the secret is unset) the handler fails
    with that error instead. *)
Theorem forgotPassword_reads_only
  (req : Http.Request ForgotBody) (w : World) (db : Db) :
  let found :=
    UserModel.findByEmail false (normalizeEmail (f_email (Http.body req))) (users db) in
  fst (forgotPassword req w db) = db
  /\ (isEmail (f_email (Http.body req)) = false ->
      snd (forgotPassword req w db)
      = Ok (mkEnvelope 400 false (Some "Validation failed")
              (Some ["Please provide a valid email"]) None))
  /\ (isEmail (f_email (Http.body req)) = true -> found = None ->
      snd (forgotPassword req w db)
      = Ok (mkEnvelope 200 true
              (Some "If an account with that email exists, a password reset link has been sent")
              None None))
  /\ (forall d, isEmail (f_email (Http.body req)) = true -> found = Some d ->
      snd (forgotPassword req w db)
      = match jwt_sign_error JWT_SECRET "1h" with
        | Some e => Throw e
        | None =>
            Ok (mkEnvelope 200 true (Some "Password reset link sent to your email")
                  None
                  (Some (jwt_sign (resetPayload (UserModel._id (UserModel.fields d)))
                           JWT_SECRET "1h" (now w))))
        end).
Proof.
  cbv zeta. unfold forgotPassword.
  destruct (isEmail (f_email (Http.body req))); cbv zeta.
  - destruct (UserModel.findByEmail false _ (users db)) as [d|].
    + destruct (jwt_sign_error JWT_SECRET "1h") as [e|]; simpl.
      * split; [reflexivity|]. split; [discriminate|]. split; [discriminate|].
        intros d' _ Hd. injection Hd as <-. reflexivity.
      * split; [reflexivity|]. split; [discriminate|]. split; [discriminate|].
        intros d' _ Hd. injection Hd as <-. reflexivity.
    + simpl. split; [reflexivity|]. split; [discriminate|].
      split; [reflexivity|]. discriminate.
  - simpl. split; [reflexivity|]. split; [reflexivity|].
    split; discriminate.
Qed.

(** [/reset-password] never fails with an exception: it answers 200 or
    400, and whenever the answer is not 200 the database is as it was. *)
Theorem resetPassword_answers (req : Http.Request ResetBody) (w : World) (db : Db) :
  exists res,
    snd (resetPassword req w db) = Ok res
    /\ (Http.status res = 200 \/ Http.status res = 400)
    /\ (Http.status res <> 200 -> fst (resetPassword req w db) = db).
Proof.
  unfold resetPassword, ErrorMiddleware.asyncHandler.
  destruct (resetErrors (Http.body req));
    [|eexists; split; [reflexivity|]; split; [now right | reflexivity]].
  cbv zeta.
  destruct (jwt_verify _ JWT_SECRET (now w)) as [decoded|e];
    [|eexists; split; [reflexivity|]; split; [now right | reflexivity]].
  destruct (negb _);
    [eexists; split; [reflexivity|]; split; [now right | reflexivity]|].
  destruct (UserModel.findByIdCast (userId decoded) (users db)) as [[u|]|e];
    try (eexists; split; [reflexivity|]; split; [now right | reflexivity]).
  match goal with
  | |- context [outcome ?s] => destruct (outcome s) as [[]|e] eqn:Hout
  end.
  - eexists. split; [reflexivity|]. split; [now left|].
    intros H. now destruct H.
  - rewrite (save_throw_collection _ _ _ _ Hout).
    eexists. split; [reflexivity|]. split; [now right|].
    intros _. apply set_users_same.
Qed.

(** A reset answered 200 was made with a token that verified, carried
    the "password-reset" marker and named a stored user; it stores that
    user with the bcrypt hash of the new password and every other field
    as it was, and touches no other user. *)
Theorem resetPassword_sound
  (req : Http.Request ResetBody) (w : World) (db db' : Db) (res : Http.Response) :
  resetPassword req w db = (db', Ok res) ->
  Http.status res = 200 ->
  exists decoded u,
    jwt_verify (rs_token (Http.body req)) JWT_SECRET (now w) = Ok decoded
    /\ type decoded = Some "password-reset"
    /\ UserModel.findByIdCast (userId decoded) (users db)
       = Ok (Some (UserModel.withoutPassword u))
    /\ (6 <=? Z.of_nat (String.length (rs_password (Http.body req)))) = true
    /\ findById UserModel._id (UserModel._id u) (users db')
       = Some (UserModel.set_password
                 (Some (bcrypt_hash (rs_password (Http.body req)) 12 (salt w))) u)
    /\ forall id, id <> UserModel._id u ->
                  findById UserModel._id id (users db')
                  = findById UserModel._id id (users db).
Proof.
  intros Hreset Hstatus.
  unfold resetPassword, ErrorMiddleware.asyncHandler in Hreset.
  destruct (resetErrors (Http.body req)) eqn:Herrs;
    [|injection Hreset as _ <-; discriminate].
  assert (Hlen : (6 <=? Z.of_nat (String.length (rs_password (Http.body req)))) = true).
  { unfold resetErrors in Herrs. apply app_eq_nil in Herrs. destruct Herrs as [_ H].
    destruct (6 <=? _); [reflexivity | discriminate]. }
  cbv zeta in Hreset.
  destruct (jwt_verify (rs_token (Http.body req)) JWT_SECRET (now w))
    as [decoded|e] eqn:Hverify;
    [|injection Hreset as _ <-; discriminate].
  destruct (type decoded) as [t|] eqn:Htype;
    [|injection Hreset as _ <-; discriminate].
  destruct (String.eqb_spec t "password-reset") as [->|_]; simpl in Hreset;
    [|injection Hreset as _ <-; discriminate].
  destruct (UserModel.findByIdCast (userId decoded) (users db)) as [[v|]|e] eqn:Hfind;
    try (injection Hreset as _ <-; discriminate).
  assert (Hv : exists u, v = UserModel.withoutPassword u
                         /\ findById UserModel._id (UserModel._id u) (users db) = Some u).
  { unfold UserModel.findByIdCast in Hfind.
    destruct (castObjectId (userId decoded)) as [oid|]; [|discriminate].
    destruct (findById UserModel._id oid (users db)) as [u|] eqn:Hu; [|discriminate].
    injection Hfind as <-. exists u. split; [reflexivity|].
    destruct (findById_In _ _ _ _ _ Hu) as [_ ->]. exact Hu. }
  destruct Hv as [u [-> Hstored]].
  set (d := UserModel.assign "password"
              (UserModel.set_password (Some (rs_password (Http.body req))))
              (UserModel.loaded (UserModel.withoutPassword u))) in *.
  destruct (save_new_password (salt w) d (users db) (rs_password (Http.body req))
              eq_refl eq_refl eq_refl eq_refl) as [Hinv _].
  destruct (outcome (UserModel.save (salt w) d (users db))) as [[]|e];
    [|injection Hreset as _ <-; discriminate].
  destruct (Hinv eq_refl) as [_ [_ Hsave]]. rewrite Hsave in Hreset.
  injection Hreset as <- _.
  exists decoded, u.
  split; [reflexivity|]. split; [exact Htype|]. split; [exact Hfind|].
  split; [exact Hlen|]. simpl. split.
  - change (UserModel._id u)
      with (UserModel._id
              (UserModel.set_password
                 (Some (bcrypt_hash (rs_password (Http.body req)) 12 (salt w)))
                 (UserModel.fields d))).
    apply findById_persist.
  - intros id Hne. now apply findById_persist_other.
Qed.
End ResetFacts.

Section PasswordRoundTrips.
Context {E : Externals}.
Import AuthRoutes.

(** What the two round trips below need of bcryptjs: a hash verifies
    against the password it was made from. *)
Hypothesis compare_hash :
  forall pw s, bcrypt_compare pw (bcrypt_hash pw 12 s) = true.

(** Once a stored, active user's password is replaced by the hash of
    [pw], a login with the user's address and [pw] is answered 200. *)
Lemma login_after_new_hash
  (db : Db) (u : UserModel.User) (mail pw : string) (saltv : Z)
  (lreq : Http.Request LoginBody) (w : World) (session : string) :
  let u' := UserModel.set_password (Some (bcrypt_hash pw 12 saltv)) u in
  generateToken (UserModel._id u) (now w) = Ok session ->
  isEmail mail = true ->
  JS.truthy pw = true ->
  find (fun x => String.eqb (UserModel.email x) (JS.toLowerCase (normalizeEmail mail)))
    (users db) = Some u ->
  findById UserModel._id (UserModel._id u) (users db) = Some u ->
  UserModel.isActive u = true ->
  UserModel.validate u' = [] ->
  Http.body lreq = mkLoginBody mail pw ->
  exists db'' res',
    login lreq w (set_users (persist UserModel._id u' (users db)) db) = (db'', Ok res')
    /\ Http.status res' = 200 /\ Http.success res' = true.
Proof.
  cbv zeta. intros Hsession Hmail Htruthy Hfound Hstored Hactive Hvalid Hbody.
  set (u' := UserModel.set_password (Some (bcrypt_hash pw 12 saltv)) u) in *.
  apply (login_accepts lreq w _ (UserModel.loaded u') session).
  - exact Hsession.
  - rewrite Hbody. now apply loginErrors_nil.
  - rewrite Hbody, users_set_users. unfold UserModel.findByEmail. cbn [l_email].
    now rewrite (find_email_persist _ _ u u' Hfound Hstored eq_refl eq_refl).
  - exact Hactive.
  - rewrite Hbody.
    change (Ok (bcrypt_compare pw (bcrypt_hash pw 12 saltv)) = Ok true).
    now rewrite compare_hash.
  - rewrite users_set_users.
    rewrite (save_stored_ok (salt w)
               (UserModel.assign "lastLogin" (UserModel.set_lastLogin (Some (now w)))
                  (UserModel.loaded u'))
               (persist UserModel._id u' (users db)) (bcrypt_hash pw 12 saltv) u'
               eq_refl eq_refl eq_refl eq_refl).
    + reflexivity.
    + exact Hvalid.
    + apply (findById_persist UserModel.User UserModel._id u').
Qed.

(** The reset round trip.  Take a stored, active user, found by a valid
    address and by an id that casts to itself, and a configuration under
    which [jwt.sign] throws neither for the reset token nor for the
    session token.  Then [/forgot-password] hands out a reset token for
    the address.  If that token is not empty and verifies, at the time of
    the reset, to the payload it was signed over, and the new password
    has six characters or more and passes the schema on that user, as its
    bcrypt hash does, then [/reset-password] with the token and the new
    password is answered 200 and stores the hash; after that a login with
    the address and the new password is answered 200. *)
Theorem reset_round_trip
  (db : Db) (u : UserModel.User) (mail pw session : string) (w1 w2 w3 : World)
  (freq : Http.Request ResetRoutes.ForgotBody)
  (rreq : Http.Request ResetRoutes.ResetBody)
  (lreq : Http.Request LoginBody) :
  let token :=
    jwt_sign (ResetRoutes.resetPayload (UserModel._id u)) JWT_SECRET "1h" (now w1) in
  let hashed := bcrypt_hash pw 12 (salt w2) in
  jwt_sign_error JWT_SECRET "1h" = None ->
  generateToken (UserModel._id u) (now w3) = Ok session ->
  isEmail mail = true ->
  find (fun x => String.eqb (UserModel.email x) (JS.toLowerCase (normalizeEmail mail)))
    (users db) = Some u ->
  findById UserModel._id (UserModel._id u) (users db) = Some u ->
  UserModel.isActive u = true ->
  castObjectId (UserModel._id u) = Some (UserModel._id u) ->
  JS.truthy token = true ->
  jwt_verify token JWT_SECRET (now w2) = Ok (ResetRoutes.resetPayload (UserModel._id u)) ->
  (6 <=? Z.of_nat (String.length pw)) = true ->
  UserModel.validate (UserModel.set_password (Some pw) u) = [] ->
  UserModel.validate (UserModel.set_password (Some hashed) u) = [] ->
  Http.body freq = ResetRoutes.mkForgotBody mail ->
  Http.body rreq = ResetRoutes.mkResetBody token pw ->
  Http.body lreq = mkLoginBody mail pw ->
  ResetRoutes.forgotPassword freq w1 db
  = (db, Ok (mkEnvelope 200 true (Some "Password reset link sent to your email")
               None (Some token)))
  /\ exists db2,
      ResetRoutes.resetPassword rreq w2 db
      = (db2, Ok (Http.mkResponse 200 true (Some "Password reset successful")
                    None None None))
      /\ findById UserModel._id (UserModel._id u) (users db2)
         = Some (UserModel.set_password (Some hashed) u)
      /\ exists db3 res3,
          login lreq w3 db2 = (db3, Ok res3)
          /\ Http.status res3 = 200 /\ Http.success res3 = true.
Proof.
  cbv zeta.
  intros Hsign Hsession Hmail Hfound Hstored Hactive Hcast Htruthy Hverify Hlen Hv1 Hv2
    Hfbody Hrbody Hlbody.
  split.
  - unfold ResetRoutes.forgotPassword. rewrite Hfbody. cbn [ResetRoutes.f_email].
    rewrite Hmail. cbv zeta. unfold UserModel.findByEmail. rewrite Hfound.
    cbn [option_map]. rewrite Hsign. reflexivity.
  - set (u' := UserModel.set_password (Some (bcrypt_hash pw 12 (salt w2))) u) in *.
    exists (set_users (persist UserModel._id u' (users db)) db).
    split; [|split].
    + unfold ResetRoutes.resetPassword, ErrorMiddleware.asyncHandler.
      rewrite Hrbody. unfold ResetRoutes.resetErrors.
      cbn [ResetRoutes.rs_token ResetRoutes.rs_password].
      rewrite Htruthy, Hlen. cbn [app]. cbv zeta. rewrite Hverify.
      cbn [type ResetRoutes.resetPayload userId String.eqb Ascii.eqb Bool.eqb negb].
      unfold UserModel.findByIdCast. rewrite Hcast, Hstored.
      destruct (save_new_password (salt w2)
                  (UserModel.assign "password" (UserModel.set_password (Some pw))
                     (UserModel.loaded (UserModel.withoutPassword u)))
                  (users db) pw eq_refl eq_refl eq_refl eq_refl) as [_ Hgo].
      rewrite Hgo; [reflexivity | exact Hv1 | now exists u].
    + rewrite users_set_users. apply (findById_persist UserModel.User UserModel._id u').
    + apply (login_after_new_hash db u mail pw (salt w2) lreq w3 session);
        try assumption.
      exact (truthy_of_length _ Hlen).
Qed.
End PasswordRoundTrips.

Section SettingsFacts.
Context {E : Externals}.
Import SettingsRoutes.

Lemma validate_new_password (u : UserModel.User) (pw : string) :
  UserModel.validate u = [] ->
  UserModel.validate (UserModel.set_password (Some pw) u)
  = if negb (JS.truthy pw) then [("password", "Password is required")]
    else if UserModel.nameLength pw <? 6
         then [("password", "Password must be at least 6 characters long")]
         else [].
Proof.
  intros Hv. unfold UserModel.validate in *.
  apply app_eq_nil in Hv. destruct Hv as [Hf Hv].
  apply app_eq_nil in Hv. destruct Hv as [Hl Hv].
  apply app_eq_nil in Hv. destruct Hv as [Hm Hv].
  apply app_eq_nil in Hv. destruct Hv as [_ Hr].
  change (UserModel.firstName (UserModel.set_password (Some pw) u))
    with (UserModel.firstName u).
  change (UserModel.lastName (UserModel.set_password (Some pw) u))
    with (UserModel.lastName u).
  change (UserModel.email (UserModel.set_password (Some pw) u)) with (UserModel.email u).
  change (UserModel.role (UserModel.set_password (Some pw) u)) with (UserModel.role u).
  change (UserModel.password (UserModel.set_password (Some pw) u)) with (Some pw).
  rewrite Hf, Hl, Hm, Hr. cbn [app]. now rewrite app_nil_r.
Qed.

(** The password change writes nothing when it refuses.  A wrong current
    password is answered 400.  The route itself does not check the new
    password: one shorter than six characters is stopped by the schema
    validation of [save], whose ValidationError the error handler answers
    with 400 and the schema's message. *)
Theorem changePassword_refusals
  (req : Http.Request PasswordBody) (w : World) (db : Db)
  (me u : UserModel.User) (hash : string) :
  Http.user req = Some me ->
  findById UserModel._id (UserModel._id me) (users db) = Some u ->
  UserModel.password u = Some hash ->
  (bcrypt_compare (currentPassword (Http.body req)) hash = false ->
   changePassword req w db = (db, Ok (Http.failure 400 "Current password is incorrect")))
  /\ (bcrypt_compare (currentPassword (Http.body req)) hash = true ->
      newPassword (Http.body req) <> hash ->
      UserModel.validate u = [] ->
      UserModel.nameLength (newPassword (Http.body req)) < 6 ->
      exists e,
        changePassword req w db = (db, Throw e)
        /\ name e = "ValidationError"
        /\ ErrorMiddleware.errorHandler e
           = Ok (errorEnvelope e 400
                   (if JS.truthy (newPassword (Http.body req))
                    then "Password must be at least 6 characters long"
                    else "Password is required"))).
Proof.
  intros Huser Hstored Hpw.
  unfold changePassword, ErrorMiddleware.asyncHandler.
  rewrite Huser, Hstored. cbv zeta.
  change (UserModel.fields (UserModel.loaded u)) with u.
  unfold UserModel.comparePassword. rewrite Hpw.
  split.
  - intros ->. reflexivity.
  - intros -> Hnew Hvalid Hshort. cbn [negb].
    unfold assignPassword.
    change (UserModel.fields (UserModel.loaded u)) with u. rewrite Hpw.
    destruct (String.eqb_spec hash (newPassword (Http.body req))) as [Heq|_];
      [now destruct Hnew|].
    unfold UserModel.save.
    change (UserModel.fields
              (UserModel.assign "password"
                 (UserModel.set_password (Some (newPassword (Http.body req))))
                 (UserModel.loaded u)))
      with (UserModel.set_password (Some (newPassword (Http.body req))) u).
    rewrite (validate_new_password u _ Hvalid).
    destruct (JS.truthy (newPassword (Http.body req))); cbn [negb].
    + destruct (Z.ltb_spec (UserModel.nameLength (newPassword (Http.body req))) 6)
        as [_|Hlong]; [|lia].
      cbn [outcome collection]. rewrite set_users_same.
      eexists. split; [reflexivity|]. split; reflexivity.
    + cbn [outcome collection]. rewrite set_users_same.
      eexists. split; [reflexivity|]. split; reflexivity.
Qed.

(** A password change with the right current password and a new
    password that passes the schema is answered 200 and stores the
    bcrypt hash of the new password for that user, every other field and
    every other user as they were. *)
Theorem changePassword_stores_hash
  (req : Http.Request PasswordBody) (w : World) (db : Db)
  (me u : UserModel.User) (hash : string) :
  Http.user req = Some me ->
  findById UserModel._id (UserModel._id me) (users db) = Some u ->
  UserModel.password u = Some hash ->
  bcrypt_compare (currentPassword (Http.body req)) hash = true ->
  newPassword (Http.body req) <> hash ->
  UserModel.validate (UserModel.set_password (Some (newPassword (Http.body req))) u) = [] ->
  let u' :=
    UserModel.set_password
      (Some (bcrypt_hash (newPassword (Http.body req)) 12 (salt w))) u in
  exists db',
    changePassword req w db
    = (db', Ok (Http.mkResponse 200 true (Some "Password updated successfully")
                  None None None))
    /\ findById UserModel._id (UserModel._id me) (users db') = Some u'
    /\ (forall id, id <> UserModel._id me ->
                   findById UserModel._id id (users db')
                   = findById UserModel._id id (users db))
    /\ tasks db' = tasks db /\ products db' = products db.
Proof.
  intros Huser Hstored Hpw Hcmp Hnew Hvalid. cbv zeta.
  destruct (findById_In _ _ _ _ _ Hstored) as [_ Hid].
  set (u' := UserModel.set_password
               (Some (bcrypt_hash (newPassword (Http.body req)) 12 (salt w))) u).
  exists (set_users (persist UserModel._id u' (users db)) db).
  split; [|split; [|split; [|split; reflexivity]]].
  - unfold changePassword, ErrorMiddleware.asyncHandler.
    rewrite Huser, Hstored. cbv zeta.
    change (UserModel.fields (UserModel.loaded u)) with u.
    unfold UserModel.comparePassword. rewrite Hpw, Hcmp. cbn [negb].
    unfold assignPassword.
    change (UserModel.fields (UserModel.loaded u)) with u. rewrite Hpw.
    destruct (String.eqb_spec hash (newPassword (Http.body req))) as [Heq|_];
      [now destruct Hnew|].
    destruct (save_new_password (salt w)
                (UserModel.assign "password"
                   (UserModel.set_password (Some (newPassword (Http.body req))))
                   (UserModel.loaded u))
                (users db) (newPassword (Http.body req))
                eq_refl eq_refl eq_refl eq_refl) as [_ Hgo].
    rewrite Hgo; [reflexivity | exact Hvalid|].
    exists u. simpl. rewrite Hid. exact Hstored.
  - rewrite users_set_users. rewrite <- Hid.
    apply (findById_persist UserModel.User UserModel._id u').
  - intros id Hne. rewrite users_set_users.
    apply findById_persist_other. simpl. now rewrite Hid.
Qed.
End SettingsFacts.

(** ** The user routes: delete and update *)

Section MoreRouteLemmas.
Variable D : Type.
Variable id_of : D -> ObjectId.

Lemma remove_absent (c : list D) (id : ObjectId) :
  findById id_of id c = None -> remove id_of id c = c.
Proof.
  unfold findById. induction c as [|x rest IH]; simpl; [reflexivity|].
  destruct (String.eqb (id_of x) id); [discriminate|].
  intros H. now rewrite IH.
Qed.

Lemma remove_length (c : list D) (id : ObjectId) (d : D) :
  findById id_of id c = Some d ->
  List.length c = S (List.length (remove id_of id c)).
Proof.
  unfold findById. induction c as [|x rest IH]; simpl; [discriminate|].
  destruct (String.eqb (id_of x) id); [reflexivity|].
  intros H. simpl. now rewrite <- IH.
Qed.
End MoreRouteLemmas.

Section UserRouteFacts.
Context {E : Externals}.

Lemma user_updateFirst_found (oid : ObjectId) (u : UserUpdate.Update)
  (c : list UserModel.User) (x : UserModel.User) :
  findById UserModel._id oid c = Some x ->
  findById UserModel._id oid (UserUpdate.updateFirst oid u c)
  = Some (UserUpdate.applyUpdate u x).
Proof.
  unfold findById. induction c as [|y rest IH]; simpl; [discriminate|].
  destruct (String.eqb (UserModel._id y) oid) eqn:Hy; simpl.
  - intros H. injection H as <-. now rewrite Hy.
  - rewrite Hy. exact IH.
Qed.

Lemma user_updateFirst_other (oid other : ObjectId) (u : UserUpdate.Update)
  (c : list UserModel.User) :
  other <> oid ->
  findById UserModel._id other (UserUpdate.updateFirst oid u c)
  = findById UserModel._id other c.
Proof.
  intros Hne. unfold findById. induction c as [|y rest IH]; simpl; [reflexivity|].
  destruct (String.eqb_spec (UserModel._id y) oid) as [Hy|Hy]; simpl.
  - destruct (String.eqb_spec (UserModel._id y) other) as [Ho|_]; [|reflexivity].
    destruct Hne. now rewrite <- Ho, Hy.
  - destruct (String.eqb (UserModel._id y) other); [reflexivity | exact IH].
Qed.

(** An admin's [DELETE /api/users/:id].  An id that is no ObjectId
    passes a CastError on, which the error handler answers 404; an id
    nobody has is answered 404 with the users as they were; a stored id is
    answered 200 and removes one user, the one with that id when ids are
    distinct.  No other user is touched in any case. *)
Theorem deleteUser_by_admin
  {B : Type} (req : Http.Request B) (w : World) (db : Db) (admin : UserModel.User) :
  Http.user req = Some admin ->
  UserModel.role admin = "admin" ->
  let r := UserRoutes.deleteUser req w db in
  (castObjectId (Http.params_id req) = None ->
   exists e, r = (db, Throw e)
             /\ ErrorMiddleware.errorHandler e
                = Ok (errorEnvelope e 404 "Resource not found"))
  /\ (forall oid,
         castObjectId (Http.params_id req) = Some oid ->
         (findById UserModel._id oid (users db) = None ->
          r = (db, Ok (Http.failure 404 "User not found")))
         /\ (forall target,
                findById UserModel._id oid (users db) = Some target ->
                snd r = Ok (Http.mkResponse 200 true (Some "User deleted successfully")
                              None None None)
                /\ List.length (users db) = S (List.length (users (fst r)))
                /\ (NoDup (map UserModel._id (users db)) ->
                    findById UserModel._id oid (users (fst r)) = None))
         /\ (forall other, other <> oid ->
                           findById UserModel._id other (users (fst r))
                           = findById UserModel._id other (users db))).
Proof.
  intros Huser Hrole. cbv zeta.
  unfold UserRoutes.deleteUser, Http.use, AuthMiddleware.requireAdmin,
    AuthMiddleware.requireRole.
  rewrite Huser, Hrole. cbn [JS.includes existsb String.eqb Ascii.eqb Bool.eqb orb negb].
  unfold UserRoutes.deleteUserHandler, ErrorMiddleware.asyncHandler,
    UserModel.findByIdAndDelete.
  split.
  - intros ->. rewrite set_users_same. eexists. split; reflexivity.
  - intros oid ->. split; [|split].
    + intros Hnone. rewrite Hnone, (remove_absent _ _ _ _ Hnone).
      now rewrite set_users_same.
    + intros target Hsome. rewrite Hsome. cbn [fst snd]. rewrite users_set_users.
      split; [reflexivity|]. split.
      * exact (remove_length _ _ _ _ _ Hsome).
      * apply findById_remove_gone.
    + intros other Hne.
      destruct (findById UserModel._id oid (users db)); cbn [fst];
        rewrite users_set_users; now apply findById_remove_other.
Qed.

(** [PUT /api/users/:id] looks at no role and runs no document hook:
    whoever the acting user is, a valid update of a stored user is
    answered 200 and stored as submitted.  A submitted password is stored
    as it is, not hashed; the response leaves the password out. *)
Theorem updateUser_writes_as_submitted
  (req : Http.Request UserUpdate.Update) (w : World) (db : Db)
  (oid : ObjectId) (target : UserModel.User) :
  castObjectId (Http.params_id req) = Some oid ->
  findById UserModel._id oid (users db) = Some target ->
  UserUpdate.validateUpdate (Http.body req) = [] ->
  let stored := UserUpdate.applyUpdate (Http.body req) target in
  exists db',
    UserUpdate.updateUser req w db
    = (db', Ok (mkEnvelope 200 true None None (Some (UserModel.withoutPassword stored))))
    /\ findById UserModel._id oid (users db') = Some stored
    /\ (forall pw, UserUpdate.u_password (Http.body req) = Some pw ->
                   UserModel.password stored = Some pw)
    /\ (forall other, other <> oid ->
                      findById UserModel._id other (users db')
                      = findById UserModel._id other (users db)).
Proof.
  intros Hcast Hfound Hvalid. cbv zeta.
  unfold UserUpdate.updateUser, UserUpdate.findByIdAndUpdate.
  rewrite Hcast, Hvalid. cbv zeta.
  rewrite (user_updateFirst_found _ _ _ _ Hfound).
  eexists. split; [reflexivity|]. rewrite users_set_users.
  split; [now apply user_updateFirst_found|]. split.
  - intros pw Hpw. unfold UserUpdate.applyUpdate. simpl. now rewrite Hpw.
  - intros other Hne. now apply user_updateFirst_other.
Qed.

(** Since the update route has no role guard, a user whose role it sets
    to "admin" passes [requireAdmin] on the next request made as the
    stored user, whatever the role was before. *)
Theorem updateUser_grants_admin
  {B : Type} (req : Http.Request UserUpdate.Update) (next : Http.Request B)
  (w w' : World) (db : Db) (oid : ObjectId) (target : UserModel.User) :
  castObjectId (Http.params_id req) = Some oid ->
  findById UserModel._id oid (users db) = Some target ->
  Http.body req = UserUpdate.mkUpdate None (Some "admin") None ->
  let db' := fst (UserUpdate.updateUser req w db) in
  exists stored,
    findById UserModel._id oid (users db') = Some stored
    /\ UserModel.role stored = "admin"
    /\ (Http.user next = Some stored ->
        AuthMiddleware.requireAdmin next w' db' = Http.Next next).
Proof.
  intros Hcast Hfound Hbody. cbv zeta.
  unfold UserUpdate.updateUser, UserUpdate.findByIdAndUpdate.
  rewrite Hcast, Hbody. cbn [UserUpdate.validateUpdate UserUpdate.u_password
    UserUpdate.u_role JS.includes UserModel.roleEnum existsb String.eqb Ascii.eqb
    Bool.eqb orb app].
  cbv zeta. rewrite (user_updateFirst_found _ _ _ _ Hfound). cbn [fst].
  rewrite users_set_users.
  exists (UserUpdate.applyUpdate (UserUpdate.mkUpdate None (Some "admin") None) target).
  split; [now apply user_updateFirst_found|]. split; [reflexivity|].
  intros Hnext. unfold AuthMiddleware.requireAdmin, AuthMiddleware.requireRole.
  rewrite Hnext. reflexivity.
Qed.
End UserRouteFacts.

(** ** The task routes *)

Section TaskRouteFacts.
Context {E : Externals}.

Lemma task_updateFirst_found (oid : ObjectId) (u : TaskModel.Update)
  (c : list TaskModel.Task) (t : TaskModel.Task) :
  findById TaskModel._id oid c = Some t ->
  findById TaskModel._id oid (TaskModel.updateFirst oid u c)
  = Some (TaskModel.applyUpdate u t).
Proof.
  unfold findById. induction c as [|y rest IH]; simpl; [discriminate|].
  destruct (String.eqb (TaskModel._id y) oid) eqn:Hy; simpl.
  - intros H. injection H as <-. now rewrite Hy.
  - rewrite Hy. exact IH.
Qed.

Lemma set_tasks_same (db : Db) : set_tasks (tasks db) db = db.
Proof. now destruct db. Qed.

(** Errors of the task update behind the auth middleware.  For a request
    the middleware lets through: an id that is no ObjectId is answered 404
    "Resource not found" by the error handler; a progress above 100 or
    below 0 is answered 400 with the schema's message for [progress],
    followed, when the body also carries a status outside the enum, by a
    comma and the schema's message for [status]; in both cases nothing is
    written. *)
Theorem updateTask_errors_through_app
  (rs : Server.Routers TaskModel.Update) (req req' : Http.Request TaskModel.Update)
  (w : World) (db : Db) :
  Server.taskRoutes rs = TaskRoutes.updateTask ->
  AuthMiddleware.authenticateToken req w db = Http.Next req' ->
  (castObjectId (Http.params_id req) = None ->
   exists e, Server.app rs Server.ApiTasks req w db
             = (db, Ok (errorEnvelope e 404 "Resource not found")))
  /\ (forall oid n,
         castObjectId (Http.params_id req) = Some oid ->
         TaskModel.u_progress (Http.body req) = Some n ->
         let forStatus :=
           match TaskModel.u_status (Http.body req) with
           | None => ""
           | Some s =>
               if JS.includes TaskModel.statusEnum s then ""
               else (", `" ++ s ++ "` is not a valid enum value for path `status`.")%string
           end in
         (100 < n ->
          exists e, Server.app rs Server.ApiTasks req w db
                    = (db, Ok (errorEnvelope e 400
                                 ("Progress cannot exceed 100%" ++ forStatus)%string)))
         /\ (n < 0 ->
             exists e, Server.app rs Server.ApiTasks req w db
                       = (db, Ok (errorEnvelope e 400
                                    ("Progress cannot be negative" ++ forStatus)%string)))).
Proof.
  intros Hroute Hauth.
  destruct (authenticateToken_next req req' w db Hauth)
    as [token [decoded [oid0 [u [_ [_ [_ [_ [_ [_ [Hreq' _]]]]]]]]]]].
  assert (Hid : Http.params_id req' = Http.params_id req) by (now subst req').
  assert (Hbody : Http.body req' = Http.body req) by (now subst req').
  unfold Server.app, Server.mounted, Http.use. rewrite Hauth, Hroute.
  unfold TaskRoutes.updateTask, ErrorMiddleware.asyncHandler,
    TaskModel.findByIdAndUpdate.
  rewrite Hid, Hbody.
  split.
  - intros ->. rewrite set_tasks_same. eexists. reflexivity.
  - intros oid n -> Hprogress. cbv zeta.
    unfold TaskModel.validateUpdate, TaskModel.validateProgress, TaskModel.validateStatus.
    rewrite Hprogress.
    split.
    + intros Hbig.
      destruct (Z.ltb_spec n 0); [lia|]. destruct (Z.ltb_spec 100 n); [|lia].
      destruct (TaskModel.u_status (Http.body req)) as [s|];
        [destruct (JS.includes TaskModel.statusEnum s)|];
        cbn [app]; rewrite set_tasks_same; eexists; reflexivity.
    + intros Hneg.
      destruct (Z.ltb_spec n 0); [|lia].
      destruct (TaskModel.u_status (Http.body req)) as [s|];
        [destruct (JS.includes TaskModel.statusEnum s)|];
        cbn [app]; rewrite set_tasks_same; eexists; reflexivity.
Qed.

(** The update route runs no hook, so it never sets a completion time:
    marking a stored task "completed" through it leaves [completedAt] as
    it was, where [save] of the same task records the time of the save. *)
Theorem updateTask_skips_completedAt
  (req : Http.Request TaskModel.Update) (w : World) (db : Db)
  (oid : ObjectId) (t : TaskModel.Task) :
  castObjectId (Http.params_id req) = Some oid ->
  findById TaskModel._id oid (tasks db) = Some t ->
  Http.body req = TaskModel.mkUpdate (Some "completed") None None ->
  TaskModel.completedAt t = None ->
  0 <= TaskModel.progress t <= 100 ->
  let db' := fst (TaskRoutes.updateTask req w db) in
  let changed := TaskModel.set_status "completed" t in
  findById TaskModel._id oid (tasks db') = Some changed
  /\ TaskModel.completedAt changed = None
  /\ TaskModel.completedAt (this (TaskModel.save (now w) changed (tasks db)))
     = Some (now w).
Proof.
  intros Hcast Hfound Hbody Hnone Hrange. cbv zeta.
  unfold TaskRoutes.updateTask, ErrorMiddleware.asyncHandler,
    TaskModel.findByIdAndUpdate.
  rewrite Hcast, Hbody.
  cbn [TaskModel.validateUpdate TaskModel.u_status TaskModel.u_progress
         TaskModel.validateStatus JS.includes TaskModel.statusEnum existsb
         String.eqb Ascii.eqb Bool.eqb orb app].
  cbv zeta.
  rewrite (task_updateFirst_found _ _ _ _ Hfound). cbn [fst].
  split; [|split].
  - change (tasks (set_tasks ?ts db)) with ts.
    now apply task_updateFirst_found.
  - exact Hnone.
  - unfold TaskModel.save, TaskModel.validate, TaskModel.validateProgress.
    cbn [TaskModel.status TaskModel.progress TaskModel.set_status
           TaskModel.validateStatus JS.includes TaskModel.statusEnum existsb
           String.eqb Ascii.eqb Bool.eqb orb app].
    destruct (Z.ltb_spec (TaskModel.progress t) 0); [lia|].
    destruct (Z.ltb_spec 100 (TaskModel.progress t)); [lia|].
    cbn [this]. unfold TaskModel.preSave.
    cbn [TaskModel.status TaskModel.completedAt TaskModel.set_status
           String.eqb Ascii.eqb Bool.eqb andb].
    now rewrite Hnone.
Qed.

(** Deleting a stored task answers 200 and a lookup of the same id
    afterwards answers 404 "Task not found" (ids being distinct), while
    every other task is found as before; deleting an id no task has
    answers 404 and changes nothing. *)
Theorem deleteTask_then_getTask
  {B : Type} (req : Http.Request B) (w w' : World) (db : Db) (oid : ObjectId) :
  castObjectId (Http.params_id req) = Some oid ->
  let r := TaskQueries.deleteTask req w db in
  (findById TaskModel._id oid (tasks db) = None ->
   r = (db, Ok (Http.failure 404 "Task not found")))
  /\ (forall t,
         findById TaskModel._id oid (tasks db) = Some t ->
         NoDup (map TaskModel._id (tasks db)) ->
         snd r = Ok (Http.mkResponse 200 true (Some "Task deleted successfully")
                       None None None)
         /\ TaskQueries.getTask req w' (fst r)
            = (fst r, Ok (Http.failure 404 "Task not found")))
  /\ (forall other, other <> oid ->
                    findById TaskModel._id other (tasks (fst r))
                    = findById TaskModel._id other (tasks db)).
Proof.
  intros Hcast. cbv zeta.
  unfold TaskQueries.deleteTask, ErrorMiddleware.asyncHandler,
    TaskQueries.findByIdAndDelete.
  rewrite Hcast.
  split; [|split].
  - intros Hnone. rewrite Hnone, (remove_absent _ _ _ _ Hnone).
    now rewrite set_tasks_same.
  - intros t Hsome Hnd. rewrite Hsome. cbn [fst snd].
    split; [reflexivity|].
    unfold TaskQueries.getTask, ErrorMiddleware.asyncHandler, TaskModel.findByIdCast.
    rewrite Hcast.
    change (tasks (set_tasks ?ts db)) with ts.
    now rewrite (findById_remove_gone _ _ _ _ Hnd).
  - intros other Hne.
    destruct (findById TaskModel._id oid (tasks db)); cbn [fst];
      change (tasks (set_tasks ?ts db)) with ts; now apply findById_remove_other.
Qed.
End TaskRouteFacts.

(** ** Product and task virtuals *)

Section VirtualFacts.
Import ProductModel.

Lemma find_demoted (imgs : list Image) :
  find isPrimary (map (set_isPrimary false) imgs) = None.
Proof. induction imgs as [|img rest IH]; simpl; auto. Qed.

Lemma find_app_none {A : Type} (f : A -> bool) (xs ys : list A) :
  find f xs = None -> find f (xs ++ ys) = find f ys.
Proof.
  induction xs as [|x rest IH]; simpl; [reflexivity|].
  destruct (f x); [discriminate | exact IH].
Qed.

Lemma this_save_images (p : Product) (c : list Product) :
  (primaryCount (images p) <= 1)%nat -> images (this (save p c)) = images p.
Proof.
  intros Hle. unfold save. destruct (validate p); simpl; [|reflexivity].
  now rewrite (preSave_at_most_one p Hle).
Qed.

(** After [addImage] with an image flagged primary, the [primaryImage]
    virtual is the url of the image just added, whatever images and flags
    the product had. *)
Theorem addImage_becomes_primaryImage
  (imageData : Image) (p : Product) (c : list Product) :
  isPrimary imageData = true ->
  ProductVirtuals.primaryImage (this (addImage imageData p c)) = Some (url imageData).
Proof.
  intros Hprim. unfold addImage. rewrite Hprim.
  set (p2 := set_images _ _).
  assert (Himgs : images p2 = map (set_isPrimary false) (images p) ++ [imageData])
    by reflexivity.
  assert (Hle : (primaryCount (images p2) <= 1)%nat).
  { rewrite Himgs, primaryCount_app, primaryCount_demoted.
    unfold primaryCount. simpl. rewrite Hprim. simpl. lia. }
  unfold ProductVirtuals.primaryImage.
  rewrite (this_save_images p2 c Hle), Himgs.
  rewrite (find_app_none _ _ _ (find_demoted (images p))). simpl.
  now rewrite Hprim.
Qed.

(** When more than one image is flagged, the pre-save hook makes the
    first image of the list the primary one, flagged before or not, so
    [primaryImage] becomes its url; otherwise the hook leaves
    [primaryImage] as it was. *)
Theorem preSave_primaryImage (p : Product) :
  ((1 < primaryCount (images p))%nat ->
   ProductVirtuals.primaryImage (preSave p) = option_map url (hd_error (images p)))
  /\ ((primaryCount (images p) <= 1)%nat ->
      ProductVirtuals.primaryImage (preSave p) = ProductVirtuals.primaryImage p).
Proof.
  split.
  - intros Hmany. unfold preSave. fold (primaryCount (images p)).
    destruct (Nat.ltb_spec 1 (primaryCount (images p))) as [_|Hfew]; [|lia].
    revert Hmany. unfold primaryCount.
    destruct (images p) as [|img rest]; simpl; intros Hmany; [lia | reflexivity].
  - intros Hle. now rewrite (preSave_at_most_one p Hle).
Qed.

(** After [updateStock] with a sum of stock and quantity within
    [-2^53, 2^53], where the sum is exact, the [stockStatus] virtual is
    "out-of-stock" exactly when the quantity took away all the stock or
    more, and otherwise "low-stock" up to the threshold and "in-stock"
    above it. *)
Theorem updateStock_stockStatus
  (quantity lowStockThreshold : Z) (p : Product) (c : list Product) :
  Z.abs (stock p + quantity) <= 2 ^ 53 ->
  let r := updateStock quantity p c in
  (stock p + quantity <= 0 ->
   ProductVirtuals.stockStatus lowStockThreshold (this r) = "out-of-stock")
  /\ (0 < stock p + quantity <= lowStockThreshold ->
      ProductVirtuals.stockStatus lowStockThreshold (this r) = "low-stock")
  /\ (0 < stock p + quantity -> lowStockThreshold < stock p + quantity ->
      ProductVirtuals.stockStatus lowStockThreshold (this r) = "in-stock").
Proof.
  intros Hsafe. cbv zeta.
  unfold ProductVirtuals.stockStatus.
  rewrite updateStock_stock, (round53_exact _ Hsafe).
  split; [|split].
  - intros H. destruct (Z.eqb_spec (Z.max 0 (stock p + quantity)) 0); [reflexivity | lia].
  - intros H. destruct (Z.eqb_spec (Z.max 0 (stock p + quantity)) 0); [lia|].
    destruct (Z.leb_spec (Z.max 0 (stock p + quantity)) lowStockThreshold);
      [reflexivity | lia].
  - intros H1 H2. destruct (Z.eqb_spec (Z.max 0 (stock p + quantity)) 0); [lia|].
    destruct (Z.leb_spec (Z.max 0 (stock p + quantity)) lowStockThreshold);
      [lia | reflexivity].
Qed.
End VirtualFacts.

Section TaskVirtualFacts.
Import TaskVirtuals.

(** [daysRemaining] is the least number of whole days that reaches the
    due date from now: zero or negative exactly when the date is not in
    the future.  So an overdue task never has a positive [daysRemaining],
    and a task is never overdue once it is completed. *)
Theorem daysRemaining_bounds (dueDate now : Time) (t : TaskModel.Task) :
  let d := daysRemaining dueDate now in
  (d - 1) * dayMs < dueDate - now <= d * dayMs
  /\ (d <= 0 <-> dueDate <= now)
  /\ (isOverdue dueDate now t = true -> d <= 0 /\ TaskModel.status t <> "completed").
Proof.
  cbv zeta. unfold daysRemaining, ceilDiv.
  assert (Hday : dayMs = 86400000) by reflexivity.
  set (a := dueDate - now).
  pose proof (Z.div_mod (- a) dayMs ltac:(rewrite Hday; lia)) as Hdm.
  pose proof (Z.mod_pos_bound (- a) dayMs ltac:(rewrite Hday; lia)) as Hmod.
  rewrite Hday in *.
  assert (Hbounds : (- (- a / 86400000) - 1) * 86400000 < a <= - (- a / 86400000) * 86400000)
    by lia.
  split; [exact Hbounds|].
  split.
  - subst a. split; intros H; lia.
  - unfold isOverdue. intros H. apply andb_prop in H. destruct H as [Hdue Hst].
    apply Z.ltb_lt in Hdue. split; [subst a; lia|].
    intros Heq. rewrite Heq in Hst. discriminate.
Qed.
End TaskVirtualFacts.

(** ** The seed *)

Section SeedFacts.
Context {E : Externals}.
Import Seed.

(** What a seeding that created the account left in the collection. *)
Lemma seed_created (w : World) (c c' : list UserModel.User) (usr : UserModel.User) :
  seedDemoUser w c = (c', Ok (true, usr)) ->
  let u :=
    UserModel.mkUser (freshId w) "Demo" "Admin" "demo@example.com"
      (Some (bcrypt_hash "password123" 12 (salt w))) "admin" true None in
  find isDemo c = None
  /\ findById UserModel._id (freshId w) c = None
  /\ UserModel.validate (UserModel.set_password (Some "password123") u) = []
  /\ c' = c ++ [u] /\ usr = u.
Proof.
  unfold seedDemoUser. cbv zeta. fold isDemo.
  destruct (find isDemo c) eqn:Hfind; [discriminate|].
  pose proof (save_new_inv (salt w) (freshId w) "Demo" "Admin" "demo@example.com"
                "password123" "admin" c) as Hinv.
  cbv zeta in Hinv.
  destruct (outcome (UserModel.save (salt w) _ c)) as [[]|e]; [|discriminate].
  destruct (Hinv eq_refl) as [Hv [Hfresh [Hthis Hcoll]]].
  rewrite Hthis, Hcoll. intros H. injection H as <- <-.
  repeat split; assumption.
Qed.

(** Seeding is idempotent.  When [seedDemoUser] succeeds the demo
    account is stored, created only if no user had the address (then as an
    active admin with the hash of the demo password) and otherwise nothing
    is written; seeding the result again reports [seeded: false] and
    changes nothing. *)
Theorem seedDemoUser_idempotent
  (w : World) (c c' : list UserModel.User) (seeded : bool) (usr : UserModel.User) :
  seedDemoUser w c = (c', Ok (seeded, usr)) ->
  exists stored,
    find isDemo c' = Some stored
    /\ usr = (if seeded then stored else UserModel.withoutPassword stored)
    /\ (seeded = false -> c' = c)
    /\ (seeded = true ->
        c' = c ++ [stored]
        /\ UserModel.role stored = "admin" /\ UserModel.isActive stored = true
        /\ UserModel.password stored = Some (bcrypt_hash "password123" 12 (salt w)))
    /\ forall w', seedDemoUser w' c' = (c', Ok (false, UserModel.withoutPassword stored)).
Proof.
  destruct seeded.
  - intros Hseed. destruct (seed_created w c c' usr Hseed)
      as [Hnone [_ [_ [Hc' Husr]]]].
    set (u := UserModel.mkUser (freshId w) "Demo" "Admin" "demo@example.com"
                (Some (bcrypt_hash "password123" 12 (salt w))) "admin" true None) in *.
    assert (Hfound : find isDemo c' = Some u).
    { rewrite Hc'. now apply find_app_last. }
    exists u. split; [exact Hfound|]. split; [exact Husr|].
    split; [discriminate|]. split; [intros _; repeat split; assumption|].
    intros w'. unfold seedDemoUser. cbv zeta. fold isDemo. now rewrite Hfound.
  - unfold seedDemoUser. cbv zeta. fold isDemo.
    destruct (find isDemo c) as [existing|] eqn:Hfind.
    + intros H. injection H as <- <-. exists existing.
      split; [exact Hfind|]. split; [reflexivity|]. split; [reflexivity|].
      split; [discriminate|].
      intros w'. now rewrite Hfind.
    + destruct (outcome (UserModel.save (salt w) _ c)); discriminate.
Qed.

(** After a seeding that created the account, a login with
    demo@example.com and password123 is answered 200 with the session
    token and a user of role "admin", given that [jwt.sign] does not throw
    but returns that token, that the validator accepts the address and
    leaves it as it is, and that bcrypt's hash verifies and has the length
    the schema asks of a password. *)
Theorem seeded_demo_login
  (w w' : World) (db : Db) (c' : list UserModel.User) (usr : UserModel.User)
  (lreq : Http.Request AuthRoutes.LoginBody) (token : string) :
  AuthRoutes.generateToken (freshId w) (now w') = Ok token ->
  (forall pw s, bcrypt_compare pw (bcrypt_hash pw 12 s) = true) ->
  isEmail "demo@example.com" = true ->
  normalizeEmail "demo@example.com" = "demo@example.com" ->
  (6 <=? Z.of_nat (String.length (bcrypt_hash "password123" 12 (salt w)))) = true ->
  seedDemoUser w (users db) = (c', Ok (true, usr)) ->
  Http.body lreq = AuthRoutes.mkLoginBody "demo@example.com" "password123" ->
  exists db'' profile,
    AuthRoutes.login lreq w' (set_users c' db)
    = (db'', Ok (Http.mkResponse 200 true (Some "Login successful") None
                   (Some (Http.UserAndToken profile token))
                   None))
    /\ UserModel.role profile = "admin"
    /\ UserModel.email profile = "demo@example.com"
    /\ UserModel.password profile = None.
Proof.
  intros Htoken Hcmp Hmail Hnorm Hlen Hseed Hbody.
  destruct (seed_created w (users db) c' usr Hseed)
    as [Hnone [Hfresh [Hvalid [Hc' _]]]]. cbv zeta in Hvalid.
  set (hashed := bcrypt_hash "password123" 12 (salt w)) in *.
  set (u := UserModel.mkUser (freshId w) "Demo" "Admin" "demo@example.com"
              (Some hashed) "admin" true None) in *.
  assert (Hvalid' : UserModel.validate u = []).
  { change u with (UserModel.set_password (Some hashed)
                     (UserModel.set_password (Some "password123") u)).
    rewrite (validate_new_password _ hashed Hvalid).
    rewrite (truthy_of_length _ Hlen). cbn [negb]. unfold UserModel.nameLength.
    destruct (Z.ltb_spec (Z.of_nat (String.length hashed)) 6) as [Hshort|_];
      [|reflexivity].
    apply Z.leb_le in Hlen. lia. }
  unfold AuthRoutes.login, ErrorMiddleware.asyncHandler.
  rewrite Hbody. unfold AuthRoutes.loginErrors.
  cbn [AuthRoutes.l_email AuthRoutes.l_password JS.truthy].
  rewrite Hmail. cbn [app]. cbv zeta. rewrite Hnorm, users_set_users.
  assert (Hlookup : UserModel.findByEmail true "demo@example.com" c'
                    = Some (UserModel.loaded u)).
  { unfold UserModel.findByEmail.
    change (JS.toLowerCase "demo@example.com") with "demo@example.com".
    fold isDemo. rewrite Hc'. now rewrite (find_app_last isDemo (users db) u Hnone). }
  rewrite Hlookup.
  change (UserModel.isActive (UserModel.fields (UserModel.loaded u))) with true.
  cbn [negb].
  change (UserModel.comparePassword "password123"
            (UserModel.fields (UserModel.loaded u)))
    with (Ok (bcrypt_compare "password123" hashed)).
  unfold hashed at 1. rewrite Hcmp. cbn [negb].
  change (UserModel._id (UserModel.fields (UserModel.loaded u))) with (freshId w).
  rewrite Htoken.
  rewrite (save_stored_ok (salt w')
             (UserModel.assign "lastLogin" (UserModel.set_lastLogin (Some (now w')))
                (UserModel.loaded u))
             c' hashed u eq_refl eq_refl eq_refl eq_refl).
  - cbn [outcome collection this]. eexists. eexists.
    split; [reflexivity|]. repeat split.
  - exact Hvalid'.
  - rewrite Hc'. apply (findById_app_last UserModel.User UserModel._id u (users db)).
    exact Hfresh.
Qed.
End SeedFacts.

(** ** The further properties on the demo data *)

Section Witnesses.

Let adaToken : option string := Some "Bearer jwt.64b7f0c2a1d3e4f5a6b7c801".

(** A reset of Ada's password with a reset token. *)
Lemma resetPassword_sound_witness :
  exists u,
    findById UserModel._id (UserModel._id u)
      (users (fst (ResetRoutes.resetPassword (E := ResetDemo.externals)
                     (Demo.request None ""
                        (ResetRoutes.mkResetBody "rst.64b7f0c2a1d3e4f5a6b7c801"
                           "difference"))
                     Demo.world Demo.db)))
    = Some (UserModel.set_password (Some (Demo.hash "difference" 12 7)) u).
Proof.
  destruct (resetPassword_sound (E := ResetDemo.externals)
              (Demo.request None ""
                 (ResetRoutes.mkResetBody "rst.64b7f0c2a1d3e4f5a6b7c801" "difference"))
              Demo.world Demo.db
              (fst (ResetRoutes.resetPassword (E := ResetDemo.externals)
                      (Demo.request None ""
                         (ResetRoutes.mkResetBody "rst.64b7f0c2a1d3e4f5a6b7c801"
                            "difference"))
                      Demo.world Demo.db))
              (Http.mkResponse 200 true (Some "Password reset successful") None None None)
              eq_refl eq_refl) as [decoded [u [_ [_ [_ [_ [Hstored _]]]]]]].
  exists u. exact Hstored.
Defined.

(** Forgot, reset and login for Ada. *)
Lemma reset_round_trip_witness :
  exists db2,
    ResetRoutes.resetPassword (E := ResetDemo.externals)
      (Demo.request None ""
         (ResetRoutes.mkResetBody "rst.64b7f0c2a1d3e4f5a6b7c801" "difference"))
      Demo.world Demo.db
    = (db2, Ok (Http.mkResponse 200 true (Some "Password reset successful")
                  None None None))
    /\ exists db3 res3,
        AuthRoutes.login (E := ResetDemo.externals)
          (Demo.request None "" (AuthRoutes.mkLoginBody "Ada@Example.com" "difference"))
          Demo.world db2
        = (db3, Ok res3)
        /\ Http.status res3 = 200.
Proof.
  destruct (reset_round_trip (E := ResetDemo.externals) demo_compare_hash
              Demo.db Demo.ada "Ada@Example.com" "difference"
              "jwt.64b7f0c2a1d3e4f5a6b7c801"
              Demo.world Demo.world Demo.world
              (Demo.request None "" (ResetRoutes.mkForgotBody "Ada@Example.com"))
              (Demo.request None ""
                 (ResetRoutes.mkResetBody "rst.64b7f0c2a1d3e4f5a6b7c801" "difference"))
              (Demo.request None ""
                 (AuthRoutes.mkLoginBody "Ada@Example.com" "difference"))
              eq_refl eq_refl
              eq_refl eq_refl eq_refl eq_refl eq_refl eq_refl eq_refl eq_refl eq_refl
              eq_refl eq_refl eq_refl eq_refl)
    as [_ [db2 [Hreset [_ [db3 [res3 [Hlogin [Hstatus _]]]]]]]].
  exists db2. split; [exact Hreset|]. exists db3, res3. now split.
Defined.

(** Ada changing her password with a wrong current password. *)
Lemma changePassword_refusals_witness :
  SettingsRoutes.changePassword (E := Demo.externals)
    (Http.set_user Demo.ada
       (Demo.request adaToken "" (SettingsRoutes.mkPasswordBody "guess" "difference")))
    Demo.world Demo.db
  = (Demo.db, Ok (Http.failure 400 "Current password is incorrect")).
Proof.
  destruct (changePassword_refusals (E := Demo.externals)
              (Http.set_user Demo.ada
                 (Demo.request adaToken ""
                    (SettingsRoutes.mkPasswordBody "guess" "difference")))
              Demo.world Demo.db Demo.ada Demo.ada "$2a$12$analytical"
              eq_refl eq_refl eq_refl) as [Hwrong _].
  exact (Hwrong eq_refl).
Defined.

(** Ada changing her password with the right one. *)
Lemma changePassword_stores_hash_witness :
  exists db',
    SettingsRoutes.changePassword (E := Demo.externals)
      (Http.set_user Demo.ada
         (Demo.request adaToken ""
            (SettingsRoutes.mkPasswordBody "analytical" "difference")))
      Demo.world Demo.db
    = (db', Ok (Http.mkResponse 200 true (Some "Password updated successfully")
                  None None None))
    /\ findById UserModel._id Demo.adaId (users db')
       = Some (UserModel.set_password (Some "$2a$12$difference") Demo.ada).
Proof.
  destruct (changePassword_stores_hash (E := Demo.externals)
              (Http.set_user Demo.ada
                 (Demo.request adaToken ""
                    (SettingsRoutes.mkPasswordBody "analytical" "difference")))
              Demo.world Demo.db Demo.ada Demo.ada "$2a$12$analytical"
              eq_refl eq_refl eq_refl eq_refl ltac:(discriminate) eq_refl)
    as [db' [Hanswer [Hstored _]]].
  exists db'. split; [exact Hanswer | exact Hstored].
Defined.

Let root : UserModel.User :=
  UserModel.mkUser Demo.newId "Root" "Admin" "root@example.com" None "admin" true None.

(** An admin deleting Bob. *)
Lemma deleteUser_by_admin_witness :
  snd (UserRoutes.deleteUser (E := Demo.externals)
         (Http.set_user root (Demo.request adaToken Demo.bobId tt)) Demo.world Demo.db)
  = Ok (Http.mkResponse 200 true (Some "User deleted successfully") None None None)
  /\ findById UserModel._id Demo.bobId
       (users (fst (UserRoutes.deleteUser (E := Demo.externals)
                      (Http.set_user root (Demo.request adaToken Demo.bobId tt))
                      Demo.world Demo.db)))
     = None.
Proof.
  destruct (deleteUser_by_admin (E := Demo.externals)
              (Http.set_user root (Demo.request adaToken Demo.bobId tt))
              Demo.world Demo.db root eq_refl eq_refl) as [_ Hcast].
  destruct (Hcast Demo.bobId eq_refl) as [_ [Hfound _]].
  destruct (Hfound Demo.bob eq_refl) as [Hanswer [_ Hgone]].
  split; [exact Hanswer|]. apply Hgone.
  repeat constructor; simpl; intuition discriminate.
Defined.

(** Bob's password set through the update route. *)
Lemma updateUser_writes_as_submitted_witness :
  exists db',
    findById UserModel._id Demo.bobId (users db')
    = Some (UserModel.set_password (Some "plain-text") Demo.bob)
    /\ fst (UserUpdate.updateUser (E := Demo.externals)
              (Demo.request adaToken Demo.bobId
                 (UserUpdate.mkUpdate (Some "plain-text") None None))
              Demo.world Demo.db) = db'.
Proof.
  destruct (updateUser_writes_as_submitted (E := Demo.externals)
              (Demo.request adaToken Demo.bobId
                 (UserUpdate.mkUpdate (Some "plain-text") None None))
              Demo.world Demo.db Demo.bobId Demo.bob eq_refl eq_refl eq_refl)
    as [db' [Hanswer [Hstored _]]].
  exists db'. split; [exact Hstored|]. now rewrite Hanswer.
Defined.

(** Ada, a plain user, making herself admin and then passing the guard. *)
Lemma updateUser_grants_admin_witness :
  let promoted :=
    UserModel.mkUser Demo.adaId "Ada" "Lovelace" "ada@example.com"
      (Some "$2a$12$analytical") "admin" true None in
  let db' :=
    fst (UserUpdate.updateUser (E := Demo.externals)
           (Http.set_user Demo.ada
              (Demo.request adaToken Demo.adaId
                 (UserUpdate.mkUpdate None (Some "admin") None)))
           Demo.world Demo.db) in
  findById UserModel._id Demo.adaId (users db') = Some promoted
  /\ AuthMiddleware.requireAdmin
       (Http.set_user promoted (Demo.request adaToken Demo.bobId tt)) Demo.world db'
     = Http.Next (Http.set_user promoted (Demo.request adaToken Demo.bobId tt)).
Proof.
  cbv zeta.
  destruct (updateUser_grants_admin (E := Demo.externals)
              (Http.set_user Demo.ada
                 (Demo.request adaToken Demo.adaId
                    (UserUpdate.mkUpdate None (Some "admin") None)))
              (Http.set_user
                 (UserModel.mkUser Demo.adaId "Ada" "Lovelace" "ada@example.com"
                    (Some "$2a$12$analytical") "admin" true None)
                 (Demo.request adaToken Demo.bobId tt))
              Demo.world Demo.world Demo.db Demo.adaId Demo.ada
              eq_refl eq_refl eq_refl) as [stored [Hstored [_ Hpass]]].
  split; [reflexivity|].
  apply Hpass. rewrite <- Hstored. reflexivity.
Defined.

Let taskRouters : Server.Routers TaskModel.Update :=
  Server.mkRouters TaskModel.Update
    (TaskRoutes.updateTask (E := Demo.externals))
    (TaskRoutes.updateTask (E := Demo.externals))
    (TaskRoutes.updateTask (E := Demo.externals))
    (TaskRoutes.updateTask (E := Demo.externals))
    (TaskRoutes.updateTask (E := Demo.externals)).

(** An update of the draft task that fails on both fields. *)
Lemma updateTask_errors_through_app_witness :
  exists e,
    Server.app (E := Demo.externals) taskRouters Server.ApiTasks
      (Demo.request adaToken Demo.draftId
         (TaskModel.mkUpdate (Some "done") (Some 150) None))
      Demo.world Demo.db
    = (Demo.db,
       Ok (errorEnvelope (E := Demo.externals) e 400
             "Progress cannot exceed 100%, `done` is not a valid enum value for path `status`.")).
Proof.
  destruct (updateTask_errors_through_app (E := Demo.externals) taskRouters
              (Demo.request adaToken Demo.draftId
                 (TaskModel.mkUpdate (Some "done") (Some 150) None))
              (Http.set_user (UserModel.withoutPassword Demo.ada)
                 (Demo.request adaToken Demo.draftId
                    (TaskModel.mkUpdate (Some "done") (Some 150) None)))
              Demo.world Demo.db eq_refl eq_refl) as [_ Hinvalid].
  destruct (Hinvalid Demo.draftId 150 eq_refl eq_refl) as [Hbig _].
  exact (Hbig eq_refl).
Defined.

(** The draft task marked completed through the update route. *)
Lemma updateTask_skips_completedAt_witness :
  findById TaskModel._id Demo.draftId
    (tasks (fst (TaskRoutes.updateTask (E := Demo.externals)
                   (Demo.request adaToken Demo.draftId
                      (TaskModel.mkUpdate (Some "completed") None None))
                   Demo.world Demo.db)))
  = Some (TaskModel.mkTask Demo.draftId "completed" 0 None)
  /\ TaskModel.completedAt
       (this (TaskModel.save 1000 (TaskModel.mkTask Demo.draftId "completed" 0 None)
                (tasks Demo.db)))
     = Some 1000.
Proof.
  destruct (updateTask_skips_completedAt (E := Demo.externals)
              (Demo.request adaToken Demo.draftId
                 (TaskModel.mkUpdate (Some "completed") None None))
              Demo.world Demo.db Demo.draftId Demo.draft
              eq_refl eq_refl eq_refl eq_refl ltac:(simpl; lia))
    as [Hroute [_ Hsave]].
  split; [exact Hroute | exact Hsave].
Defined.

(** The draft task deleted, then looked up. *)
Lemma deleteTask_then_getTask_witness :
  let r :=
    TaskQueries.deleteTask (E := Demo.externals)
      (Demo.request adaToken Demo.draftId tt) Demo.world Demo.db in
  TaskQueries.getTask (E := Demo.externals)
    (Demo.request adaToken Demo.draftId tt) Demo.world (fst r)
  = (fst r, Ok (Http.failure 404 "Task not found")).
Proof.
  cbv zeta.
  destruct (deleteTask_then_getTask (E := Demo.externals)
              (Demo.request adaToken Demo.draftId tt) Demo.world Demo.world Demo.db
              Demo.draftId eq_refl) as [_ [Hfound _]].
  destruct (Hfound Demo.draft eq_refl
              ltac:(repeat constructor; simpl; intuition discriminate))
    as [_ Hget].
  exact Hget.
Defined.

(** A primary cover added to a product without images. *)
Lemma addImage_becomes_primaryImage_witness :
  ProductVirtuals.primaryImage
    (this (ProductModel.addImage
             (ProductModel.mkImage "/img/cover.png" None true 0)
             (ProductModel.mkProduct "64b7f0c2a1d3e4f5a6b7c701" 3 []) []))
  = Some "/img/cover.png".
Proof.
  exact (addImage_becomes_primaryImage
           (ProductModel.mkImage "/img/cover.png" None true 0)
           (ProductModel.mkProduct "64b7f0c2a1d3e4f5a6b7c701" 3 []) [] eq_refl).
Defined.

(** Five units taken from a stock of eight, with a threshold of five. *)
Lemma updateStock_stockStatus_witness :
  ProductVirtuals.stockStatus 5
    (this (ProductModel.updateStock (-5)
             (ProductModel.mkProduct "64b7f0c2a1d3e4f5a6b7c701" 8 []) []))
  = "low-stock".
Proof.
  destruct (updateStock_stockStatus (-5) 5
              (ProductModel.mkProduct "64b7f0c2a1d3e4f5a6b7c701" 8 []) []
              ltac:(simpl; lia)) as [_ [Hlow _]].
  apply Hlow. simpl. lia.
Defined.

(** Seeding the demo database, twice. *)
Lemma seedDemoUser_idempotent_witness :
  let c' := fst (Seed.seedDemoUser (E := Demo.externals) Demo.world (users Demo.db)) in
  exists stored,
    find isDemo c' = Some stored
    /\ forall w',
        Seed.seedDemoUser (E := Demo.externals) w' c'
        = (c', Ok (false, UserModel.withoutPassword stored)).
Proof.
  cbv zeta.
  destruct (seedDemoUser_idempotent (E := Demo.externals) Demo.world (users Demo.db)
              (fst (Seed.seedDemoUser (E := Demo.externals) Demo.world (users Demo.db)))
              true
              (UserModel.mkUser Demo.newId "Demo" "Admin" "demo@example.com"
                 (Some "$2a$12$password123") "admin" true None)
              eq_refl) as [stored [Hfound [_ [_ [_ Hagain]]]]].
  exists stored. split; [exact Hfound | exact Hagain].
Defined.

(** The login of the seeded demo account. *)
Lemma seeded_demo_login_witness :
  let c' := fst (Seed.seedDemoUser (E := Demo.externals) Demo.world (users Demo.db)) in
  exists db'' profile,
    AuthRoutes.login (E := Demo.externals)
      (Demo.request None "" (AuthRoutes.mkLoginBody "demo@example.com" "password123"))
      Demo.world (set_users c' Demo.db)
    = (db'', Ok (Http.mkResponse 200 true (Some "Login successful") None
                   (Some (Http.UserAndToken profile ("jwt." ++ Demo.newId)%string))
                   None))
    /\ UserModel.role profile = "admin".
Proof.
  cbv zeta.
  destruct (seeded_demo_login (E := Demo.externals) Demo.world Demo.world Demo.db
              (fst (Seed.seedDemoUser (E := Demo.externals) Demo.world (users Demo.db)))
              (UserModel.mkUser Demo.newId "Demo" "Admin" "demo@example.com"
                 (Some "$2a$12$password123") "admin" true None)
              (Demo.request None ""
                 (AuthRoutes.mkLoginBody "demo@example.com" "password123"))
              ("jwt." ++ Demo.newId)%string
              eq_refl demo_compare_hash eq_refl eq_refl eq_refl eq_refl eq_refl)
    as [db'' [profile [Hlogin [Hrole _]]]].
  exists db'', profile. split; [exact Hlogin | exact Hrole].
Defined.

End Witnesses.

(** A rejected [save] reports the failure of every path. *)
Example save_reports_every_failure :
  outcome (UserModel.save (E := Demo.externals) 0
             (UserModel.newUser Demo.newId "" "Lovelace" "ada@example.com" "short" "user")
             [])
  = Throw (validationError
             [("firstName", "First name is required");
              ("password", "Password must be at least 6 characters long")]).
Proof. reflexivity. Qed.

(** ** The token of a header, the envelope of an error, and two compositions *)

Section HeaderFacts.

Lemma split_noBlank (s : string) : noBlank s = true -> JS.split " " s = [s].
Proof.
  induction s as [|c rest IH]; simpl; [reflexivity|].
  intros H. apply andb_prop in H. destruct H as [Hc Hrest].
  destruct (Ascii.eqb c " "); [discriminate|].
  now rewrite (IH Hrest).
Qed.

Lemma split_at_blank (a b : string) :
  noBlank a = true ->
  JS.split " " (a ++ String " " b)%string = a :: JS.split " " b.
Proof.
  induction a as [|c rest IH]; simpl; [reflexivity|].
  intros H. apply andb_prop in H. destruct H as [Hc Hrest].
  destruct (Ascii.eqb c " "); [discriminate|].
  now rewrite (IH Hrest).
Qed.

(** The token the auth middleware reads from a header is the second of
    its space-separated words: for a header [scheme token] the token,
    whatever the scheme word is ("Bearer" is not checked), and nothing for
    a header of one word. *)
Theorem bearerToken_second_word (scheme token : string) :
  noBlank scheme = true ->
  noBlank token = true ->
  AuthMiddleware.bearerToken (Some (scheme ++ " " ++ token)%string) = Some token
  /\ (JS.truthy scheme = true -> AuthMiddleware.bearerToken (Some scheme) = None).
Proof.
  intros Hscheme Htoken. unfold AuthMiddleware.bearerToken. split.
  - assert (Htruthy : JS.truthy (scheme ++ " " ++ token)%string = true)
      by (destruct scheme; reflexivity).
    rewrite Htruthy.
    change (scheme ++ " " ++ token)%string with (scheme ++ String " " token)%string.
    rewrite (split_at_blank scheme token Hscheme), (split_noBlank token Htoken).
    reflexivity.
  - intros ->. now rewrite (split_noBlank scheme Hscheme).
Qed.
End HeaderFacts.

(** Two well-formed headers. *)
Lemma bearerToken_second_word_witness :
  AuthMiddleware.bearerToken (Some "Bearer abc.def.ghi") = Some "abc.def.ghi"
  /\ AuthMiddleware.bearerToken (Some "Bearer") = None.
Proof.
  destruct (bearerToken_second_word "Bearer" "abc.def.ghi" eq_refl eq_refl)
    as [Htoken Hnone].
  split; [exact Htoken | exact (Hnone eq_refl)].
Defined.

Section EnvelopeFacts.
Context {E : Externals}.
Import ErrorMiddleware.

(** Whatever the exception, an answer of the error handler is a failure
    envelope with a non-empty message and a non-zero status, without
    [data] or [errors], and it carries a stack only when [NODE_ENV] is
    "development". *)
Theorem errorHandler_envelope (err : JsError) (res : Http.Response) :
  errorHandler err = Ok res ->
  Http.success res = false
  /\ (exists m, Http.message res = Some m /\ JS.truthy m = true)
  /\ Http.status res <> 0
  /\ Http.data res = None /\ Http.errors res = None
  /\ (Http.stack res <> None -> NODE_ENV = Some "development").
Proof.
  unfold errorHandler.
  set (e1 := if String.eqb (name err) "CastError" then _ else _).
  destruct (if code_is_num (code err) 11000 then _ else Ok e1) as [e2|x];
    [|discriminate].
  cbn [bind].
  destruct (if String.eqb (name err) "ValidationError" then _ else Ok e2) as [e3|x];
    [|discriminate].
  cbn [bind].
  set (e4 := if String.eqb (name err) "JsonWebTokenError" then _ else e3).
  set (e5 := if String.eqb (name err) "TokenExpiredError" then _ else e4).
  set (e6 := if code_is_str (code err) "LIMIT_FILE_SIZE" then _ else e5).
  set (e7 := if code_is_str (code err) "LIMIT_UNEXPECTED_FILE" then _ else e6).
  intros H. injection H as <-. cbn [Http.success Http.message Http.status Http.data
                                      Http.errors Http.stack].
  split; [reflexivity|]. split; [|split; [|split; [reflexivity|split; [reflexivity|]]]].
  - destruct (JS.truthy_opt (ev_message e7)) eqn:Hm.
    + destruct (ev_message e7) as [m|]; [|discriminate]. now exists m.
    + now exists "Server Error".
  - destruct (JS.truthy_num (ev_statusCode e7)) eqn:H7.
    + destruct (ev_statusCode e7) as [n|]; [|discriminate]. simpl in H7.
      destruct (Z.eqb_spec n 0); [discriminate | assumption].
    + destruct (JS.truthy_num (statusCode err)) eqn:H0; [|discriminate].
      destruct (statusCode err) as [n|]; [|discriminate]. simpl in H0.
      destruct (Z.eqb_spec n 0); [discriminate | assumption].
  - destruct NODE_ENV as [env|]; [|intros H; now destruct H].
    destruct (String.eqb_spec env "development") as [->|_];
      [reflexivity | intros H; now destruct H].
Qed.
End EnvelopeFacts.

(** The answer to a CastError on the demo configuration. *)
Lemma errorHandler_envelope_witness :
  Http.success (Http.failure 404 "Resource not found") = false
  /\ (exists m, Http.message (Http.failure 404 "Resource not found") = Some m
                /\ JS.truthy m = true)
  /\ Http.status (Http.failure 404 "Resource not found") <> 0
  /\ Http.data (Http.failure 404 "Resource not found") = None
  /\ Http.errors (Http.failure 404 "Resource not found") = None
  /\ (Http.stack (Http.failure 404 "Resource not found") <> None ->
      Some "production" = Some "development").
Proof.
  exact (errorHandler_envelope (E := Demo.externals) (castError "42" "_id")
           (Http.failure 404 "Resource not found") eq_refl).
Defined.

Section CompositionFacts.

(** Two stock updates in a row, every sum involved within [-2^53, 2^53]
    and so exact, add up only while the first does not hit the floor: if
    the first leaves a non-negative stock the result is that of one update
    by the sum; if the first withdraws more than there is, the excess is
    forgotten and the second starts from zero. *)
Theorem updateStock_twice
  (q1 q2 : Z) (p : ProductModel.Product) (c c' : list ProductModel.Product) :
  Z.abs (ProductModel.stock p + q1) <= 2 ^ 53 ->
  Z.abs (ProductModel.stock p + q1 + q2) <= 2 ^ 53 ->
  Z.abs (q1 + q2) <= 2 ^ 53 ->
  Z.abs q2 <= 2 ^ 53 ->
  let once := this (ProductModel.updateStock q1 p c) in
  let twice := this (ProductModel.updateStock q2 once c') in
  (0 <= ProductModel.stock p + q1 ->
   ProductModel.stock twice
   = ProductModel.stock (this (ProductModel.updateStock (q1 + q2) p c)))
  /\ (ProductModel.stock p + q1 < 0 -> ProductModel.stock twice = Z.max 0 q2).
Proof.
  intros Hfirst Hboth Hsum Hsecond. cbv zeta.
  rewrite !updateStock_stock, (round53_exact _ Hfirst).
  split; intros H.
  - rewrite !round53_exact; lia.
  - rewrite round53_exact; lia.
Qed.

Lemma updateProgress_reported (n : Z) (now : Time) (t : TaskModel.Task)
  (c : list TaskModel.Task) :
  TaskModel.updateProgress n now t c
  = TaskModel.save now (reported (Z.max 0 (Z.min 100 n)) t) c.
Proof. reflexivity. Qed.

Lemma reported_fixed (m : Z) (x : TaskModel.Task) :
  TaskModel.progress x = m ->
  (m = 100 -> TaskModel.status x = "completed") ->
  (0 < m -> m <> 100 -> TaskModel.status x = "in-progress") ->
  reported m x = x.
Proof.
  destruct x as [id st pr done]. simpl. intros <- Hdone Hmid.
  unfold reported. simpl.
  destruct (Z.eqb_spec pr 100) as [H100|H100].
  - now rewrite (Hdone H100).
  - destruct (Z.ltb_spec 0 pr) as [Hpos|_]; [|reflexivity].
    now rewrite (Hmid Hpos H100).
Qed.

Lemma reported_shape (m : Z) (t : TaskModel.Task) :
  TaskModel.progress (reported m t) = m
  /\ (m = 100 -> TaskModel.status (reported m t) = "completed")
  /\ (0 < m -> m <> 100 -> TaskModel.status (reported m t) = "in-progress").
Proof.
  unfold reported. simpl.
  destruct (Z.eqb_spec m 100) as [H100|H100]; simpl.
  - split; [reflexivity|]. split; [reflexivity|]. intros _ H. contradiction.
  - destruct (Z.ltb_spec 0 m) as [Hpos|Hzero]; simpl.
    + split; [reflexivity|]. split; [intros H; contradiction | reflexivity].
    + split; [reflexivity|]. split; [intros H; contradiction | intros H; lia].
Qed.

Lemma task_validate_preSave (now : Time) (x : TaskModel.Task) :
  TaskModel.validate (TaskModel.preSave now x) = TaskModel.validate x.
Proof.
  unfold TaskModel.validate. now rewrite task_preSave_status, task_preSave_progress.
Qed.

Lemma task_preSave_again (now now' : Time) (x : TaskModel.Task) :
  TaskModel.preSave now' (TaskModel.preSave now x) = TaskModel.preSave now x.
Proof.
  destruct x as [id st pr done]. unfold TaskModel.preSave. simpl.
  destruct (String.eqb st "completed") eqn:Hst; destruct done as [d|]; simpl;
    rewrite ?Hst; reflexivity.
Qed.

(** [updateProgress] is idempotent on the document: reporting the same
    progress again, at any later time, leaves the task as the first report
    left it (the completion time of a completed task is kept). *)
Theorem updateProgress_idempotent
  (n : Z) (now now' : Time) (t : TaskModel.Task) (c c' : list TaskModel.Task) :
  let once := this (TaskModel.updateProgress n now t c) in
  this (TaskModel.updateProgress n now' once c') = once.
Proof.
  cbv zeta. rewrite !updateProgress_reported.
  set (m := Z.max 0 (Z.min 100 n)).
  set (t2 := reported m t).
  destruct (reported_shape m t) as [Hp [Hdone Hmid]]. fold t2 in Hp, Hdone, Hmid.
  destruct (TaskModel.validate t2) as [|f fs] eqn:Hv.
  - assert (Honce : this (TaskModel.save now t2 c) = TaskModel.preSave now t2).
    { unfold TaskModel.save. now rewrite Hv. }
    rewrite Honce.
    rewrite (reported_fixed m (TaskModel.preSave now t2)).
    + unfold TaskModel.save. rewrite task_validate_preSave, Hv. simpl.
      apply task_preSave_again.
    + now rewrite task_preSave_progress.
    + intros H. rewrite task_preSave_status. now apply Hdone.
    + intros H1 H2. rewrite task_preSave_status. now apply Hmid.
  - assert (Honce : this (TaskModel.save now t2 c) = t2).
    { unfold TaskModel.save. now rewrite Hv. }
    rewrite Honce. rewrite (reported_fixed m t2 Hp Hdone Hmid).
    unfold TaskModel.save. now rewrite Hv.
Qed.
End CompositionFacts.

(** Five units taken from a stock of three, then two units added. *)
Lemma updateStock_twice_witness :
  ProductModel.stock
    (this (ProductModel.updateStock 2
             (this (ProductModel.updateStock (-5)
                      (ProductModel.mkProduct "64b7f0c2a1d3e4f5a6b7c701" 3 []) []))
             []))
  = 2.
Proof.
  destruct (updateStock_twice (-5) 2
              (ProductModel.mkProduct "64b7f0c2a1d3e4f5a6b7c701" 3 []) [] []
              ltac:(simpl; lia) ltac:(simpl; lia) ltac:(simpl; lia) ltac:(simpl; lia))
    as [_ Hfloor].
  apply Hfloor. simpl. lia.
Defined.
